(** * PVR virtual directory: a shallow embedding of
    [xbmc/pvr/filesystem/PVRGUIDirectory.cpp] and its specification.

    The C++ file is the directory provider behind [pvr://] URLs.  Its
    functions are embedded as Rocq functions over explicit values:

    - the global service broker (PVR manager, settings) is the record
      [CPVRManager], passed explicitly;
    - a [CFileItemList] that the C++ code fills through a reference is
      threaded through every builder, which returns its [bool] result
      together with the new list;
    - [std::shared_ptr<CFileItem>] values that alias an entry of a list
      are positions in that list;
    - code of the repository that this file calls but which lives in
      other translation units (path classes, [CURL], [StringUtils],
      [URIUtils], the item containers) is either taken as a parameter
      (the class [Collaborators]) or modelled from the specification;
      each such definition says so.

    Logging ([CLog]) has no observable effect on a listing and is left
    out. *)

From stdpp Require Import gmap strings list.
From Stdlib Require Import ZArith Ascii Lia.

Local Open Scope Z_scope.

(* stdpp's [naive_solver] clears hypotheses by name. *)
Set Warnings "-clear-no-such-hyp".

(** ** Strings *)

Module StringUtils.

(** Modelled from the spec: [::tolower] on one character of a path
    segment (section 4.1, "segment matching for directory grouping is
    case-insensitive").  Only the ASCII letters [A]..[Z] are folded. *)
Definition tolower (c : ascii) : ascii :=
  let n := N_of_ascii c in
  if ((65 <=? n) && (n <=? 90))%N then ascii_of_N (n + 32) else c.

(** Modelled from the spec: a string with every character folded. *)
Fixpoint ToLower (s : string) : string :=
  match s with
  | EmptyString => EmptyString
  | String c r => String (tolower c) (ToLower r)
  end.

(** Modelled from the spec: [StringUtils::StartsWith(str1, str2)],
    "[str1] starts with [str2]", compared character by character. *)
Fixpoint StartsWith (str1 str2 : string) {struct str2} : bool :=
  match str2 with
  | EmptyString => true
  | String c2 r2 =>
      match str1 with
      | EmptyString => false
      | String c1 r1 => if decide (c1 = c2) then StartsWith r1 r2 else false
      end
  end.

(** Modelled from the spec: [StringUtils::StartsWithNoCase(str1, str2)],
    the case-insensitive prefix test of section 4.4. *)
Fixpoint StartsWithNoCase (str1 str2 : string) {struct str2} : bool :=
  match str2 with
  | EmptyString => true
  | String c2 r2 =>
      match str1 with
      | EmptyString => false
      | String c1 r1 =>
          if decide (tolower c1 = tolower c2) then StartsWithNoCase r1 r2 else false
      end
  end.

(** Modelled from the spec: [StringUtils::EqualsNoCase(str1, str2)],
    the case-insensitive equality of section 4.4. *)
Fixpoint EqualsNoCase (str1 str2 : string) : bool :=
  match str1, str2 with
  | EmptyString, EmptyString => true
  | String c1 r1, String c2 r2 =>
      if decide (tolower c1 = tolower c2) then EqualsNoCase r1 r2 else false
  | _, _ => false
  end.

End StringUtils.

Module URIUtils.

Definition slash : ascii := "/"%char.

(** Modelled from the spec: [URIUtils::RemoveSlashAtEnd], which trims
    the trailing slashes of a directory string (section 4.4). *)
Fixpoint RemoveSlashAtEnd (strFolder : string) : string :=
  match strFolder with
  | EmptyString => EmptyString
  | String c r =>
      match RemoveSlashAtEnd r with
      | EmptyString => if decide (c = slash) then EmptyString else String c EmptyString
      | r' => String c r'
      end
  end.

End URIUtils.

(** ** The directory-membership test (source lines 344-366) *)

(** [while (strReturn[0] == '/') strReturn.erase(0, 1);] *)
Fixpoint EraseLeadingSlashes (strReturn : string) : string :=
  match strReturn with
  | EmptyString => EmptyString
  | String c r => if decide (c = URIUtils.slash) then EraseLeadingSlashes r else strReturn
  end.

Definition TrimSlashes (strOrig : string) : string :=
  let strReturn := EraseLeadingSlashes strOrig in
  URIUtils.RemoveSlashAtEnd strReturn.

Definition IsDirectoryMember (strDirectory strEntryDirectory : string) (bGrouped : bool) : bool :=
  let strUseDirectory := TrimSlashes strDirectory in
  let strUseEntryDirectory := TrimSlashes strEntryDirectory in
  if bGrouped
  then StringUtils.EqualsNoCase strUseDirectory strUseEntryDirectory
  else StringUtils.StartsWithNoCase strUseEntryDirectory strUseDirectory.

(** What the specification means by a directory string "with leading and
    trailing slashes trimmed", stated without reference to the code:
    [t] is [s] minus a run of slashes at either end, and [t] itself
    neither starts nor ends with a slash. *)
Fixpoint OnlySlashes (s : string) : Prop :=
  match s with
  | EmptyString => True
  | String c r => c = URIUtils.slash ∧ OnlySlashes r
  end.

Definition NoSlashAtFront (t : string) : Prop :=
  ∀ r, t ≠ String URIUtils.slash r.

Definition NoSlashAtEnd (t : string) : Prop :=
  ∀ r, t ≠ r +:+ String URIUtils.slash EmptyString.

Definition TrimmedOf (s t : string) : Prop :=
  ∃ a b, s = a +:+ t +:+ b ∧ OnlySlashes a ∧ OnlySlashes b
         ∧ NoSlashAtFront t ∧ NoSlashAtEnd t.

(** ** Data model *)

(** [CVariant], the value of an item property.  Only the alternatives
    this file stores are listed. *)
Inductive CVariant : Type :=
| VariantTypeNull
| VariantTypeInteger (i : Z)
| VariantTypeUnsignedInteger (u : Z)
| VariantTypeBoolean (b : bool)
| VariantTypeString (s : string).

(** Modelled from the spec: [CVariant::asInteger(fallback)] on the
    counters of a folder entry: the stored number, or the fallback when
    the property holds no number. *)
Definition asInteger (v : CVariant) (fallback : Z) : Z :=
  match v with
  | VariantTypeInteger i => i
  | VariantTypeUnsignedInteger u => u
  | _ => fallback
  end.

Global Instance CVariant_eq_dec : EqDecision CVariant.
Proof. solve_decision. Defined.

(** [CDateTime].  Modelled from the spec: the "timestamps" of section
    6, a validity state and a point in time; two of them compare by
    their points in time. *)
Record CDateTime : Type := mkDateTime { dt_IsValid : bool; dt_time : Z }.

Global Instance CDateTime_eq_dec : EqDecision CDateTime.
Proof. solve_decision. Defined.

Definition CDateTime_invalid : CDateTime := mkDateTime false 0.
Definition CDateTime_lt (a b : CDateTime) : bool := dt_time a <? dt_time b.
Definition CDateTime_le (a b : CDateTime) : bool := dt_time a <=? dt_time b.

(** [CGUIListItem::GUIIconOverlay], the two values this file sets and
    the initial one. *)
Inductive GUIIconOverlay : Type :=
| ICON_OVERLAY_NONE
| ICON_OVERLAY_UNWATCHED
| ICON_OVERLAY_WATCHED.

Global Instance GUIIconOverlay_eq_dec : EqDecision GUIIconOverlay.
Proof. solve_decision. Defined.

(** Backend entities, by the accessors this file reads. *)
Record CPVRRecording : Type := mkRecording {
  rec_Path : string;
  rec_ClientID : Z;
  rec_ClientProviderUid : Z;
  rec_IsDeleted : bool;
  rec_IsRadio : bool;
  rec_Directory : string;
  rec_PlayCount : Z;
  (** [GetLocalResumePoint().IsPartWay()]: the locally cached resume point. *)
  rec_LocalResumePointIsPartWay : bool;
  (** [GetResumePoint().IsPartWay()]: may ask the backend. *)
  rec_ResumePointIsPartWay : bool;
  rec_SizeInBytes : Z;
  rec_RecordingTimeAsLocalTime : CDateTime
}.

Record CPVRTimerInfoTag : Type := mkTimer {
  tmr_ClientID : Z;
  tmr_ClientIndex : Z;
  tmr_ClientChannelUID : Z;
  tmr_IsRadio : bool;
  tmr_IsTimerRule : bool;
  tmr_IsDisabled : bool;
  tmr_HasParent : bool;
  tmr_ParentClientIndex : Z
}.

Record CPVRChannel : Type := mkChannel {
  ch_StorageId : Z;
  ch_ClientID : Z;
  ch_ClientProviderUid : Z;
  ch_IsRadio : bool;
  ch_IsHidden : bool;
  (** [LastWatched()]: a [time_t], zero when never watched. *)
  ch_LastWatched : Z;
  ch_LastWatchedGroupId : Z;
  ch_DateTimeAdded : CDateTime
}.

Record CPVRChannelGroupMember : Type := mkMember {
  gm_Path : string;
  gm_GroupID : Z;
  gm_ChannelClientID : Z;
  gm_Channel : CPVRChannel
}.

Record CPVRChannelGroup : Type := mkGroup {
  grp_Path : string;
  grp_GroupID : Z;
  grp_GroupName : string;
  grp_ClientID : Z;
  grp_IsRadio : bool;
  grp_IsHidden : bool;
  grp_IsDeleted : bool;
  (** The "all channels" group of its kind. *)
  grp_IsChannelsOwner : bool;
  grp_Members : list CPVRChannelGroupMember
}.

Record CPVRClient : Type := mkClient {
  cl_ID : Z;
  cl_DateTimeFirstChannelsAdded : CDateTime
}.

Record CPVRProvider : Type := mkProvider {
  prov_ClientId : Z;
  prov_UniqueId : Z
}.

Record CPVREpgInfoTag : Type := mkEpgTag { epg_Path : string }.

Record CPVREpgSearchFilter : Type := mkSearchFilter {
  sf_Path : string;
  sf_Id : Z;
  sf_IsRadio : bool;
  (** What [CPVREpgSearch::Execute] finds for this filter in the guide. *)
  sf_Results : list CPVREpgInfoTag
}.

Global Instance CPVRChannel_eq_dec : EqDecision CPVRChannel.
Proof. solve_decision. Defined.
Global Instance CPVRChannelGroupMember_eq_dec : EqDecision CPVRChannelGroupMember.
Proof. solve_decision. Defined.

(** What an item refers to. *)
Inductive InfoTag : Type :=
| NoInfoTag
| PVRRecordingInfoTag (recording : CPVRRecording)
| PVRTimerInfoTag (timer : CPVRTimerInfoTag)
| PVRChannelGroupMemberInfoTag (groupMember : CPVRChannelGroupMember)
| PVRProviderInfoTag (provider : CPVRProvider)
| EPGSearchFilterInfoTag (filter : CPVREpgSearchFilter)
| EPGInfoTag (tag : CPVREpgInfoTag).

(** [CFileItem], the directory entry. *)
Record CFileItem : Type := mkFileItem {
  m_strPath : string;
  m_bIsFolder : bool;
  m_strLabel : string;
  m_strTitle : string;
  m_bLabelPreformatted : bool;
  m_dateTime : CDateTime;
  m_dwSize : Z;
  m_overlayIcon : GUIIconOverlay;
  m_mapProperties : gmap string CVariant;
  m_art : gmap string string;
  m_infoTag : InfoTag
}.

(** Modelled from the spec: the constructor [CFileItem(path, isFolder)],
    a fresh entry with that target path (section 3, "created fresh per
    listing"). *)
Definition CFileItem_new (strPath : string) (bIsFolder : bool) : CFileItem :=
  {| m_strPath := strPath; m_bIsFolder := bIsFolder; m_strLabel := EmptyString;
     m_strTitle := EmptyString; m_bLabelPreformatted := false;
     m_dateTime := CDateTime_invalid; m_dwSize := 0;
     m_overlayIcon := ICON_OVERLAY_NONE; m_mapProperties := ∅; m_art := ∅;
     m_infoTag := NoInfoTag |}.

(** Modelled from the spec: the [CFileItem] constructors taking a
    backend entity ("a backend-entity reference (for leaves)", section
    3): the item refers to the entity and carries the entity's path. *)
Definition CFileItem_of (strPath : string) (tag : InfoTag) : CFileItem :=
  {| m_strPath := strPath; m_bIsFolder := false; m_strLabel := EmptyString;
     m_strTitle := EmptyString; m_bLabelPreformatted := false;
     m_dateTime := CDateTime_invalid; m_dwSize := 0;
     m_overlayIcon := ICON_OVERLAY_NONE; m_mapProperties := ∅; m_art := ∅;
     m_infoTag := tag |}.

Definition CFileItem_recording (r : CPVRRecording) : CFileItem :=
  CFileItem_of (rec_Path r) (PVRRecordingInfoTag r).
Definition CFileItem_groupMember (m : CPVRChannelGroupMember) : CFileItem :=
  CFileItem_of (gm_Path m) (PVRChannelGroupMemberInfoTag m).
Definition CFileItem_timer (t : CPVRTimerInfoTag) : CFileItem :=
  CFileItem_of EmptyString (PVRTimerInfoTag t).

(** Modelled from the spec: the setters of [CFileItem]; each replaces
    the one attribute it names. *)
Definition SetPath (p : string) (it : CFileItem) : CFileItem :=
  {| m_strPath := p; m_bIsFolder := m_bIsFolder it; m_strLabel := m_strLabel it;
     m_strTitle := m_strTitle it; m_bLabelPreformatted := m_bLabelPreformatted it;
     m_dateTime := m_dateTime it; m_dwSize := m_dwSize it;
     m_overlayIcon := m_overlayIcon it; m_mapProperties := m_mapProperties it;
     m_art := m_art it; m_infoTag := m_infoTag it |}.

Definition SetLabel (l : string) (it : CFileItem) : CFileItem :=
  {| m_strPath := m_strPath it; m_bIsFolder := m_bIsFolder it; m_strLabel := l;
     m_strTitle := m_strTitle it; m_bLabelPreformatted := m_bLabelPreformatted it;
     m_dateTime := m_dateTime it; m_dwSize := m_dwSize it;
     m_overlayIcon := m_overlayIcon it; m_mapProperties := m_mapProperties it;
     m_art := m_art it; m_infoTag := m_infoTag it |}.

Definition SetTitle (t : string) (it : CFileItem) : CFileItem :=
  {| m_strPath := m_strPath it; m_bIsFolder := m_bIsFolder it; m_strLabel := m_strLabel it;
     m_strTitle := t; m_bLabelPreformatted := m_bLabelPreformatted it;
     m_dateTime := m_dateTime it; m_dwSize := m_dwSize it;
     m_overlayIcon := m_overlayIcon it; m_mapProperties := m_mapProperties it;
     m_art := m_art it; m_infoTag := m_infoTag it |}.

Definition SetLabelPreformatted (b : bool) (it : CFileItem) : CFileItem :=
  {| m_strPath := m_strPath it; m_bIsFolder := m_bIsFolder it; m_strLabel := m_strLabel it;
     m_strTitle := m_strTitle it; m_bLabelPreformatted := b;
     m_dateTime := m_dateTime it; m_dwSize := m_dwSize it;
     m_overlayIcon := m_overlayIcon it; m_mapProperties := m_mapProperties it;
     m_art := m_art it; m_infoTag := m_infoTag it |}.

Definition SetDateTime (d : CDateTime) (it : CFileItem) : CFileItem :=
  {| m_strPath := m_strPath it; m_bIsFolder := m_bIsFolder it; m_strLabel := m_strLabel it;
     m_strTitle := m_strTitle it; m_bLabelPreformatted := m_bLabelPreformatted it;
     m_dateTime := d; m_dwSize := m_dwSize it;
     m_overlayIcon := m_overlayIcon it; m_mapProperties := m_mapProperties it;
     m_art := m_art it; m_infoTag := m_infoTag it |}.

Definition SetSize (n : Z) (it : CFileItem) : CFileItem :=
  {| m_strPath := m_strPath it; m_bIsFolder := m_bIsFolder it; m_strLabel := m_strLabel it;
     m_strTitle := m_strTitle it; m_bLabelPreformatted := m_bLabelPreformatted it;
     m_dateTime := m_dateTime it; m_dwSize := n;
     m_overlayIcon := m_overlayIcon it; m_mapProperties := m_mapProperties it;
     m_art := m_art it; m_infoTag := m_infoTag it |}.

Definition SetOverlayImage (o : GUIIconOverlay) (it : CFileItem) : CFileItem :=
  {| m_strPath := m_strPath it; m_bIsFolder := m_bIsFolder it; m_strLabel := m_strLabel it;
     m_strTitle := m_strTitle it; m_bLabelPreformatted := m_bLabelPreformatted it;
     m_dateTime := m_dateTime it; m_dwSize := m_dwSize it;
     m_overlayIcon := o; m_mapProperties := m_mapProperties it;
     m_art := m_art it; m_infoTag := m_infoTag it |}.

Definition WithProperties (f : gmap string CVariant → gmap string CVariant)
    (it : CFileItem) : CFileItem :=
  {| m_strPath := m_strPath it; m_bIsFolder := m_bIsFolder it; m_strLabel := m_strLabel it;
     m_strTitle := m_strTitle it; m_bLabelPreformatted := m_bLabelPreformatted it;
     m_dateTime := m_dateTime it; m_dwSize := m_dwSize it;
     m_overlayIcon := m_overlayIcon it; m_mapProperties := f (m_mapProperties it);
     m_art := m_art it; m_infoTag := m_infoTag it |}.

Definition SetArt (k v : string) (it : CFileItem) : CFileItem :=
  {| m_strPath := m_strPath it; m_bIsFolder := m_bIsFolder it; m_strLabel := m_strLabel it;
     m_strTitle := m_strTitle it; m_bLabelPreformatted := m_bLabelPreformatted it;
     m_dateTime := m_dateTime it; m_dwSize := m_dwSize it;
     m_overlayIcon := m_overlayIcon it; m_mapProperties := m_mapProperties it;
     m_art := <[k := v]> (m_art it); m_infoTag := m_infoTag it |}.

(** Modelled from the spec: the property bag of an entry, "an open map
    of named properties" (section 3); a missing key reads as the null
    variant. *)
Definition GetProperty (strKey : string) (it : CFileItem) : CVariant :=
  default VariantTypeNull (m_mapProperties it !! strKey).
Definition SetProperty (strKey : string) (value : CVariant) : CFileItem → CFileItem :=
  WithProperties (insert strKey value).
Definition ClearProperty (strKey : string) : CFileItem → CFileItem :=
  WithProperties (delete strKey).
(** The value an [int64_t] holds: a sum that leaves the range
    [-2^63 .. 2^63 - 1] wraps around, and a [uint64_t] converted to it
    keeps its low 64 bits. *)
Definition int64_t (z : Z) : Z := (z + 2 ^ 63) mod 2 ^ 64 - 2 ^ 63.

(** [SetProperty(key, GetProperty(key).asInteger() + nVal)], in 64-bit
    signed arithmetic.  The episode counters, which grow by one for
    each recording, are counted in [Z]: that is the code's value below
    2^63 recordings. *)
Definition IncrementProperty (strKey : string) (nVal : Z) (it : CFileItem) : CFileItem :=
  SetProperty strKey (VariantTypeInteger (asInteger (GetProperty strKey it) 0 + nVal)) it.
(** The same call on a byte size, where the range matters: the sum is
    the [int64_t] the code stores, with its wrap-around. *)
Definition IncrementProperty_int64 (strKey : string) (nVal : Z) (it : CFileItem)
    : CFileItem :=
  SetProperty strKey
    (VariantTypeInteger (int64_t (asInteger (GetProperty strKey it) 0 + nVal))) it.

(** [CFileItemList].  Modelled from the spec: the "output sink" of
    section 1, the entries in listing order and the list-wide settings
    this file touches; [Add] appends. *)
Inductive CacheType : Type := CACHE_NEVER | CACHE_IF_SLOW | CACHE_ALWAYS.

Record CFileItemList : Type := mkFileItemList {
  m_items : list CFileItem;
  m_content : string;
  m_cacheToDisc : CacheType;
  (** [AddSortMethod(SortByLabel, label id, ...)]: the label ids added. *)
  m_sortDescription : list Z
}.

Definition CFileItemList_empty : CFileItemList :=
  mkFileItemList [] EmptyString CACHE_IF_SLOW [].

Definition Add (it : CFileItem) (l : CFileItemList) : CFileItemList :=
  mkFileItemList (m_items l ++ [it]) (m_content l) (m_cacheToDisc l) (m_sortDescription l).
Definition WithItems (f : list CFileItem → list CFileItem) (l : CFileItemList) : CFileItemList :=
  mkFileItemList (f (m_items l)) (m_content l) (m_cacheToDisc l) (m_sortDescription l).
Definition SetContent (c : string) (l : CFileItemList) : CFileItemList :=
  mkFileItemList (m_items l) c (m_cacheToDisc l) (m_sortDescription l).
Definition SetCacheToDisc (c : CacheType) (l : CFileItemList) : CFileItemList :=
  mkFileItemList (m_items l) (m_content l) c (m_sortDescription l).
Definition AddSortMethod (labelId : Z) (l : CFileItemList) : CFileItemList :=
  mkFileItemList (m_items l) (m_content l) (m_cacheToDisc l) (m_sortDescription l ++ [labelId]).
Definition IsEmpty (l : CFileItemList) : bool :=
  match m_items l with [] => true | _ => false end.

(** [CURL], by its accessors.  Modelled from the spec: the protocol,
    the file name and the query options of section 6; an option that is
    not given reads as the empty string. *)
Record CURL : Type := mkURL {
  url_Get : string;
  url_GetWithoutOptions : string;
  url_Protocol : string;
  url_FileName : string;
  url_Options : gmap string string
}.

Definition IsProtocol (u : CURL) (type : string) : bool := bool_decide (url_Protocol u = type).
Definition HasOption (u : CURL) (key : string) : bool := bool_decide (is_Some (url_Options u !! key)).
Definition GetOption (u : CURL) (key : string) : string := default EmptyString (url_Options u !! key).

(** The namespace path values, by their accessors (section 3,
    "Namespace Path value"). *)
Record CPVRRecordingsPath : Type := mkRecordingsPath {
  rp_IsValid : bool;
  rp_IsRadio : bool;
  rp_IsDeleted : bool;
  rp_GetUnescapedDirectoryPath : string;
  rp_AsString : string
}.

Record CPVRChannelsPath : Type := mkChannelsPath {
  cp_IsValid : bool;
  cp_IsEmpty : bool;
  cp_IsChannelsRoot : bool;
  cp_IsChannelGroup : bool;
  cp_IsHiddenChannelGroup : bool;
  cp_IsRadio : bool;
  cp_GetGroupName : string;
  cp_GetGroupClientID : Z
}.

Record CPVRTimersPath : Type := mkTimersPath {
  tp_IsValid : bool;
  tp_IsTimersRoot : bool;
  tp_IsTimerRule : bool;
  tp_IsRadio : bool;
  tp_IsRules : bool;
  tp_GetParentId : Z;
  tp_GetClientId : Z;
  tp_AsString : string
}.

Record CPVRProvidersPath : Type := mkProvidersPath {
  pp_IsValid : bool;
  pp_IsProvidersRoot : bool;
  pp_IsProvider : bool;
  pp_IsChannels : bool;
  pp_IsRecordings : bool;
  pp_IsRadio : bool;
  pp_GetKind : string;
  pp_GetClientId : Z;
  pp_GetProviderUid : Z;
  pp_AsString : string
}.

Record CPVREpgSearchPath : Type := mkEpgSearchPath {
  sp_IsValid : bool;
  sp_IsSavedSearchesRoot : bool;
  sp_IsSavedSearch : bool;
  sp_IsRadio : bool;
  sp_GetId : Z
}.

(** GUI windows named by the root menu. *)
Inductive WindowID : Type :=
| WINDOW_TV_GUIDE | WINDOW_RADIO_GUIDE
| WINDOW_TV_CHANNELS | WINDOW_RADIO_CHANNELS
| WINDOW_TV_RECORDINGS | WINDOW_RADIO_RECORDINGS
| WINDOW_TV_PROVIDERS | WINDOW_RADIO_PROVIDERS
| WINDOW_TV_TIMERS | WINDOW_RADIO_TIMERS
| WINDOW_TV_TIMER_RULES | WINDOW_RADIO_TIMER_RULES
| WINDOW_TV_SEARCH | WINDOW_RADIO_SEARCH.

(** ** The backend, as this file sees it *)

(** [CServiceBroker::GetPVRManager()] and the settings component: a
    snapshot of what the accessors return during one call. *)
Record CPVRManager : Type := mkManager {
  mgr_IsStarted : bool;
  mgr_Clients : list CPVRClient;
  mgr_AnyClientSupportingEPG : bool;
  mgr_AnyClientSupportingRecordings : bool;
  (** [ChannelGroups()->Get(false)] and [Get(true)]; either may be null. *)
  mgr_ChannelGroupsTV : option (list CPVRChannelGroup);
  mgr_ChannelGroupsRadio : option (list CPVRChannelGroup);
  (** [Recordings()->GetAll()], [Timers()->GetAll()], [Providers()->GetProviders()]. *)
  mgr_Recordings : list CPVRRecording;
  mgr_Timers : list CPVRTimerInfoTag;
  mgr_Providers : list CPVRProvider;
  (** [EpgContainer().GetSavedSearches(bRadio)]. *)
  mgr_SavedSearches : bool → list CPVREpgSearchFilter;
  SETTING_PVRRECORD_GROUPRECORDINGS : bool;
  SETTING_PVRTIMERS_HIDEDISABLEDTIMERS : bool
}.

Definition ChannelGroups_Get (mgr : CPVRManager) (bRadio : bool) : option (list CPVRChannelGroup) :=
  if bRadio then mgr_ChannelGroupsRadio mgr else mgr_ChannelGroupsTV mgr.

(** Modelled from the spec: the collection accessors of the channel
    group containers (section 6, "per-namespace collection accessors"),
    which are not part of this file.  Each is the lookup its name and
    section 4.5 describe, over the snapshot. *)
Definition GetGroupAll (mgr : CPVRManager) (bRadio : bool) : option CPVRChannelGroup :=
  match ChannelGroups_Get mgr bRadio with
  | Some groups => List.find grp_IsChannelsOwner groups
  | None => None
  end.

Definition GetByIdFromAll (mgr : CPVRManager) (iGroupId : Z) : option CPVRChannelGroup :=
  List.find (λ g, bool_decide (grp_GroupID g = iGroupId))
    (default [] (mgr_ChannelGroupsTV mgr) ++ default [] (mgr_ChannelGroupsRadio mgr)).

Definition GetByUniqueID (group : CPVRChannelGroup) (storageId : Z)
    : option CPVRChannelGroupMember :=
  List.find (λ m, bool_decide (ch_StorageId (gm_Channel m) = storageId)) (grp_Members group).

Inductive Include : Type := Include_ALL | Include_ONLY_HIDDEN | Include_ONLY_VISIBLE.

Definition GetMembers (group : CPVRChannelGroup) (eFilter : Include)
    : list CPVRChannelGroupMember :=
  match eFilter with
  | Include_ALL => grp_Members group
  | Include_ONLY_HIDDEN => List.filter (λ m, ch_IsHidden (gm_Channel m)) (grp_Members group)
  | Include_ONLY_VISIBLE => List.filter (λ m, negb (ch_IsHidden (gm_Channel m))) (grp_Members group)
  end.

Definition Groups_GetMembers (groups : list CPVRChannelGroup) (bExcludeHidden : bool)
    : list CPVRChannelGroup :=
  if bExcludeHidden then List.filter (λ g, negb (grp_IsHidden g)) groups else groups.

Definition GetByName (groups : list CPVRChannelGroup) (strName : string) (iClientID : Z)
    : option CPVRChannelGroup :=
  List.find (λ g, bool_decide (grp_GroupName g = strName ∧ grp_ClientID g = iClientID)) groups.

Definition GetClient (mgr : CPVRManager) (iClientId : Z) : option CPVRClient :=
  List.find (λ c, bool_decide (cl_ID c = iClientId)) (mgr_Clients mgr).

Definition GetSavedSearchById (mgr : CPVRManager) (bRadio : bool) (iId : Z)
    : option CPVREpgSearchFilter :=
  List.find (λ f, bool_decide (sf_Id f = iId)) (mgr_SavedSearches mgr bRadio).

(** Modelled from the spec: the per-provider queries of section 4.8
    ("serves at least one matching channel or recording for the
    requested radio/tv kind"), over the snapshot. *)
Definition ChannelsByProvider (mgr : CPVRManager) (bRadio : bool) (iClientId iProviderId : Z)
    : list CPVRChannelGroupMember :=
  match GetGroupAll mgr bRadio with
  | Some group =>
      List.filter (λ m, bool_decide (ch_ClientID (gm_Channel m) = iClientId
                                     ∧ ch_ClientProviderUid (gm_Channel m) = iProviderId))
        (grp_Members group)
  | None => []
  end.

Definition RecordingsByProvider (mgr : CPVRManager) (bRadio : bool) (iClientId iProviderId : Z)
    : list CPVRRecording :=
  List.filter (λ r, bool_decide (rec_IsRadio r = bRadio ∧ rec_ClientID r = iClientId
                                 ∧ rec_ClientProviderUid r = iProviderId))
    (mgr_Recordings mgr).

Definition GetChannelCountByProvider mgr bRadio iClientId iProviderId : Z :=
  Z.of_nat (length (ChannelsByProvider mgr bRadio iClientId iProviderId)).
Definition GetRecordingCountByProvider mgr bRadio iClientId iProviderId : Z :=
  Z.of_nat (length (RecordingsByProvider mgr bRadio iClientId iProviderId)).
Definition HasChannelForProvider mgr bRadio iClientId iProviderId : bool :=
  bool_decide (0 < GetChannelCountByProvider mgr bRadio iClientId iProviderId).
Definition HasRecordingForProvider mgr bRadio iClientId iProviderId : bool :=
  bool_decide (0 < GetRecordingCountByProvider mgr bRadio iClientId iProviderId).

(** ** Code taken as a parameter

    Constants, path classes and helpers that [PVRGUIDirectory.cpp] uses
    and that are declared elsewhere in the repository.  Nothing is
    assumed about them beyond their types; a theorem that needs more
    says so in a hypothesis. *)
Class Collaborators : Type := {
  (** [pvr/PVRConstants.h]. *)
  PVR_CLIENT_INVALID_UID : Z;
  PVR_PROVIDER_INVALID_UID : Z;
  PVR_TIMER_ANY_CHANNEL : Z;
  PVR_GROUP_ID_UNNKOWN : Z;
  (** [CPVRRecordingsPath]: the constructor from a string, and the two
      members that take a segment. *)
  CPVRRecordingsPath_parse : string → CPVRRecordingsPath;
  GetUnescapedSubDirectoryPath : CPVRRecordingsPath → string → string;
  AppendSegment : CPVRRecordingsPath → string → CPVRRecordingsPath;
  PATH_ACTIVE_TV_RECORDINGS : string;
  PATH_ACTIVE_RADIO_RECORDINGS : string;
  (** [CPVRChannelsPath]. *)
  CPVRChannelsPath_parse : string → CPVRChannelsPath;
  PATH_TV_CHANNELS : string;
  PATH_RADIO_CHANNELS : string;
  (** [CPVRTimersPath]: from a string, and from a parent path with a
      client id and a client index. *)
  CPVRTimersPath_parse : string → CPVRTimersPath;
  CPVRTimersPath_child : string → Z → Z → CPVRTimersPath;
  PATH_TV_TIMERS : string;
  PATH_RADIO_TIMERS : string;
  PATH_TV_TIMER_RULES : string;
  PATH_RADIO_TIMER_RULES : string;
  (** [CPVRProvidersPath]: from a string, from a kind, client and
      provider, and the same with a last segment. *)
  CPVRProvidersPath_parse : string → CPVRProvidersPath;
  CPVRProvidersPath_provider : string → Z → Z → CPVRProvidersPath;
  CPVRProvidersPath_segment : string → Z → Z → string → CPVRProvidersPath;
  PATH_TV_PROVIDERS : string;
  PATH_RADIO_PROVIDERS : string;
  CHANNELS : string;
  RECORDINGS : string;
  (** [CPVREpgSearchPath]. *)
  CPVREpgSearchPath_parse : string → CPVREpgSearchPath;
  PATH_TV_SEARCH : string;
  PATH_RADIO_SEARCH : string;
  (** [CFileItem::GetURL()]: the [CURL] of an item path. *)
  CURL_parse : string → CURL;
  (** [UTILS::GetClientAndProviderFromPath(url, clientId, providerId)]:
      [Some] of the two ids when it returns true. *)
  GetClientAndProviderFromPath : CURL → option (Z * Z);
  (** The comparison of an entry's path with a file name inside
      [CFileItemList::Contains] and [CFileItemList::Get]. *)
  PathEquals : string → string → bool;
  (** [g_localizeStrings.Get], [CWindowTranslator::TranslateWindow],
      [StringUtils::SizeToString]. *)
  g_localizeStrings_Get : Z → string;
  TranslateWindow : WindowID → string;
  SizeToString : Z → string
}.

(** The deferred refresh task and what it sends to the window manager. *)
Record CPVRRecordingFoldersInProgressEpisodesCountJob : Type := mkJob {
  (** A copy of the folders, taken by the constructor. *)
  m_folders : CFileItemList;
  m_recordings : list CPVRRecording
}.

(** [{GUI_MSG_NOTIFY_ALL, activeWindow, 0, GUI_MSG_UPDATE_ITEM, 0, folder}]:
    the entry the message is about, as its position in [m_folders] and
    its value when the message is sent. *)
Record CGUIMessage : Type := GUI_MSG_UPDATE_ITEM {
  msg_position : nat;
  msg_item : CFileItem
}.

(** What a listing call leaves behind: its return value, the list it
    filled, and the jobs it handed to the job manager. *)
Record Outcome : Type := mkOutcome {
  out_ok : bool;
  out_results : CFileItemList;
  out_jobs : list CPVRRecordingFoldersInProgressEpisodesCountJob
}.

Definition NoJobs (r : bool * CFileItemList) : Outcome := mkOutcome (fst r) (snd r) [].

(** ** The functions of [PVRGUIDirectory.cpp] *)

Section Directory.
Context `{Collaborators}.

(** [CFileItemList::Contains(fileName)] and [Get(fileName)].
    Modelled from the spec: a folder entry is "deduplicated by target
    path within one listing" (section 3); [Get] yields the first entry
    whose path compares equal, as a position in the list. *)
Definition Get (fileName : string) (items : list CFileItem) : option nat :=
  fst <$> list_find (λ it, PathEquals (m_strPath it) fileName = true) items.
Definition Contains (fileName : string) (items : list CFileItem) : bool :=
  bool_decide (is_Some (Get fileName items)).

(** *** [Exists] (lines 59-65) *)
Definition Exists (mgr : CPVRManager) (m_url : CURL) : bool :=
  if negb (mgr_IsStarted mgr) then false
  else IsProtocol m_url "pvr" && StringUtils.StartsWith (url_FileName m_url) "recordings".

(** *** [GetRootDirectory] (lines 127-212) *)
Definition GetRootDirectory (mgr : CPVRManager) (bRadio : bool) (results : CFileItemList)
    : bool * CFileItemList :=
  let node (strPath : string) (label : Z) (window : WindowID) (icon : string) :=
    SetArt "icon" icon
      (SetProperty "node.target" (VariantTypeString (TranslateWindow window))
         (SetLabel (g_localizeStrings_Get label) (CFileItem_new strPath true))) in
  (* EPG *)
  let bAnyClientSupportingEPG := mgr_AnyClientSupportingEPG mgr in
  let results :=
    if bAnyClientSupportingEPG
    then Add (node ("pvr://guide/" +:+ (if bRadio then "radio" else "tv") +:+ "/") 19069
                (if bRadio then WINDOW_RADIO_GUIDE else WINDOW_TV_GUIDE)
                "DefaultPVRGuide.png") results
    else results in
  (* Channels *)
  let results :=
    Add (node (if bRadio then PATH_RADIO_CHANNELS else PATH_TV_CHANNELS) 19019
           (if bRadio then WINDOW_RADIO_CHANNELS else WINDOW_TV_CHANNELS)
           "DefaultPVRChannels.png") results in
  (* Recordings *)
  let results :=
    if mgr_AnyClientSupportingRecordings mgr
    then Add (node (if bRadio then PATH_ACTIVE_RADIO_RECORDINGS else PATH_ACTIVE_TV_RECORDINGS)
                19017 (if bRadio then WINDOW_RADIO_RECORDINGS else WINDOW_TV_RECORDINGS)
                "DefaultPVRRecordings.png") results
    else results in
  (* Providers *)
  let results :=
    if decide (1 < Z.of_nat (length (mgr_Providers mgr)))
    then Add (node (if bRadio then PATH_RADIO_PROVIDERS else PATH_TV_PROVIDERS) 19334
                (if bRadio then WINDOW_RADIO_PROVIDERS else WINDOW_TV_PROVIDERS)
                "DefaultPVRProviders.png") results
    else results in
  (* Timers/Timer rules: always present *)
  let results :=
    Add (node (if bRadio then PATH_RADIO_TIMERS else PATH_TV_TIMERS) 19040
           (if bRadio then WINDOW_RADIO_TIMERS else WINDOW_TV_TIMERS)
           "DefaultPVRTimers.png") results in
  let results :=
    Add (node (if bRadio then PATH_RADIO_TIMER_RULES else PATH_TV_TIMER_RULES) 19138
           (if bRadio then WINDOW_RADIO_TIMER_RULES else WINDOW_TV_TIMER_RULES)
           "DefaultPVRTimerRules.png") results in
  (* Search *)
  let results :=
    if bAnyClientSupportingEPG
    then Add (node (if bRadio then PATH_RADIO_SEARCH else PATH_TV_SEARCH) 137
                (if bRadio then WINDOW_RADIO_SEARCH else WINDOW_TV_SEARCH)
                "DefaultPVRSearch.png") results
    else results in
  (true, results).

(** *** [CByClientAndProviderFilter] (lines 368-394) *)
Record CByClientAndProviderFilter : Type := mkFilter {
  m_clientId : Z;
  m_providerId : Z;
  m_applyFilter : bool
}.

Definition CByClientAndProviderFilter_of (url : CURL) : CByClientAndProviderFilter :=
  match GetClientAndProviderFromPath url with
  | Some (clientId, providerId) => mkFilter clientId providerId true
  | None => mkFilter PVR_CLIENT_INVALID_UID PVR_PROVIDER_INVALID_UID false
  end.

(** [Filter(item)] is true when the item is to be left out; the item
    is given by its [ClientID()] and [ClientProviderUid()]. *)
Definition Filter (f : CByClientAndProviderFilter) (itemClientID itemClientProviderUid : Z)
    : bool :=
  if m_applyFilter f then
    if decide (itemClientID ≠ m_clientId f) then true
    else if decide (m_providerId f ≠ PVR_PROVIDER_INVALID_UID
                    ∧ itemClientProviderUid ≠ m_providerId f) then true
    else false
  else false.

Definition FilterRecording f (r : CPVRRecording) : bool :=
  Filter f (rec_ClientID r) (rec_ClientProviderUid r).
Definition FilterChannel f (c : CPVRChannel) : bool :=
  Filter f (ch_ClientID c) (ch_ClientProviderUid c).

(** *** [GetGetRecordingsSubDirectories] (lines 396-484) *)

(** Lines 430-443: the folder entry a recording creates. *)
Definition NewFolder (strCurrent strFilePath : string) (recording : CPVRRecording)
    : CFileItem :=
  let item := CFileItem_new strCurrent true in
  let item := SetPath strFilePath item in
  let item := SetLabel strCurrent item in
  let item := SetLabelPreformatted true item in
  let item := SetDateTime (rec_RecordingTimeAsLocalTime recording) item in
  let item := SetProperty "totalepisodes" (VariantTypeInteger 0) item in
  let item := SetProperty "watchedepisodes" (VariantTypeInteger 0) item in
  let item := SetProperty "unwatchedepisodes" (VariantTypeInteger 0) item in
  let item := SetProperty "inprogressepisodes" (VariantTypeInteger 0) item in
  let item := SetProperty "sizeinbytes" (VariantTypeUnsignedInteger 0) item in
  (* Assume all folders are watched, we'll change the overlay later *)
  SetOverlayImage ICON_OVERLAY_WATCHED item.

(** Lines 447-449: an existing folder takes the later recording time. *)
Definition TouchFolder (recording : CPVRRecording) (item : CFileItem) : CFileItem :=
  if CDateTime_lt (m_dateTime item) (rec_RecordingTimeAsLocalTime recording)
  then SetDateTime (rec_RecordingTimeAsLocalTime recording) item
  else item.

(** Lines 452-468: the counters of the folder [item] points to, and the
    sum of the sizes, an [int64_t]. *)
Definition CountRecording (recording : CPVRRecording) (item : CFileItem) : CFileItem :=
  let item := IncrementProperty "totalepisodes" 1 item in
  let item :=
    if decide (rec_PlayCount recording = 0)
    then IncrementProperty "unwatchedepisodes" 1 item
    else IncrementProperty "watchedepisodes" 1 item in
  let item :=
    if rec_LocalResumePointIsPartWay recording
    then IncrementProperty "inprogressepisodes" 1 item
    else item in
  IncrementProperty_int64 "sizeinbytes" (rec_SizeInBytes recording) item.

(** One turn of the loop over the recordings (lines 407-469).  The
    state is the list being filled and [unwatchedFolders]; a
    [shared_ptr] to an entry of the list is the entry's position. *)
Definition SubDirectories_step (recParentPath : CPVRRecordingsPath)
    (byClientAndProviderFilter : CByClientAndProviderFilter) (bRadio : bool)
    (st : list CFileItem * gset nat) (recording : CPVRRecording)
    : list CFileItem * gset nat :=
  let '(results, unwatchedFolders) := st in
  if FilterRecording byClientAndProviderFilter recording then st
  else if rec_IsDeleted recording then st
  else if negb (bool_decide (rec_IsRadio recording = bRadio)) then st
  else
    let strCurrent := GetUnescapedSubDirectoryPath recParentPath (rec_Directory recording) in
    if decide (strCurrent = EmptyString) then st
    else
      let recChildPath := AppendSegment recParentPath strCurrent in
      let strFilePath := rp_AsString recChildPath in
      let '(results, item) :=
        match Get strFilePath results with
        | None => (* !results.Contains(strFilePath) *)
            (results ++ [NewFolder strCurrent strFilePath recording], length results)
        | Some item => (* item = results.Get(strFilePath) *)
            (alter (TouchFolder recording) item results, item)
        end in
      let results := alter (CountRecording recording) item results in
      let unwatchedFolders :=
        if decide (rec_PlayCount recording = 0)
        then {[item]} ∪ unwatchedFolders
        else unwatchedFolders in
      (results, unwatchedFolders).

(** Lines 472-479: the summed size becomes the entry's size and a string. *)
Definition ReplaceSize (item : CFileItem) : CFileItem :=
  let size := asInteger (GetProperty "sizeinbytes" item) 0 in
  let item := ClearProperty "sizeinbytes" item in
  let item := SetSize size item in
  if decide (0 < size)
  then SetProperty "recordingsize" (VariantTypeString (SizeToString size)) item
  else item.

(** Lines 482-483: the entries [unwatchedFolders] points to. *)
Definition MarkUnwatched (unwatchedFolders : list nat) (results : list CFileItem)
    : list CFileItem :=
  fold_left (λ rs item, alter (SetOverlayImage ICON_OVERLAY_UNWATCHED) item rs)
    unwatchedFolders results.

Definition GetGetRecordingsSubDirectories (recParentPath : CPVRRecordingsPath)
    (recordings : list CPVRRecording)
    (byClientAndProviderFilter : CByClientAndProviderFilter)
    (results : list CFileItem) : list CFileItem :=
  let bRadio := rp_IsRadio recParentPath in
  let '(results, unwatchedFolders) :=
    fold_left (SubDirectories_step recParentPath byClientAndProviderFilter bRadio)
      recordings (results, ∅) in
  let results := ReplaceSize <$> results in
  MarkUnwatched (elements unwatchedFolders) results.

(** *** [CPVRRecordingFoldersInProgressEpisodesCountJob::DoWork] (lines 550-591) *)

(** Lines 569-581: the recordings of the folder's directory that are
    part way through.  The C++ counter is an [int]; it is counted in
    [Z] here (the two agree below [2^31] recordings). *)
Definition CountInProgress (recPath : CPVRRecordingsPath)
    (byClientAndProviderFilter : CByClientAndProviderFilter) (directory : string)
    (recordings : list CPVRRecording) : Z :=
  fold_left
    (λ inProgressEpisodes recording,
       (* Omit recordings not matching criteria. *)
       if negb (bool_decide (rec_IsDeleted recording = rp_IsDeleted recPath))
          || negb (bool_decide (rec_IsRadio recording = rp_IsRadio recPath))
          || FilterRecording byClientAndProviderFilter recording
          || negb (IsDirectoryMember directory (rec_Directory recording) true)
       then inProgressEpisodes
       else if rec_ResumePointIsPartWay recording
            then inProgressEpisodes + 1
            else inProgressEpisodes)
    recordings 0.

(** The body of the loop over [m_folders], for the folder at position
    [i]: the folder afterwards and the messages sent. *)
Definition DoWork_folder (recordings : list CPVRRecording) (i : nat) (folder : CFileItem)
    : CFileItem * list CGUIMessage :=
  let recPath := CPVRRecordingsPath_parse (m_strPath folder) in
  if negb (rp_IsValid recPath) then (folder, [])
  else
    let oldInProgressEpisodes := asInteger (GetProperty "inprogressepisodes" folder) 0 in
    let byClientAndProviderFilter :=
      CByClientAndProviderFilter_of (CURL_parse (m_strPath folder)) in
    let directory := rp_GetUnescapedDirectoryPath recPath in
    let inProgressEpisodes :=
      CountInProgress recPath byClientAndProviderFilter directory recordings in
    if decide (inProgressEpisodes ≠ oldInProgressEpisodes)
    then
      let folder :=
        SetProperty "inprogressepisodes" (VariantTypeInteger inProgressEpisodes) folder in
      (folder, [GUI_MSG_UPDATE_ITEM i folder])
    else (folder, []).

Fixpoint DoWork_loop (recordings : list CPVRRecording) (i : nat) (folders : list CFileItem)
    : list CFileItem * list CGUIMessage :=
  match folders with
  | [] => ([], [])
  | folder :: rest =>
      let '(folder', sent) := DoWork_folder recordings i folder in
      let '(rest', sent') := DoWork_loop recordings (S i) rest in
      (folder' :: rest', sent ++ sent')
  end.

(** The job afterwards, its return value, and the messages it sent. *)
Definition DoWork (job : CPVRRecordingFoldersInProgressEpisodesCountJob)
    : bool * CPVRRecordingFoldersInProgressEpisodesCountJob * list CGUIMessage :=
  match m_recordings job, m_items (m_folders job) with
  | [], _ | _, [] => (true, job, []) (* Nothing to do. *)
  | _, _ =>
      let '(folders, sent) := DoWork_loop (m_recordings job) 0 (m_items (m_folders job)) in
      (true, mkJob (WithItems (λ _, folders) (m_folders job)) (m_recordings job), sent)
  end.

(** *** [GetRecordingsDirectory] (lines 599-668) *)

(** Lines 648-664: the leaves of the current directory. *)
Definition AddRecordingLeaf (recPath : CPVRRecordingsPath)
    (byClientAndProviderFilter : CByClientAndProviderFilter)
    (strDirectory : string) (bGrouped : bool)
    (results : CFileItemList) (recording : CPVRRecording) : CFileItemList :=
  if FilterRecording byClientAndProviderFilter recording then results
  else if negb (bool_decide (rec_IsDeleted recording = rp_IsDeleted recPath))
          || negb (bool_decide (rec_IsRadio recording = rp_IsRadio recPath))
          || negb (IsDirectoryMember strDirectory (rec_Directory recording) bGrouped)
  then results
  else
    let item := CFileItem_recording recording in
    let item :=
      SetOverlayImage (if decide (0 < rec_PlayCount recording)
                       then ICON_OVERLAY_WATCHED else ICON_OVERLAY_UNWATCHED) item in
    Add item results.

Definition GetRecordingsDirectory (mgr : CPVRManager) (m_url : CURL)
    (results : CFileItemList) : Outcome :=
  let results := SetContent "recordings" results in
  let recordings := mgr_Recordings mgr in
  (* [None]: an unsupported value of the url parameter 'view'. *)
  let view : option bool :=
    if HasOption m_url "view" then
      let view := GetOption m_url "view" in
      if decide (view = "grouped") then Some true
      else if decide (view = "flat") then Some false
      else None
    else Some (SETTING_PVRRECORD_GROUPRECORDINGS mgr) in
  match view with
  | None => mkOutcome false results []
  | Some bGrouped =>
      let recPath := CPVRRecordingsPath_parse (url_GetWithoutOptions m_url) in
      if rp_IsValid recPath then
        (* Filter by client id/provider id ? *)
        let byClientAndProviderFilter := CByClientAndProviderFilter_of m_url in
        let strDirectory := rp_GetUnescapedDirectoryPath recPath in
        let results :=
          if negb (rp_IsDeleted recPath) && bGrouped
          then WithItems (GetGetRecordingsSubDirectories recPath recordings
                            byClientAndProviderFilter) results
          else results in
        let jobs :=
          if negb (IsEmpty results) then [mkJob results recordings] else [] in
        let results :=
          fold_left (AddRecordingLeaf recPath byClientAndProviderFilter strDirectory bGrouped)
            recordings results in
        mkOutcome true results jobs
      else mkOutcome false results []
  end.

(** *** [GetRecordingsDirectoryInfo] (lines 488-535) *)

(** Lines 502-523: one turn of the loop over the listing.  The state is
    the item being described and [int64_t sizeInBytes], which wraps
    around as the code's sum does; an entry without a recording is
    passed over. *)
Definition DirectoryInfo_step (st : CFileItem * Z) (result : CFileItem) : CFileItem * Z :=
  let '(item, sizeInBytes) := st in
  match m_infoTag result with
  | PVRRecordingInfoTag recording =>
      let dateTime := m_dateTime item in
      let item :=
        if dt_IsValid dateTime
           || CDateTime_lt dateTime (rec_RecordingTimeAsLocalTime recording)
        then SetDateTime (rec_RecordingTimeAsLocalTime recording) item
        else item in
      let item := IncrementProperty "totalepisodes" 1 item in
      let item :=
        if decide (rec_PlayCount recording = 0)
        then IncrementProperty "unwatchedepisodes" 1 item
        else IncrementProperty "watchedepisodes" 1 item in
      let item :=
        if rec_ResumePointIsPartWay recording
        then IncrementProperty "inprogressepisodes" 1 item
        else item in
      (item, int64_t (sizeInBytes + rec_SizeInBytes recording))
  | _ => st (* if (!recording) continue; *)
  end.

(** The return value, the item afterwards, and the jobs the listing of
    the item's directory handed to the job manager. *)
Definition GetRecordingsDirectoryInfo (mgr : CPVRManager) (item : CFileItem)
    : bool * CFileItem * list CPVRRecordingFoldersInProgressEpisodesCountJob :=
  let results := CFileItemList_empty in
  let dir := CURL_parse (m_strPath item) in
  let listing := GetRecordingsDirectory mgr dir results in
  if out_ok listing then
    let results := out_results listing in
    let item := SetLabelPreformatted true item in
    let item := SetProperty "totalepisodes" (VariantTypeInteger 0) item in
    let item := SetProperty "watchedepisodes" (VariantTypeInteger 0) item in
    let item := SetProperty "unwatchedepisodes" (VariantTypeInteger 0) item in
    let item := SetProperty "inprogressepisodes" (VariantTypeInteger 0) item in
    let '(item, sizeInBytes) := fold_left DirectoryInfo_step (m_items results) (item, 0) in
    let item :=
      SetProperty "recordingsize" (VariantTypeString (SizeToString sizeInBytes)) item in
    let item :=
      if decide (0 < asInteger (GetProperty "unwatchedepisodes" item) 0)
      then SetOverlayImage ICON_OVERLAY_UNWATCHED item
      else SetOverlayImage ICON_OVERLAY_WATCHED item in
    (true, item, out_jobs listing)
  else (false, item, out_jobs listing).

(** *** Saved searches (lines 670-698) *)
Definition GetSavedSearchesDirectory (mgr : CPVRManager) (bRadio : bool)
    (results : CFileItemList) : bool * CFileItemList :=
  (true, fold_left (λ rs search, Add (CFileItem_of (sf_Path search) (EPGSearchFilterInfoTag search)) rs)
           (mgr_SavedSearches mgr bRadio) results).

Definition GetSavedSearchResults (mgr : CPVRManager) (isRadio : bool) (id : Z)
    (results : CFileItemList) : bool * CFileItemList :=
  match GetSavedSearchById mgr isRadio id with
  | Some filter =>
      (true, fold_left (λ rs tag, Add (CFileItem_of (epg_Path tag) (EPGInfoTag tag)) rs)
               (sf_Results filter) results)
  | None => (false, results)
  end.

(** *** Channel groups and their members (lines 700-824) *)
Definition GetChannelGroupsDirectory (mgr : CPVRManager) (bRadio bExcludeHidden : bool)
    (results : CFileItemList) : bool * CFileItemList :=
  match ChannelGroups_Get mgr bRadio with
  | Some channelGroups =>
      (true, fold_left
               (λ rs group,
                  Add (SetLabel (grp_GroupName group)
                         (SetTitle (grp_GroupName group) (CFileItem_new (grp_Path group) true))) rs)
               (Groups_GetMembers channelGroups bExcludeHidden) results)
  | None => (false, results)
  end.

Definition GetLastWatchedChannelGroupMember (mgr : CPVRManager) (channel : CPVRChannel)
    : option CPVRChannelGroupMember :=
  let lastGroupId := ch_LastWatchedGroupId channel in
  if decide (lastGroupId ≠ PVR_GROUP_ID_UNNKOWN) then
    match GetByIdFromAll mgr lastGroupId with
    | Some lastGroup =>
        if negb (grp_IsHidden lastGroup) && negb (grp_IsDeleted lastGroup)
        then GetByUniqueID lastGroup (ch_StorageId channel)
        else None
    | None => None
    end
  else None.

Fixpoint FirstMatchingGroupMember_loop (channelGroups : list CPVRChannelGroup)
    (channel : CPVRChannel) : option CPVRChannelGroupMember :=
  match channelGroups with
  | [] => None
  | channelGroup :: rest =>
      if grp_IsDeleted channelGroup then FirstMatchingGroupMember_loop rest channel
      else
        match GetByUniqueID channelGroup (ch_StorageId channel) with
        | Some groupMember => Some groupMember
        | None => FirstMatchingGroupMember_loop rest channel
        end
  end.

Definition GetFirstMatchingGroupMember (mgr : CPVRManager) (channel : CPVRChannel)
    : option CPVRChannelGroupMember :=
  match ChannelGroups_Get mgr (ch_IsRadio channel) with
  | Some groups =>
      FirstMatchingGroupMember_loop (Groups_GetMembers groups true (* exclude hidden *)) channel
  | None => None
  end.

(** Lines 782-806: one turn of the loop over the visible members of
    the 'All channels' group; [result] grows at its end. *)
Definition AllChannels_step (mgr : CPVRManager) (group : CPVRChannelGroup)
    (result : list CPVRChannelGroupMember) (allGroupMember : CPVRChannelGroupMember)
    : list CPVRChannelGroupMember :=
  match GetLastWatchedChannelGroupMember mgr (gm_Channel allGroupMember) with
  | Some member => result ++ [member] (* Process next 'All channels' group member. *)
  | None =>
      if grp_IsHidden group then
        (* Very special case. 'All channels' group is hidden. *)
        match GetFirstMatchingGroupMember mgr (gm_Channel allGroupMember) with
        | Some member => result ++ [member]
        | None => result
        end
      else
        (* Use the 'All channels' group member. *)
        result ++ [allGroupMember]
  end.

(** [Get(path.IsRadio())->GetByName(...)] dereferences the container
    without a test; a null container is read here as "no group". *)
Definition GetChannelGroupMembers (mgr : CPVRManager) (path : CPVRChannelsPath)
    : list CPVRChannelGroupMember :=
  let groupName := cp_GetGroupName path in
  let members_of (group : option CPVRChannelGroup) :=
    match group with
    | Some group => GetMembers group Include_ALL
    | None => [] (* Unable to obtain members for channel group *)
    end in
  if cp_IsHiddenChannelGroup path then (* hidden channels from the 'all channels' group *)
    members_of (GetGroupAll mgr (cp_IsRadio path))
  else if decide (groupName = "*") then (* all channels across all groups *)
    match GetGroupAll mgr (cp_IsRadio path) with
    | Some group =>
        let allGroupMembers := GetMembers group Include_ONLY_VISIBLE in
        fold_left (AllChannels_step mgr group) allGroupMembers []
    | None => members_of None
    end
  else
    members_of (match ChannelGroups_Get mgr (cp_IsRadio path) with
                | Some groups => GetByName groups groupName (cp_GetGroupClientID path)
                | None => None
                end).

(** *** [GetChannelsDirectory] (lines 826-902) *)

(** Lines 874-890: whether the date-added view leaves the member out. *)
Definition OmittedByDateAdded (mgr : CPVRManager) (groupMember : CPVRChannelGroupMember)
    : bool :=
  let channel := gm_Channel groupMember in
  let dtChannelAdded := ch_DateTimeAdded channel in
  if negb (dt_IsValid dtChannelAdded) then true
  else
    match GetClient mgr (gm_ChannelClientID groupMember) with
    | Some client =>
        let dtFirstChannelsAdded := cl_DateTimeFirstChannelsAdded client in
        (* Ignore channels added on very first GetChannels call for the client. *)
        dt_IsValid dtFirstChannelsAdded && CDateTime_le dtChannelAdded dtFirstChannelsAdded
    | None => false
    end.

(** Lines 861-897: one turn of the loop over the group members. *)
Definition AddChannel (mgr : CPVRManager)
    (byClientAndProviderFilter : CByClientAndProviderFilter)
    (playedOnly dateAdded showHiddenChannels : bool)
    (results : CFileItemList) (groupMember : CPVRChannelGroupMember) : CFileItemList :=
  let channel := gm_Channel groupMember in
  if FilterChannel byClientAndProviderFilter channel then results
  else if negb (bool_decide (showHiddenChannels = ch_IsHidden channel)) then results
  else if playedOnly && bool_decide (ch_LastWatched channel = 0) then results
  else if dateAdded && OmittedByDateAdded mgr groupMember then results
  else
    let item := CFileItem_groupMember groupMember in
    let item :=
      if dateAdded then SetProperty "hideable" (VariantTypeBoolean true) item else item in
    Add item results.

Definition GetChannelsDirectory (mgr : CPVRManager) (m_url : CURL)
    (results : CFileItemList) : bool * CFileItemList :=
  let path := CPVRChannelsPath_parse (url_GetWithoutOptions m_url) in
  if cp_IsValid path then
    if cp_IsEmpty path then
      (* all tv channels *)
      let item := CFileItem_new PATH_TV_CHANNELS true in
      let item := SetLabel (g_localizeStrings_Get 19020) item in
      let item := SetLabelPreformatted true item in
      let results := Add item results in
      (* all radio channels *)
      let item := CFileItem_new PATH_RADIO_CHANNELS true in
      let item := SetLabel (g_localizeStrings_Get 19021) item in
      let item := SetLabelPreformatted true item in
      let results := Add item results in
      (true, results)
    else if cp_IsChannelsRoot path then
      GetChannelGroupsDirectory mgr (cp_IsRadio path) true results
    else if cp_IsChannelGroup path then
      let byClientAndProviderFilter := CByClientAndProviderFilter_of m_url in
      let playedOnly :=
        HasOption m_url "view" && bool_decide (GetOption m_url "view" = "lastplayed") in
      let dateAdded :=
        HasOption m_url "view" && bool_decide (GetOption m_url "view" = "dateadded") in
      let showHiddenChannels := cp_IsHiddenChannelGroup path in
      let groupMembers := GetChannelGroupMembers mgr path in
      (true, fold_left (AddChannel mgr byClientAndProviderFilter playedOnly dateAdded
                          showHiddenChannels) groupMembers results)
    else (false, results)
  else (false, results).

(** *** Timers (lines 907-999) *)
Definition AddTimer (path : CPVRTimersPath) (results : CFileItemList)
    (timer : CPVRTimerInfoTag) : CFileItemList :=
  let item := CFileItem_timer timer in
  let timersPath :=
    CPVRTimersPath_child (tp_AsString path) (tmr_ClientID timer) (tmr_ClientIndex timer) in
  let item := SetPath (tp_AsString timersPath) item in
  Add item results.

Definition GetTimersRootDirectory (path : CPVRTimersPath) (bHideDisabled : bool)
    (timers : list CPVRTimerInfoTag) (results : CFileItemList) : bool * CFileItemList :=
  let bRadio := tp_IsRadio path in
  let bRules := tp_IsRules path in
  (true,
   fold_left
     (λ results timer,
        if (bool_decide (bRadio = tmr_IsRadio timer)
            || (bRules && bool_decide (tmr_ClientChannelUID timer = PVR_TIMER_ANY_CHANNEL)))
           && bool_decide (bRules = tmr_IsTimerRule timer)
           && (negb bHideDisabled || negb (tmr_IsDisabled timer))
        then AddTimer path results timer
        else results)
     timers results).

Definition GetTimersSubDirectory (path : CPVRTimersPath) (bHideDisabled : bool)
    (timers : list CPVRTimerInfoTag) (results : CFileItemList) : bool * CFileItemList :=
  let bRadio := tp_IsRadio path in
  let iParentId := tp_GetParentId path in
  let iClientId := tp_GetClientId path in
  (true,
   fold_left
     (λ results timer,
        if bool_decide (tmr_IsRadio timer = bRadio) && tmr_HasParent timer
           && (bool_decide (iClientId = PVR_CLIENT_INVALID_UID)
               || bool_decide (tmr_ClientID timer = iClientId))
           && bool_decide (tmr_ParentClientIndex timer = iParentId)
           && (negb bHideDisabled || negb (tmr_IsDisabled timer))
        then AddTimer path results timer
        else results)
     timers results).

Definition GetTimersDirectory (mgr : CPVRManager) (m_url : CURL)
    (results : CFileItemList) : bool * CFileItemList :=
  let path := CPVRTimersPath_parse (url_GetWithoutOptions m_url) in
  if tp_IsValid path && (tp_IsTimersRoot path || tp_IsTimerRule path) then
    (* [None]: an unsupported value of the url parameter 'view'. *)
    let view : option bool :=
      if HasOption m_url "view" then
        let view := GetOption m_url "view" in
        if decide (view = "hidedisabled") then Some true else None
      else Some (SETTING_PVRTIMERS_HIDEDISABLEDTIMERS mgr) in
    match view with
    | None => (false, results)
    | Some bHideDisabled =>
        let timers := mgr_Timers mgr in
        if tp_IsTimersRoot path then
          (* Root folder containing either timer rules or timers. *)
          GetTimersRootDirectory path bHideDisabled timers results
        else if tp_IsTimerRule path then
          (* Sub folder containing the timers scheduled by the given timer rule. *)
          GetTimersSubDirectory path bHideDisabled timers results
        else (false, results)
    end
  else (false, results).

(** *** [GetProvidersDirectory] (lines 1001-1113) *)
Definition GetProvidersDirectory (mgr : CPVRManager) (m_url : CURL)
    (results : CFileItemList) : bool * CFileItemList :=
  let path := CPVRProvidersPath_parse (url_GetWithoutOptions m_url) in
  if pp_IsValid path then
    if pp_IsProvidersRoot path then
      (true,
       fold_left
         (λ results provider,
            if negb (HasChannelForProvider mgr (pp_IsRadio path) (prov_ClientId provider)
                       (prov_UniqueId provider))
               && negb (HasRecordingForProvider mgr (pp_IsRadio path) (prov_ClientId provider)
                          (prov_UniqueId provider))
            then results
            else
              let providerPath :=
                CPVRProvidersPath_provider (pp_GetKind path) (prov_ClientId provider)
                  (prov_UniqueId provider) in
              Add (CFileItem_of (pp_AsString providerPath) (PVRProviderInfoTag provider)) results)
         (mgr_Providers mgr) results)
    else if pp_IsProvider path then
      (* Add items for channels and recordings, if at least one matching is available. *)
      let channelCount :=
        GetChannelCountByProvider mgr (pp_IsRadio path) (pp_GetClientId path)
          (pp_GetProviderUid path) in
      let results :=
        if decide (0 < channelCount) then
          let channelsPath :=
            CPVRProvidersPath_segment (pp_GetKind path) (pp_GetClientId path)
              (pp_GetProviderUid path) CHANNELS in
          let channelsItem := CFileItem_new (pp_AsString channelsPath) true in
          let channelsItem := SetLabel (g_localizeStrings_Get 19019) channelsItem in
          let channelsItem := SetArt "icon" "DefaultPVRChannels.png" channelsItem in
          let channelsItem :=
            SetProperty "totalcount" (VariantTypeUnsignedInteger channelCount) channelsItem in
          Add channelsItem results
        else results in
      let recordingCount :=
        GetRecordingCountByProvider mgr (pp_IsRadio path) (pp_GetClientId path)
          (pp_GetProviderUid path) in
      let results :=
        if decide (0 < recordingCount) then
          let recordingsPath :=
            CPVRProvidersPath_segment (pp_GetKind path) (pp_GetClientId path)
              (pp_GetProviderUid path) RECORDINGS in
          let recordingsItem := CFileItem_new (pp_AsString recordingsPath) true in
          let recordingsItem := SetLabel (g_localizeStrings_Get 19017) recordingsItem in
          let recordingsItem := SetArt "icon" "DefaultPVRRecordings.png" recordingsItem in
          let recordingsItem :=
            SetProperty "totalcount" (VariantTypeUnsignedInteger recordingCount) recordingsItem in
          Add recordingsItem results
        else results in
      (true, results)
    else if pp_IsChannels path then
      (* Add all channels served by this provider. *)
      match GetGroupAll mgr (pp_IsRadio path) with
      | Some group =>
          let checkUid := bool_decide (pp_GetProviderUid path ≠ PVR_PROVIDER_INVALID_UID) in
          (true,
           fold_left
             (λ results allGroupMember,
                let channel := gm_Channel allGroupMember in
                if negb (bool_decide (ch_ClientID channel = pp_GetClientId path)) then results
                else if checkUid
                        && negb (bool_decide (ch_ClientProviderUid channel = pp_GetProviderUid path))
                then results
                else Add (CFileItem_groupMember allGroupMember) results)
             (GetMembers group Include_ONLY_VISIBLE) results)
      | None => (false, results)
      end
    else if pp_IsRecordings path then
      (* Add all recordings served by this provider. *)
      let checkUid := bool_decide (pp_GetProviderUid path ≠ PVR_PROVIDER_INVALID_UID) in
      (true,
       fold_left
         (λ results recording,
            if negb (bool_decide (rec_IsRadio recording = pp_IsRadio path)) then results
            else if negb (bool_decide (rec_ClientID recording = pp_GetClientId path)) then results
            else if checkUid
                    && negb (bool_decide (rec_ClientProviderUid recording = pp_GetProviderUid path))
            then results
            else Add (CFileItem_recording recording) results)
         (mgr_Recordings mgr) results)
    else (false, results)
  else (false, results).

(** *** [GetDirectory] (lines 216-315) *)
Definition GetDirectory (mgr : CPVRManager) (m_url : CURL) (results : CFileItemList)
    : Outcome :=
  let base := URIUtils.RemoveSlashAtEnd (url_Get m_url) in
  let fileName := URIUtils.RemoveSlashAtEnd (url_FileName m_url) in
  let results := SetCacheToDisc CACHE_NEVER results in
  if decide (fileName = EmptyString) then
    if mgr_IsStarted mgr then
      let item := CFileItem_new (base +:+ "channels/") true in
      let item := SetLabel (g_localizeStrings_Get 19019) item in (* Channels *)
      let item := SetLabelPreformatted true item in
      let results := Add item results in
      let item := CFileItem_new (base +:+ "recordings/active/") true in
      let item := SetLabel (g_localizeStrings_Get 19017) item in (* Recordings *)
      let item := SetLabelPreformatted true item in
      let results := Add item results in
      let item := CFileItem_new (base +:+ "recordings/deleted/") true in
      let item := SetLabel (g_localizeStrings_Get 19184) item in (* Deleted recordings *)
      let item := SetLabelPreformatted true item in
      let results := Add item results in
      (* Sort by name only. Labels are preformatted. *)
      let results := AddSortMethod 551 results in
      mkOutcome true results []
    else mkOutcome true results []
  else if StringUtils.StartsWith fileName "tv" then
    if mgr_IsStarted mgr then NoJobs (GetRootDirectory mgr false results)
    else mkOutcome true results []
  else if StringUtils.StartsWith fileName "radio" then
    if mgr_IsStarted mgr then NoJobs (GetRootDirectory mgr true results)
    else mkOutcome true results []
  else if StringUtils.StartsWith fileName "recordings" then
    if mgr_IsStarted mgr then GetRecordingsDirectory mgr m_url results
    else mkOutcome true results []
  else if StringUtils.StartsWith fileName "channels" then
    if mgr_IsStarted mgr then NoJobs (GetChannelsDirectory mgr m_url results)
    else mkOutcome true results []
  else if StringUtils.StartsWith fileName "providers" then
    if mgr_IsStarted mgr then NoJobs (GetProvidersDirectory mgr m_url results)
    else mkOutcome true results []
  else if StringUtils.StartsWith fileName "timers" then
    if mgr_IsStarted mgr then NoJobs (GetTimersDirectory mgr m_url results)
    else mkOutcome true results []
  else
    let path := CPVREpgSearchPath_parse (url_Get m_url) in
    if sp_IsValid path then
      if mgr_IsStarted mgr then
        if sp_IsSavedSearchesRoot path then
          NoJobs (GetSavedSearchesDirectory mgr (sp_IsRadio path) results)
        else if sp_IsSavedSearch path then
          NoJobs (GetSavedSearchResults mgr (sp_IsRadio path) (sp_GetId path) results)
        else mkOutcome true results []
      else mkOutcome true results []
    else mkOutcome false results [].

End Directory.

(** ** A stand-in for the code taken as a parameter

    The theorems below hold for every [Collaborators].  To run the
    functions on the fixtures of section 8 of the specification, the
    parameters are given values here. *)

Module Import Fixture.

(** The text between slashes. *)
Fixpoint SplitAtSlashes (s : string) : list string :=
  match s with
  | EmptyString => [EmptyString]
  | String c r =>
      if decide (c = URIUtils.slash) then EmptyString :: SplitAtSlashes r
      else match SplitAtSlashes r with
           | [] => [String c EmptyString]
           | h :: t => String c h :: t
           end
  end.

Definition Segments (s : string) : list string :=
  List.filter (λ x, negb (bool_decide (x = EmptyString))) (SplitAtSlashes s).

Definition FirstSegment (s : string) : string := List.hd EmptyString (SplitAtSlashes s).

Fixpoint JoinWithSlashes (l : list string) : string :=
  match l with
  | [] => EmptyString
  | [x] => x
  | x :: r => x +:+ "/" +:+ JoinWithSlashes r
  end.

Definition digit (c : ascii) : option Z :=
  let n := N_of_ascii c in
  if ((48 <=? n) && (n <=? 57))%N then Some (Z.of_N n - 48) else None.

Fixpoint digits (acc : Z) (s : string) : option Z :=
  match s with
  | EmptyString => Some acc
  | String c r => match digit c with Some d => digits (10 * acc + d) r | None => None end
  end.

Definition number (s : string) : option Z :=
  match s with
  | EmptyString => None
  | String "-" (String c r) => Z.opp <$> digits 0 (String c r)
  | _ => digits 0 s
  end.

Definition kind (s : string) : option bool :=
  if decide (s = "tv") then Some false else if decide (s = "radio") then Some true else None.

(** Modelled from the spec: the recordings namespace of section 6,
    [recordings/active/...] and [recordings/deleted/...] with optional
    sub-directory segments; a [tv] or [radio] segment may precede the
    state, and a path without one is a TV path. *)
Definition recordingsPath (bRadio bDeleted : bool) (dir : list string) : CPVRRecordingsPath :=
  {| rp_IsValid := true; rp_IsRadio := bRadio; rp_IsDeleted := bDeleted;
     rp_GetUnescapedDirectoryPath := JoinWithSlashes dir;
     rp_AsString :=
       JoinWithSlashes (["pvr:/"; "recordings"; if bRadio then "radio" else "tv";
                         if bDeleted then "deleted" else "active"] ++ dir) +:+ "/" |}.

Definition invalidRecordingsPath : CPVRRecordingsPath :=
  {| rp_IsValid := false; rp_IsRadio := false; rp_IsDeleted := false;
     rp_GetUnescapedDirectoryPath := EmptyString; rp_AsString := EmptyString |}.

Definition state (s : string) : option bool :=
  if decide (s = "active") then Some false
  else if decide (s = "deleted") then Some true else None.

Definition parseRecordingsPath (s : string) : CPVRRecordingsPath :=
  match Segments s with
  | p :: r :: k :: rest =>
      if bool_decide (p = "pvr:") && bool_decide (r = "recordings") then
        match kind k, rest with
        | Some bRadio, st :: dir =>
            match state st with
            | Some bDeleted => recordingsPath bRadio bDeleted dir
            | None => invalidRecordingsPath
            end
        | Some _, [] => invalidRecordingsPath
        | None, dir =>
            match state k with
            | Some bDeleted => recordingsPath false bDeleted dir
            | None => invalidRecordingsPath
            end
        end
      else invalidRecordingsPath
  | _ => invalidRecordingsPath
  end.

(** Modelled from the spec: [AppendSegment], the path of the
    sub-directory [strSegment] of a recordings path. *)
Definition appendSegment (p : CPVRRecordingsPath) (strSegment : string) : CPVRRecordingsPath :=
  {| rp_IsValid := rp_IsValid p; rp_IsRadio := rp_IsRadio p; rp_IsDeleted := rp_IsDeleted p;
     rp_GetUnescapedDirectoryPath :=
       JoinWithSlashes (Segments (rp_GetUnescapedDirectoryPath p) ++ [strSegment]);
     rp_AsString := rp_AsString p +:+ strSegment +:+ "/" |}.

(** Modelled from the spec: [GetUnescapedSubDirectoryPath], "the
    immediate sub-directory segment relative to the current path
    (case-insensitive)" of section 4.4: empty when the directory is
    not below the path. *)
Fixpoint below (base dir : list string) : option (list string) :=
  match base, dir with
  | [], _ => Some dir
  | b :: base', d :: dir' =>
      if StringUtils.EqualsNoCase b d then below base' dir' else None
  | _ :: _, [] => None
  end.

Definition getUnescapedSubDirectoryPath (p : CPVRRecordingsPath) (strPath : string) : string :=
  match below (Segments (rp_GetUnescapedDirectoryPath p)) (Segments strPath) with
  | Some (s :: _) => s
  | _ => EmptyString
  end.

(** Modelled from the spec: the channels namespace of section 6, with
    [*] for "all channels" and [.hidden] for the hidden-channels
    pseudo-group. *)
Definition parseChannelsPath (s : string) : CPVRChannelsPath :=
  let mk valid empty root group hidden radio name :=
    mkChannelsPath valid empty root group hidden radio name (-2) in
  match Segments s with
  | [p; c] =>
      mk (bool_decide (p = "pvr:") && bool_decide (c = "channels"))
        true false false false false EmptyString
  | [p; c; k] =>
      match kind k with
      | Some bRadio =>
          mk (bool_decide (p = "pvr:") && bool_decide (c = "channels"))
            false true false false bRadio EmptyString
      | None => mk false false false false false false EmptyString
      end
  | [p; c; k; g] =>
      match kind k with
      | Some bRadio =>
          mk (bool_decide (p = "pvr:") && bool_decide (c = "channels"))
            false false true (bool_decide (g = ".hidden")) bRadio g
      | None => mk false false false false false false EmptyString
      end
  | _ => mk false false false false false false EmptyString
  end.

(** Modelled from the spec: the timers namespace of section 6, a root
    per kind for timers and for rules and one level below a rule. *)
Definition parseTimersPath (s : string) : CPVRTimersPath :=
  let invalid := mkTimersPath false false false false false 0 (-2) s in
  match Segments s with
  | p :: t :: k :: w :: rest =>
      if bool_decide (p = "pvr:") && bool_decide (t = "timers") then
        match kind k, (if decide (w = "rules") then Some true
                       else if decide (w = "timers") then Some false else None) with
        | Some bRadio, Some bRules =>
            match rest with
            | [] => mkTimersPath true true false bRadio bRules 0 (-2) s
            | [c; i] =>
                match number c, number i with
                | Some iClientId, Some iParentId =>
                    mkTimersPath true false true bRadio bRules iParentId iClientId s
                | _, _ => invalid
                end
            | _ => invalid
            end
        | _, _ => invalid
        end
      else invalid
  | _ => invalid
  end.

(** Modelled from the spec: "each listed timer's effective path
    encodes its origin client and per-client index" (section 4.6).
    The stand-in keeps the parent path. *)
Definition timersPathChild (strPath : string) (iClientId iClientIndex : Z) : CPVRTimersPath :=
  let p := parseTimersPath strPath in
  mkTimersPath (tp_IsValid p) false true (tp_IsRadio p) (tp_IsRules p) iClientIndex iClientId
    strPath.

(** Modelled from the spec: the providers namespace of section 6. *)
Definition parseProvidersPath (s : string) : CPVRProvidersPath :=
  let invalid := mkProvidersPath false false false false false false EmptyString (-2) (-1) s in
  match Segments s with
  | p :: v :: k :: rest =>
      if bool_decide (p = "pvr:") && bool_decide (v = "providers") then
        match kind k, rest with
        | Some bRadio, [] =>
            mkProvidersPath true true false false false bRadio k (-2) (-1) s
        | Some bRadio, [c; u] =>
            match number c, number u with
            | Some iClientId, Some iUid =>
                mkProvidersPath true false true false false bRadio k iClientId iUid s
            | _, _ => invalid
            end
        | Some bRadio, [c; u; w] =>
            match number c, number u with
            | Some iClientId, Some iUid =>
                mkProvidersPath true false false (bool_decide (w = "channels"))
                  (bool_decide (w = "recordings")) bRadio k iClientId iUid s
            | _, _ => invalid
            end
        | _, _ => invalid
        end
      else invalid
  | _ => invalid
  end.

Definition providersPath (strKind : string) (iClientId iUid : Z) (last : string)
    : CPVRProvidersPath :=
  mkProvidersPath true false (bool_decide (last = EmptyString))
    (bool_decide (last = "channels")) (bool_decide (last = "recordings"))
    (bool_decide (strKind = "radio")) strKind iClientId iUid
    (JoinWithSlashes ["pvr:/"; "providers"; strKind; last]).

(** Modelled from the spec: the EPG-search namespace of section 6,
    "saved-searches root and individual saved search by numeric id". *)
Definition parseEpgSearchPath (s : string) : CPVREpgSearchPath :=
  let invalid := mkEpgSearchPath false false false false 0 in
  match Segments s with
  | p :: v :: k :: w :: rest =>
      if bool_decide (p = "pvr:") && bool_decide (v = "search")
         && bool_decide (w = "savedsearches") then
        match kind k, rest with
        | Some bRadio, [] => mkEpgSearchPath true true false bRadio 0
        | Some bRadio, [i] =>
            match number i with
            | Some iId => mkEpgSearchPath true false true bRadio iId
            | None => invalid
            end
        | _, _ => invalid
        end
      else invalid
  | _ => invalid
  end.

(** An item path of this file carries no URL options. *)
Definition parseURL (s : string) : CURL :=
  mkURL s s "pvr" (JoinWithSlashes (List.tl (Segments s))) ∅.

(** Modelled from the spec: the "client-id/provider-id selectors" of
    section 6, read from two URL options. *)
Definition getClientAndProviderFromPath (url : CURL) : option (Z * Z) :=
  match url_Options url !! "clientid" with
  | Some c =>
      match number c with
      | Some iClientId =>
          Some (iClientId,
                default (-1) (url_Options url !! "providerid" ≫= number))
      | None => None
      end
  | None => None
  end.

Definition collaborators : Collaborators :=
  {| PVR_CLIENT_INVALID_UID := -2;
     PVR_PROVIDER_INVALID_UID := -1;
     PVR_TIMER_ANY_CHANNEL := -1;
     PVR_GROUP_ID_UNNKOWN := -1;
     CPVRRecordingsPath_parse := parseRecordingsPath;
     GetUnescapedSubDirectoryPath := getUnescapedSubDirectoryPath;
     AppendSegment := appendSegment;
     PATH_ACTIVE_TV_RECORDINGS := "pvr://recordings/tv/active/";
     PATH_ACTIVE_RADIO_RECORDINGS := "pvr://recordings/radio/active/";
     CPVRChannelsPath_parse := parseChannelsPath;
     PATH_TV_CHANNELS := "pvr://channels/tv/";
     PATH_RADIO_CHANNELS := "pvr://channels/radio/";
     CPVRTimersPath_parse := parseTimersPath;
     CPVRTimersPath_child := timersPathChild;
     PATH_TV_TIMERS := "pvr://timers/tv/timers/";
     PATH_RADIO_TIMERS := "pvr://timers/radio/timers/";
     PATH_TV_TIMER_RULES := "pvr://timers/tv/rules/";
     PATH_RADIO_TIMER_RULES := "pvr://timers/radio/rules/";
     CPVRProvidersPath_parse := parseProvidersPath;
     CPVRProvidersPath_provider := λ k c u, providersPath k c u EmptyString;
     CPVRProvidersPath_segment := providersPath;
     PATH_TV_PROVIDERS := "pvr://providers/tv/";
     PATH_RADIO_PROVIDERS := "pvr://providers/radio/";
     CHANNELS := "channels";
     RECORDINGS := "recordings";
     CPVREpgSearchPath_parse := parseEpgSearchPath;
     PATH_TV_SEARCH := "pvr://search/tv/savedsearches/";
     PATH_RADIO_SEARCH := "pvr://search/radio/savedsearches/";
     CURL_parse := parseURL;
     GetClientAndProviderFromPath := getClientAndProviderFromPath;
     PathEquals := StringUtils.EqualsNoCase;
     g_localizeStrings_Get := λ _, EmptyString;
     TranslateWindow := λ _, EmptyString;
     SizeToString := λ _, EmptyString |}.

End Fixture.

(** * The vocabulary of the specification *)

(** ** Routing *)

(** The strings [GetDirectory] compares the file name with. *)
Definition TopLevelNamespaces : list string :=
  ["tv"; "radio"; "recordings"; "channels"; "providers"; "timers"].

(** The file name [GetDirectory] and [Exists] look at. *)
Definition FileNameOf (m_url : CURL) : string := URIUtils.RemoveSlashAtEnd (url_FileName m_url).

Definition BeginsWithNamespace (fileName : string) : Prop :=
  ∃ ns rest, ns ∈ TopLevelNamespaces ∧ fileName = ns +:+ rest.

(** The paths [GetDirectory] accepts: the empty one, those whose file
    name begins with one of the six strings, and the valid EPG-search
    paths. *)
Definition Routable `{Collaborators} (m_url : CURL) : Prop :=
  FileNameOf m_url = EmptyString
  ∨ BeginsWithNamespace (FileNameOf m_url)
  ∨ sp_IsValid (CPVREpgSearchPath_parse (url_Get m_url)) = true.

(** A string without a slash. *)
Fixpoint SlashFree (p : string) : Prop :=
  match p with
  | EmptyString => True
  | String c r => c ≠ URIUtils.slash ∧ SlashFree r
  end.


(** ** Fixtures *)

(** A backend that is not started, and one that is started and empty. *)
Definition stoppedManager : CPVRManager :=
  mkManager false [] false false None None [] [] [] (λ _, []) false false.
Definition emptyManager : CPVRManager :=
  mkManager true [] false false None None [] [] [] (λ _, []) false false.

(** The URL [pvr://<fileName>] with the given options. *)
Definition pvrURL (fileName : string) (options : gmap string string) : CURL :=
  mkURL ("pvr://" +:+ fileName) ("pvr://" +:+ fileName) "pvr" fileName options.

(** ** What the specification says is listed *)

Section Vocabulary.
Context `{Collaborators}.

(** Section 4.6, root listing, as lines 917-919 have it: the entry is
    of the requested kind (rules or timers), is of the requested
    radio/tv kind unless it is a rule that targets any channel, and is
    not disabled when disabled timers are hidden. *)
Definition ListedAtTimersRoot (path : CPVRTimersPath) (bHideDisabled : bool)
    (timer : CPVRTimerInfoTag) : Prop :=
  tmr_IsTimerRule timer = tp_IsRules path
  ∧ (tmr_IsRadio timer = tp_IsRadio path
     ∨ (tmr_IsTimerRule timer = true ∧ tmr_ClientChannelUID timer = PVR_TIMER_ANY_CHANNEL))
  ∧ (bHideDisabled = true → tmr_IsDisabled timer = false).

(** Section 4.6, root listing, as it is worded: "a rule-generated timer
    also matches when it targets any channel", a rule-generated timer
    being a timer that has a parent rule. *)
Definition ListedAtTimersRoot_as_worded (path : CPVRTimersPath) (bHideDisabled : bool)
    (timer : CPVRTimerInfoTag) : Prop :=
  tmr_IsTimerRule timer = tp_IsRules path
  ∧ (tmr_IsRadio timer = tp_IsRadio path
     ∨ (tmr_HasParent timer = true ∧ tmr_ClientChannelUID timer = PVR_TIMER_ANY_CHANNEL))
  ∧ (bHideDisabled = true → tmr_IsDisabled timer = false).

(** Section 4.6, sub-directory listing: the timer has a parent, its
    recorded parent id is the rule's, and its client is the path's
    when the path names one. *)
Definition ListedBelowTimerRule (path : CPVRTimersPath) (bHideDisabled : bool)
    (timer : CPVRTimerInfoTag) : Prop :=
  tmr_IsRadio timer = tp_IsRadio path
  ∧ tmr_HasParent timer = true
  ∧ tmr_ParentClientIndex timer = tp_GetParentId path
  ∧ (tp_GetClientId path ≠ PVR_CLIENT_INVALID_UID → tmr_ClientID timer = tp_GetClientId path)
  ∧ (bHideDisabled = true → tmr_IsDisabled timer = false).

Global Instance ListedAtTimersRoot_dec path hide timer :
  Decision (ListedAtTimersRoot path hide timer).
Proof. unfold ListedAtTimersRoot. apply _. Defined.

Global Instance ListedAtTimersRoot_as_worded_dec path hide timer :
  Decision (ListedAtTimersRoot_as_worded path hide timer).
Proof. unfold ListedAtTimersRoot_as_worded. apply _. Defined.

Global Instance ListedBelowTimerRule_dec path hide timer :
  Decision (ListedBelowTimerRule path hide timer).
Proof. unfold ListedBelowTimerRule. apply _. Defined.

(** The entry of a listed timer: it refers to the timer, and its path
    is made from the listing's path, the timer's client and its index
    at that client. *)
Definition TimerEntry (path : CPVRTimersPath) (timer : CPVRTimerInfoTag) : CFileItem :=
  SetPath (tp_AsString (CPVRTimersPath_child (tp_AsString path) (tmr_ClientID timer)
                          (tmr_ClientIndex timer)))
    (CFileItem_timer timer).

(** Section 4.5, date-added view: the added timestamp is valid and,
    if the owning client recorded when its first channels were added,
    strictly after that time. *)
Definition AddedAfterFirstChannels (mgr : CPVRManager) (groupMember : CPVRChannelGroupMember)
    : Prop :=
  dt_IsValid (ch_DateTimeAdded (gm_Channel groupMember)) = true
  ∧ ∀ client, GetClient mgr (gm_ChannelClientID groupMember) = Some client →
              dt_IsValid (cl_DateTimeFirstChannelsAdded client) = true →
              dt_time (cl_DateTimeFirstChannelsAdded client)
              < dt_time (ch_DateTimeAdded (gm_Channel groupMember)).

Global Instance AddedAfterFirstChannels_dec mgr groupMember :
  Decision (AddedAfterFirstChannels mgr groupMember).
Proof.
  unfold AddedAfterFirstChannels.
  destruct (GetClient mgr (gm_ChannelClientID groupMember)) as [client|].
  - destruct (decide (dt_IsValid (ch_DateTimeAdded (gm_Channel groupMember)) = true
                      ∧ (dt_IsValid (cl_DateTimeFirstChannelsAdded client) = true →
                         dt_time (cl_DateTimeFirstChannelsAdded client)
                         < dt_time (ch_DateTimeAdded (gm_Channel groupMember)))))
      as [Hy|Hn]; [left | right].
    + destruct Hy as [? Hy]. split; [done|]. by intros ? [= <-].
    + intros [? Hy]. apply Hn. split; [done|]. by apply Hy.
  - destruct (decide (dt_IsValid (ch_DateTimeAdded (gm_Channel groupMember)) = true));
      [left | right]; [by split | by intros [? _]].
Defined.

(** The members the date-added view of a channel group lists. *)
Definition ListedByDateAdded (mgr : CPVRManager) (m_url : CURL) (path : CPVRChannelsPath)
    (groupMember : CPVRChannelGroupMember) : Prop :=
  FilterChannel (CByClientAndProviderFilter_of m_url) (gm_Channel groupMember) = false
  ∧ ch_IsHidden (gm_Channel groupMember) = cp_IsHiddenChannelGroup path
  ∧ AddedAfterFirstChannels mgr groupMember.

Global Instance ListedByDateAdded_dec mgr m_url path groupMember :
  Decision (ListedByDateAdded mgr m_url path groupMember).
Proof. unfold ListedByDateAdded. apply _. Defined.

(** Section 4.7: the recordings of a folder's directory, flags and
    filter, and how many of them are partially watched. *)
Definition MatchesFolder (folder : CFileItem) (recording : CPVRRecording) : Prop :=
  let recPath := CPVRRecordingsPath_parse (m_strPath folder) in
  rec_IsDeleted recording = rp_IsDeleted recPath
  ∧ rec_IsRadio recording = rp_IsRadio recPath
  ∧ FilterRecording (CByClientAndProviderFilter_of (CURL_parse (m_strPath folder))) recording
    = false
  ∧ IsDirectoryMember (rp_GetUnescapedDirectoryPath recPath) (rec_Directory recording) true
    = true.

Global Instance MatchesFolder_dec folder recording : Decision (MatchesFolder folder recording).
Proof. unfold MatchesFolder. apply _. Defined.

Definition RecomputedInProgress (folder : CFileItem) (recordings : list CPVRRecording) : Z :=
  Z.of_nat (length (filter (λ r, MatchesFolder folder r ∧ rec_ResumePointIsPartWay r = true)
                      recordings)).

End Vocabulary.

(** A TV backend with one client and one channel, which was added when
    the client delivered its first channels (both at time 10), in the
    'All channels' group. *)
Definition initialChannel : CPVRChannel :=
  mkChannel 1 1 (-1) false false 0 (-1) (mkDateTime true 10).
Definition initialMember : CPVRChannelGroupMember :=
  mkMember "pvr://channels/tv/All channels/1.pvr" 1 1 initialChannel.
Definition allChannelsGroup (bHidden : bool) (members : list CPVRChannelGroupMember)
    : CPVRChannelGroup :=
  mkGroup "pvr://channels/tv/All channels/" 1 "All channels" (-2) false bHidden false true members.
Definition initialPopulationManager : CPVRManager :=
  mkManager true [mkClient 1 (mkDateTime true 10)] false false
    (Some [allChannelsGroup false [initialMember]]) None [] [] [] (λ _, []) false false.

(** The same backend after a second channel arrived at time 20. *)
Definition laterChannel : CPVRChannel :=
  mkChannel 2 1 (-1) false false 0 (-1) (mkDateTime true 20).
Definition laterMember : CPVRChannelGroupMember :=
  mkMember "pvr://channels/tv/All channels/2.pvr" 1 1 laterChannel.
Definition twoChannelsManager : CPVRManager :=
  mkManager true [mkClient 1 (mkDateTime true 10)] false false
    (Some [allChannelsGroup false [initialMember; laterMember]]) None [] [] []
    (λ _, []) false false.

(** The messages about the entry at position [i]. *)
Definition MessagesAbout (i : nat) (sent : list CGUIMessage) : list CGUIMessage :=
  filter (λ m, msg_position m = i) sent.

(** Two TV recordings below [Foo] (section 8 of the specification);
    the first has been watched, the second is part way through. *)
Definition recordingBar : CPVRRecording :=
  mkRecording "pvr://recordings/tv/active/Foo/Bar/a.pvr" 1 (-1) false false "Foo/Bar" 1
    false false 100 (mkDateTime true 5).
Definition recordingBaz : CPVRRecording :=
  mkRecording "pvr://recordings/tv/active/Foo/Baz/b.pvr" 1 (-1) false false "Foo/Baz" 0
    false true 200 (mkDateTime true 7).
Definition fooManager : CPVRManager :=
  mkManager true [] false true None None [recordingBar; recordingBaz] [] [] (λ _, []) true false.

(** A folder for the directory [Foo/Baz] that shows no episode in
    progress, and the job over it. *)
Definition bazFolder : CFileItem :=
  SetProperty "inprogressepisodes" (VariantTypeInteger 0)
    (CFileItem_new "pvr://recordings/tv/active/Foo/Baz/" true).
Definition bazJob : CPVRRecordingFoldersInProgressEpisodesCountJob :=
  mkJob (Add bazFolder CFileItemList_empty) [recordingBar; recordingBaz].

(** ** The entries of "all channels across all groups" *)

Section AllChannels.
Context `{Collaborators}.

(** "The group the user last watched that channel in." *)
Definition LastWatchedGroup (mgr : CPVRManager) (channel : CPVRChannel)
    (lastGroup : CPVRChannelGroup) : Prop :=
  ch_LastWatchedGroupId channel ≠ PVR_GROUP_ID_UNNKOWN
  ∧ GetByIdFromAll mgr (ch_LastWatchedGroupId channel) = Some lastGroup.

(** The channel's entry in that group, when the group is visible and
    not deleted and holds the channel. *)
Definition LastWatchedEntry (mgr : CPVRManager) (channel : CPVRChannel)
    (member : CPVRChannelGroupMember) : Prop :=
  ∃ lastGroup,
    LastWatchedGroup mgr channel lastGroup
    ∧ grp_IsHidden lastGroup = false ∧ grp_IsDeleted lastGroup = false
    ∧ GetByUniqueID lastGroup (ch_StorageId channel) = Some member.

(** A group that cannot supply the channel's entry: hidden, deleted,
    or without the channel. *)
Definition Unsuitable (channel : CPVRChannel) (g : CPVRChannelGroup) : Prop :=
  grp_IsHidden g = true ∨ grp_IsDeleted g = true
  ∨ GetByUniqueID g (ch_StorageId channel) = None.

(** The channel's entry in "the first visible, non-deleted group
    containing the channel". *)
Definition FirstVisibleGroupEntry (groups : list CPVRChannelGroup) (channel : CPVRChannel)
    (member : CPVRChannelGroupMember) : Prop :=
  ∃ before g after,
    groups = before ++ g :: after
    ∧ Forall (Unsuitable channel) before
    ∧ grp_IsHidden g = false ∧ grp_IsDeleted g = false
    ∧ GetByUniqueID g (ch_StorageId channel) = Some member.

(** Section 4.5, as amended: what one visible member of the 'All
    channels' group [group] contributes to the listing. *)
Inductive ProducedFor (mgr : CPVRManager) (group : CPVRChannelGroup)
    (allGroupMember : CPVRChannelGroupMember) : list CPVRChannelGroupMember → Prop :=
| produced_last_watched member :
    LastWatchedEntry mgr (gm_Channel allGroupMember) member →
    ProducedFor mgr group allGroupMember [member]
| produced_first_group groups member :
    (∀ m, ¬ LastWatchedEntry mgr (gm_Channel allGroupMember) m) →
    grp_IsHidden group = true →
    ChannelGroups_Get mgr (ch_IsRadio (gm_Channel allGroupMember)) = Some groups →
    FirstVisibleGroupEntry groups (gm_Channel allGroupMember) member →
    ProducedFor mgr group allGroupMember [member]
| produced_nothing :
    (∀ m, ¬ LastWatchedEntry mgr (gm_Channel allGroupMember) m) →
    grp_IsHidden group = true →
    (∀ groups, ChannelGroups_Get mgr (ch_IsRadio (gm_Channel allGroupMember)) = Some groups →
               Forall (Unsuitable (gm_Channel allGroupMember)) groups) →
    ProducedFor mgr group allGroupMember []
| produced_all_channels_member :
    (∀ m, ¬ LastWatchedEntry mgr (gm_Channel allGroupMember) m) →
    grp_IsHidden group = false →
    ProducedFor mgr group allGroupMember [allGroupMember].

End AllChannels.

(** One TV channel, last watched in the group with id 7, as member of
    'All channels' and as member of the group "Favourites" (id 7). *)
Definition watchedChannel : CPVRChannel :=
  mkChannel 1 1 (-1) false false 100 7 (mkDateTime true 10).
Definition watchedInAll : CPVRChannelGroupMember :=
  mkMember "pvr://channels/tv/All channels/1.pvr" 1 1 watchedChannel.
Definition watchedInFavourites : CPVRChannelGroupMember :=
  mkMember "pvr://channels/tv/Favourites/1.pvr" 7 1 watchedChannel.
Definition favourites (members : list CPVRChannelGroupMember) : CPVRChannelGroup :=
  mkGroup "pvr://channels/tv/Favourites/" 7 "Favourites" (-2) false false false false members.

(** The channel is still in "Favourites" ... *)
Definition favouritesManager : CPVRManager :=
  mkManager true [mkClient 1 (mkDateTime true 10)] false false
    (Some [allChannelsGroup false [watchedInAll]; favourites [watchedInFavourites]]) None
    [] [] [] (λ _, []) false false.
(** ... and after it was taken out of "Favourites". *)
Definition emptiedFavouritesManager : CPVRManager :=
  mkManager true [mkClient 1 (mkDateTime true 10)] false false
    (Some [allChannelsGroup false [watchedInAll]; favourites []]) None
    [] [] [] (λ _, []) false false.

(** ** Recordings: folders and leaves *)

Section Grouping.
Context `{Collaborators}.

(** Section 4.4: a recording passes the deleted, radio and
    client/provider filters of the grouped, active listing of [p]. *)
Definition PassesFilters (p : CPVRRecordingsPath) (flt : CByClientAndProviderFilter)
    (r : CPVRRecording) : Prop :=
  FilterRecording flt r = false ∧ rec_IsDeleted r = false ∧ rec_IsRadio r = rp_IsRadio p.

(** "The immediate sub-directory segment relative to the current path". *)
Definition SubDirectoryOf (p : CPVRRecordingsPath) (r : CPVRRecording) : string :=
  GetUnescapedSubDirectoryPath p (rec_Directory r).

(** The recordings that lie in some sub-directory of [p]. *)
Definition InSubDirectory (p : CPVRRecordingsPath) (flt : CByClientAndProviderFilter)
    (r : CPVRRecording) : Prop :=
  PassesFilters p flt r ∧ SubDirectoryOf p r ≠ EmptyString.

(** The target path of the folder for the segment [s] below [p], and
    when the list takes two segments for the same folder. *)
Definition FolderPath (p : CPVRRecordingsPath) (s : string) : string :=
  rp_AsString (AppendSegment p s).

Definition SameFolder (p : CPVRRecordingsPath) (s1 s2 : string) : Prop :=
  PathEquals (FolderPath p s1) (FolderPath p s2) = true.

(** The recordings that belong to the folder labelled [s]. *)
Definition BelongsTo (p : CPVRRecordingsPath) (flt : CByClientAndProviderFilter)
    (s : string) (r : CPVRRecording) : Prop :=
  InSubDirectory p flt r ∧ SameFolder p s (SubDirectoryOf p r).

(** The recordings aggregated into a folder entry: those in a
    sub-directory whose folder path compares equal to the entry's. *)
Definition AggregatedInto (p : CPVRRecordingsPath) (flt : CByClientAndProviderFilter)
    (folder : CFileItem) (r : CPVRRecording) : Prop :=
  InSubDirectory p flt r
  ∧ PathEquals (m_strPath folder) (FolderPath p (SubDirectoryOf p r)) = true.

(** "The first matching recording creates the folder": the label is
    the segment of the first recording that belongs to the folder. *)
Definition CreatedByFirst (p : CPVRRecordingsPath) (flt : CByClientAndProviderFilter)
    (recordings : list CPVRRecording) (s : string) : Prop :=
  ∃ before r after,
    recordings = before ++ r :: after
    ∧ InSubDirectory p flt r ∧ s = SubDirectoryOf p r
    ∧ Forall (λ r', ¬ BelongsTo p flt s r') before.

Global Instance PassesFilters_dec p flt r : Decision (PassesFilters p flt r).
Proof. unfold PassesFilters. apply _. Defined.
Global Instance InSubDirectory_dec p flt r : Decision (InSubDirectory p flt r).
Proof. unfold InSubDirectory. apply _. Defined.
Global Instance SameFolder_dec p s1 s2 : Decision (SameFolder p s1 s2).
Proof. unfold SameFolder. apply _. Defined.
Global Instance BelongsTo_dec p flt s r : Decision (BelongsTo p flt s r).
Proof. unfold BelongsTo. apply _. Defined.
Global Instance AggregatedInto_dec p flt folder r : Decision (AggregatedInto p flt folder r).
Proof. unfold AggregatedInto. apply _. Defined.

(** The leaves of a listing of [p]: the recordings of the path's
    deleted and radio flags that pass the client/provider filter and
    are members of the path's directory (section 4.4, step 3). *)
Definition LeafOf (p : CPVRRecordingsPath) (flt : CByClientAndProviderFilter)
    (bGrouped : bool) (r : CPVRRecording) : Prop :=
  FilterRecording flt r = false
  ∧ rec_IsDeleted r = rp_IsDeleted p ∧ rec_IsRadio r = rp_IsRadio p
  ∧ IsDirectoryMember (rp_GetUnescapedDirectoryPath p) (rec_Directory r) bGrouped = true.

Global Instance LeafOf_dec p flt bGrouped r : Decision (LeafOf p flt bGrouped r).
Proof. unfold LeafOf. apply _. Defined.

(** The entry of a leaf. *)
Definition RecordingLeaf (r : CPVRRecording) : CFileItem :=
  SetOverlayImage (if decide (0 < rec_PlayCount r)
                   then ICON_OVERLAY_WATCHED else ICON_OVERLAY_UNWATCHED)
    (CFileItem_recording r).

(** The grouping mode in effect: the [view] option, or the setting
    when the URL has none. *)
Definition GroupedView (mgr : CPVRManager) (m_url : CURL) : Prop :=
  url_Options m_url !! "view" = Some "grouped"
  ∨ (url_Options m_url !! "view" = None ∧ SETTING_PVRRECORD_GROUPRECORDINGS mgr = true).

Definition FlatView (mgr : CPVRManager) (m_url : CURL) : Prop :=
  url_Options m_url !! "view" = Some "flat"
  ∨ (url_Options m_url !! "view" = None ∧ SETTING_PVRRECORD_GROUPRECORDINGS mgr = false).

(** The state of the loop of [GetGetRecordingsSubDirectories] after
    the recordings [done]: every entry is the folder of its label, no
    two entries are for the same folder, every recording in a
    sub-directory has its folder, and [unwatchedFolders] points to the
    folders with an unwatched recording. *)
Definition FolderAfter (p : CPVRRecordingsPath) (flt : CByClientAndProviderFilter)
    (done : list CPVRRecording) (f : CFileItem) : Prop :=
  m_bIsFolder f = true
  ∧ m_strPath f = FolderPath p (m_strLabel f)
  ∧ m_overlayIcon f = ICON_OVERLAY_WATCHED
  ∧ CreatedByFirst p flt done (m_strLabel f)
  ∧ m_mapProperties f !! "totalepisodes"
    = Some (VariantTypeInteger
              (Z.of_nat (length (filter (BelongsTo p flt (m_strLabel f)) done)))).

Definition LoopInvariant (p : CPVRRecordingsPath) (flt : CByClientAndProviderFilter)
    (done : list CPVRRecording) (st : list CFileItem * gset nat) : Prop :=
  (∀ i f, st.1 !! i = Some f →
          FolderAfter p flt done f
          ∧ (i ∈ st.2 ↔ ∃ r, r ∈ done ∧ BelongsTo p flt (m_strLabel f) r ∧ rec_PlayCount r = 0))
  ∧ (∀ i j f g, st.1 !! i = Some f → st.1 !! j = Some g →
                SameFolder p (m_strLabel f) (m_strLabel g) → i = j)
  ∧ (∀ r, r ∈ done → InSubDirectory p flt r →
          ∃ i f, st.1 !! i = Some f ∧ SameFolder p (m_strLabel f) (SubDirectoryOf p r))
  ∧ (∀ i, i ∈ st.2 → is_Some (st.1 !! i)).

End Grouping.

Section GroupingByCase.
Context `{Collaborators}.

(** The recordings of the sub-directory [s], segments compared without
    regard to case. *)
Definition InFolder (p : CPVRRecordingsPath) (flt : CByClientAndProviderFilter)
    (s : string) (r : CPVRRecording) : Prop :=
  InSubDirectory p flt r ∧ StringUtils.ToLower s = StringUtils.ToLower (SubDirectoryOf p r).

Global Instance InFolder_dec p flt s r : Decision (InFolder p flt s r).
Proof. unfold InFolder. apply _. Defined.

(** "One synthetic folder per distinct immediate sub-directory segment
    (case-insensitive)": what the list of folder entries of a grouped
    listing has to be. *)
Definition OneFolderPerSegment (p : CPVRRecordingsPath) (flt : CByClientAndProviderFilter)
    (recordings : list CPVRRecording) (folders : list CFileItem) : Prop :=
  (* every recording in a sub-directory has a folder for its segment, *)
  (∀ r, r ∈ recordings → InSubDirectory p flt r →
        ∃ i f, folders !! i = Some f
               ∧ StringUtils.ToLower (m_strLabel f) = StringUtils.ToLower (SubDirectoryOf p r))
  (* no two folders are for the same segment, *)
  ∧ (∀ i j f g, folders !! i = Some f → folders !! j = Some g →
                StringUtils.ToLower (m_strLabel f) = StringUtils.ToLower (m_strLabel g) → i = j)
  (* and every folder was created by the first recording of its segment
     and counts the recordings of its segment. *)
  ∧ (∀ i f, folders !! i = Some f →
            m_bIsFolder f = true
            ∧ m_strPath f = FolderPath p (m_strLabel f)
            ∧ (∃ before r after,
                  recordings = before ++ r :: after
                  ∧ InSubDirectory p flt r ∧ m_strLabel f = SubDirectoryOf p r
                  ∧ Forall (λ r', ¬ InFolder p flt (m_strLabel f) r') before)
            ∧ m_mapProperties f !! "totalepisodes"
              = Some (VariantTypeInteger
                        (Z.of_nat (length (filter (InFolder p flt (m_strLabel f)) recordings))))).

End GroupingByCase.

(** The listings of section 8: the root of the active TV recordings,
    grouped by the setting, and the directory [Foo] in the flat view. *)
Definition activeRoot : CURL := pvrURL "recordings/tv/active/" ∅.
Definition flatFoo : CURL :=
  mkURL "pvr://recordings/tv/active/Foo/?view=flat" "pvr://recordings/tv/active/Foo/" "pvr"
    "recordings/tv/active/Foo/" {["view" := "flat"]}.

(** The folder the grouped listing of the root shows for [Foo]. *)
Definition fooFolder : CFileItem :=
  {| m_strPath := "pvr://recordings/tv/active/Foo/"; m_bIsFolder := true;
     m_strLabel := "Foo"; m_strTitle := EmptyString; m_bLabelPreformatted := true;
     m_dateTime := mkDateTime true 7; m_dwSize := 300;
     m_overlayIcon := ICON_OVERLAY_UNWATCHED;
     m_mapProperties :=
       {[ "totalepisodes" := VariantTypeInteger 2; "watchedepisodes" := VariantTypeInteger 1;
          "unwatchedepisodes" := VariantTypeInteger 1;
          "inprogressepisodes" := VariantTypeInteger 0;
          "recordingsize" := VariantTypeString EmptyString ]};
     m_art := ∅; m_infoTag := NoInfoTag |}.

(** Timers (section 8): a radio rule for any channel, a disabled TV
    rule, and two TV timers scheduled by the rules with the client
    indices 10 and 11. *)
Definition anyChannelRule : CPVRTimerInfoTag := mkTimer 1 10 (-1) true true false false 0.
Definition disabledRule : CPVRTimerInfoTag := mkTimer 1 11 5 false true true false 0.
Definition timerOfRule10 : CPVRTimerInfoTag := mkTimer 1 20 5 false false false true 10.
Definition timerOfRule11 : CPVRTimerInfoTag := mkTimer 1 21 5 false false false true 11.
Definition timersManager : CPVRManager :=
  mkManager true [] false false None None []
    [anyChannelRule; disabledRule; timerOfRule10; timerOfRule11] [] (λ _, []) false false.

(** The radio rule for any channel and a radio timer for any channel
    that the rule scheduled. *)
Definition anyChannelTimer : CPVRTimerInfoTag := mkTimer 1 30 (-1) true false false true 10.
Definition anyChannelManager : CPVRManager :=
  mkManager true [] false false None None []
    [anyChannelRule; anyChannelTimer] [] (λ _, []) false false.
(** ** Vocabulary of the further properties *)

(** The list-wide settings of a [CFileItemList]. *)
Definition SameSettings (a b : CFileItemList) : Prop :=
  m_content a = m_content b ∧ m_cacheToDisc a = m_cacheToDisc b
  ∧ m_sortDescription a = m_sortDescription b.

(** The entries of [before] are still there, in place and with their
    target paths, in [after]. *)
Definition KeepsEntries (before after : list CFileItem) : Prop :=
  (m_strPath <$> before) `prefix_of` (m_strPath <$> after).

(** A call that only adds to a list: the settings stay and the entries
    that were there keep their places and target paths. *)
Definition Grows (before after : CFileItemList) : Prop :=
  SameSettings before after ∧ KeepsEntries (m_items before) (m_items after).

(** The counters a folder entry carries while the recordings are gone
    through: total, watched, unwatched and in-progress episodes, and
    the number its "sizeinbytes" property holds. *)
Definition HasCounters (f : CFileItem) (t w u ip s : Z) : Prop :=
  m_mapProperties f !! "totalepisodes" = Some (VariantTypeInteger t)
  ∧ m_mapProperties f !! "watchedepisodes" = Some (VariantTypeInteger w)
  ∧ m_mapProperties f !! "unwatchedepisodes" = Some (VariantTypeInteger u)
  ∧ m_mapProperties f !! "inprogressepisodes" = Some (VariantTypeInteger ip)
  ∧ asInteger (GetProperty "sizeinbytes" f) 0 = s.

(** What every folder entry is while the recordings are gone through. *)
Definition FolderShape (f : CFileItem) : Prop :=
  m_bIsFolder f = true ∧ m_infoTag f = NoInfoTag ∧ m_bLabelPreformatted f = true
  ∧ m_overlayIcon f = ICON_OVERLAY_WATCHED
  ∧ m_mapProperties f !! "recordingsize" = None.

(** Counters that fit together: watched and unwatched episodes add up
    to the total, which is not zero, and the episodes in progress are
    among them. *)
Definition Consistent (t w u ip : Z) : Prop :=
  t = w + u ∧ 0 ≤ w ∧ 0 ≤ u ∧ 1 ≤ t ∧ 0 ≤ ip ≤ t.

(** The state of the loop of [GetGetRecordingsSubDirectories], without
    reference to the recordings gone through. *)
Definition CountersInvariant (st : list CFileItem * gset nat) : Prop :=
  (∀ i f, st.1 !! i = Some f →
          FolderShape f
          ∧ ∃ t w u ip s, HasCounters f t w u ip s ∧ Consistent t w u ip
                          ∧ - 2 ^ 63 ≤ s < 2 ^ 63
                          ∧ (i ∈ st.2 ↔ 0 < u))
  ∧ (∀ i, i ∈ st.2 → (i < length st.1)%nat).

(** The sum of the sizes of recordings, as a number: the code keeps it
    in an [int64_t], which holds [int64_t (TotalSize recordings)]. *)
Definition TotalSize (recordings : list CPVRRecording) : Z :=
  foldr (λ r n, rec_SizeInBytes r + n) 0 recordings.

Section Aggregation.
Context `{Collaborators}.

(** What a folder entry shows of the recordings [done] gone through:
    the numbers and the 64-bit sum of the sizes of those that belong to
    its label, and the latest of their recording times. *)
Definition CountersAfter (p : CPVRRecordingsPath) (flt : CByClientAndProviderFilter)
    (done : list CPVRRecording) (f : CFileItem) : Prop :=
  let mine := filter (BelongsTo p flt (m_strLabel f)) done in
  HasCounters f (Z.of_nat (length mine))
    (Z.of_nat (length (filter (λ r, rec_PlayCount r ≠ 0) mine)))
    (Z.of_nat (length (filter (λ r, rec_PlayCount r = 0) mine)))
    (Z.of_nat (length (filter (λ r, rec_LocalResumePointIsPartWay r = true) mine)))
    (int64_t (TotalSize mine))
  ∧ m_dateTime f ∈ (rec_RecordingTimeAsLocalTime <$> mine)
  ∧ Forall (λ r, dt_time (rec_RecordingTimeAsLocalTime r) ≤ dt_time (m_dateTime f)) mine.

End Aggregation.

(** The folder entries of a listing. *)
Definition FolderEntries (items : list CFileItem) : list CFileItem :=
  filter (λ it, m_bIsFolder it = true) items.

(** A backend like that of the fixture [fooManager], with the two
    recordings in the other order and the setting "group recordings"
    off. *)
Definition flatFooManager : CPVRManager :=
  mkManager true [] false true None None [recordingBaz; recordingBar] [] [] (λ _, []) false false.

(** A recording below [Foo] whose size, a [uint64_t], is 2^63 bytes. *)
Definition hugeRecording : CPVRRecording :=
  mkRecording "pvr://recordings/tv/active/Foo/Bar/h.pvr" 1 (-1) false false "Foo/Bar" 1
    false false (2 ^ 63) (mkDateTime true 5).

(** An item for the directory [Foo] that was given a date. *)
Definition datedFooItem : CFileItem :=
  SetDateTime (mkDateTime true 1) (CFileItem_new "pvr://recordings/tv/active/Foo/" true).

(** The four episode counters of an item. *)
Definition EpisodeCounters (f : CFileItem) (t w u ip : Z) : Prop :=
  m_mapProperties f !! "totalepisodes" = Some (VariantTypeInteger t)
  ∧ m_mapProperties f !! "watchedepisodes" = Some (VariantTypeInteger w)
  ∧ m_mapProperties f !! "unwatchedepisodes" = Some (VariantTypeInteger u)
  ∧ m_mapProperties f !! "inprogressepisodes" = Some (VariantTypeInteger ip).

(** Lines 508-510, on the dates alone: the date an item has after the
    recording times [times] were offered to it one after the other. *)
Definition DateAfter (dateTime : CDateTime) (times : list CDateTime) : CDateTime :=
  fold_left (λ d t, if dt_IsValid d || CDateTime_lt d t then t else d) times dateTime.

(** What the refresh job may do to a folder: nothing, or set its
    "inprogressepisodes" property. *)
Definition Refreshed (folder folder' : CFileItem) : Prop :=
  folder' = folder
  ∨ ∃ n, folder' = SetProperty "inprogressepisodes" (VariantTypeInteger n) folder.

(** The storage ids of the channels of group members, in order. *)
Definition StorageIds (members : list CPVRChannelGroupMember) : list Z :=
  (λ m, ch_StorageId (gm_Channel m)) <$> members.

Section MoreVocabulary.
Context `{Collaborators}.

(** The members a channel group listing shows outside the date-added
    view: those that pass the client/provider filter and the
    hidden-flag test and, in the last-played view, whose channel has
    been watched. *)
Definition ListedInGroup (m_url : CURL) (path : CPVRChannelsPath)
    (groupMember : CPVRChannelGroupMember) : Prop :=
  FilterChannel (CByClientAndProviderFilter_of m_url) (gm_Channel groupMember) = false
  ∧ ch_IsHidden (gm_Channel groupMember) = cp_IsHiddenChannelGroup path
  ∧ (url_Options m_url !! "view" = Some "lastplayed" →
     ch_LastWatched (gm_Channel groupMember) ≠ 0).

Global Instance ListedInGroup_dec m_url path groupMember :
  Decision (ListedInGroup m_url path groupMember).
Proof. unfold ListedInGroup. apply _. Defined.


(** An item of the client of a providers path and, when the path names
    a provider other than the invalid one, of that provider. *)
Definition OfProvider (path : CPVRProvidersPath) (iClientID iClientProviderUid : Z) : Prop :=
  iClientID = pp_GetClientId path
  ∧ (pp_GetProviderUid path ≠ PVR_PROVIDER_INVALID_UID →
     iClientProviderUid = pp_GetProviderUid path).

Global Instance OfProvider_dec path c u : Decision (OfProvider path c u).
Proof. unfold OfProvider. apply _. Defined.

(** A provider that serves a channel or a recording of the kind. *)
Definition Serves (mgr : CPVRManager) (bRadio : bool) (provider : CPVRProvider) : Prop :=
  HasChannelForProvider mgr bRadio (prov_ClientId provider) (prov_UniqueId provider) = true
  ∨ HasRecordingForProvider mgr bRadio (prov_ClientId provider) (prov_UniqueId provider) = true.

Global Instance Serves_dec mgr bRadio provider : Decision (Serves mgr bRadio provider).
Proof. unfold Serves. apply _. Defined.

End MoreVocabulary.

(** A provider of client 1 with two recordings, one of them deleted. *)
Definition providerOne : CPVRProvider := mkProvider 1 7.
Definition keptRecording : CPVRRecording :=
  mkRecording "pvr://recordings/tv/active/a.pvr" 1 7 false false "" 0 false false 10
    (mkDateTime true 1).
Definition deletedRecording : CPVRRecording :=
  mkRecording "pvr://recordings/tv/deleted/b.pvr" 1 7 true false "" 0 false false 10
    (mkDateTime true 2).
Definition providerManager : CPVRManager :=
  mkManager true [] false true (Some [allChannelsGroup false [initialMember]]) None
    [keptRecording; deletedRecording] [] [providerOne] (λ _, []) false false.

(** A TV recording in the directory [Foo/Qux] that is part way through,
    by its local resume point and by the backend's; the folder the
    grouped listing of the root shows for it; and the job that listing
    queues. *)
Definition recordingQux : CPVRRecording :=
  mkRecording "pvr://recordings/tv/active/Foo/Qux/c.pvr" 1 (-1) false false "Foo/Qux" 0
    true true 50 (mkDateTime true 9).
Definition quxManager : CPVRManager :=
  mkManager true [] false true None None [recordingQux] [] [] (λ _, []) true false.
Definition quxFolder : CFileItem :=
  {| m_strPath := "pvr://recordings/tv/active/Foo/"; m_bIsFolder := true;
     m_strLabel := "Foo"; m_strTitle := EmptyString; m_bLabelPreformatted := true;
     m_dateTime := mkDateTime true 9; m_dwSize := 50;
     m_overlayIcon := ICON_OVERLAY_UNWATCHED;
     m_mapProperties :=
       {[ "totalepisodes" := VariantTypeInteger 1; "watchedepisodes" := VariantTypeInteger 0;
          "unwatchedepisodes" := VariantTypeInteger 1;
          "inprogressepisodes" := VariantTypeInteger 1;
          "recordingsize" := VariantTypeString EmptyString ]};
     m_art := ∅; m_infoTag := NoInfoTag |}.
Definition quxJob : CPVRRecordingFoldersInProgressEpisodesCountJob :=
  mkJob (mkFileItemList [quxFolder] "recordings" CACHE_IF_SLOW []) [recordingQux].

(** * Properties *)

(** ** Strings *)

Lemma append_nil_l (t : string) : EmptyString +:+ t = t.
Proof. reflexivity. Qed.

Lemma append_cons (c : ascii) (s t : string) : String c s +:+ t = String c (s +:+ t).
Proof. reflexivity. Qed.

Ltac str_simpl := rewrite ?append_cons, ?append_nil_l in *.

Section StringFacts.
Import StringUtils URIUtils.

Lemma ToLower_append (a b : string) : ToLower (a +:+ b) = ToLower a +:+ ToLower b.
Proof. induction a as [|x a IH]; str_simpl; simpl; str_simpl; congruence. Qed.

Lemma StartsWith_prefix (s p : string) :
  StartsWith s p = true ↔ ∃ rest, s = p +:+ rest.
Proof.
  revert s; induction p as [|c p IH]; intros s; simpl.
  - split; [by exists s | done].
  - destruct s as [|d s]; [split; [done | by intros [? ?]] |].
    destruct (decide (d = c)) as [->|Hne].
    + rewrite IH. split; intros [rest Hr]; exists rest; str_simpl; [by rewrite Hr | by inversion Hr].
    + split; [done | intros [rest Hr]; str_simpl; inversion Hr; done].
Qed.

Lemma EqualsNoCase_ToLower (a b : string) :
  EqualsNoCase a b = true ↔ ToLower a = ToLower b.
Proof.
  revert b; induction a as [|x a IH]; intros [|y b]; simpl; try done.
  destruct (decide (tolower x = tolower y)) as [Heq|Hne].
  - rewrite IH, Heq. split; [by intros -> | by inversion 1].
  - split; [done | by inversion 1].
Qed.

Lemma StartsWithNoCase_ToLower (a b : string) :
  StartsWithNoCase a b = true ↔ ∃ rest, ToLower a = ToLower b +:+ rest.
Proof.
  revert a; induction b as [|y b IH]; intros a; simpl.
  - split; [by exists (ToLower a) | done].
  - destruct a as [|x a]; simpl; [split; [done | by intros [? ?]] |].
    destruct (decide (tolower x = tolower y)) as [Heq|Hne].
    + rewrite IH, Heq.
      split; intros [rest Hr]; exists rest; str_simpl; [by rewrite Hr | by inversion Hr].
    + split; [done | intros [rest Hr]; str_simpl; inversion Hr; done].
Qed.

Lemma EqualsNoCase_refl (a : string) : EqualsNoCase a a = true.
Proof. by apply EqualsNoCase_ToLower. Qed.

(** A character other than the slash stays where it is. *)
Lemma RemoveSlashAtEnd_cons (c : ascii) (r : string) :
  c ≠ slash → RemoveSlashAtEnd (String c r) = String c (RemoveSlashAtEnd r).
Proof.
  intros Hc. simpl. destruct (RemoveSlashAtEnd r); [|done].
  by destruct (decide (c = slash)).
Qed.

Lemma RemoveSlashAtEnd_OnlySlashes (b : string) :
  OnlySlashes b → RemoveSlashAtEnd b = EmptyString.
Proof.
  induction b as [|c b IH]; simpl; [done|].
  intros [-> Hb]. rewrite (IH Hb). by destruct (decide (slash = slash)).
Qed.

Lemma EraseLeadingSlashes_OnlySlashes (b : string) :
  OnlySlashes b → EraseLeadingSlashes b = EmptyString.
Proof.
  induction b as [|c b IH]; simpl; [done|].
  intros [-> Hb]. destruct (decide (slash = slash)); [auto | done].
Qed.

Lemma NoSlashAtEnd_tail (c d : ascii) (t : string) :
  NoSlashAtEnd (String c (String d t)) → NoSlashAtEnd (String d t).
Proof. intros Hn r Hr. apply (Hn (String c r)). str_simpl. by rewrite Hr. Qed.

Lemma RemoveSlashAtEnd_append (t b : string) :
  NoSlashAtEnd t → OnlySlashes b → RemoveSlashAtEnd (t +:+ b) = t.
Proof.
  intros Ht Hb. induction t as [|c t IH].
  - rewrite append_nil_l. by apply RemoveSlashAtEnd_OnlySlashes.
  - rewrite append_cons. simpl. destruct t as [|d t].
    + rewrite append_nil_l, (RemoveSlashAtEnd_OnlySlashes b Hb).
      destruct (decide (c = slash)) as [->|]; [|done].
      by destruct (Ht EmptyString).
    + rewrite IH by (by eapply NoSlashAtEnd_tail). done.
Qed.

Lemma RemoveSlashAtEnd_split (x : string) :
  ∃ b, x = RemoveSlashAtEnd x +:+ b ∧ OnlySlashes b ∧ NoSlashAtEnd (RemoveSlashAtEnd x).
Proof.
  induction x as [|c x (b & Hx & Hb & Hn)].
  - exists EmptyString. split_and!; [done..|]. intros [|??]; by rewrite ?append_cons.
  - simpl. destruct (RemoveSlashAtEnd x) as [|d q] eqn:Hq.
    + rewrite append_nil_l in Hx. subst x.
      destruct (decide (c = slash)) as [->|Hc].
      * exists (String slash b). by rewrite append_nil_l.
      * exists b. rewrite append_cons, append_nil_l. split_and!; [done..|].
        intros [|e r]; rewrite ?append_cons, ?append_nil_l; [congruence|].
        intros Hr. inversion Hr as [[He Hr']]. destruct r; by rewrite ?append_cons in Hr'.
    + exists b. rewrite append_cons. split_and!; [by rewrite <-Hx | done |].
      intros [|e r]; rewrite ?append_cons, ?append_nil_l; [by inversion 1|].
      intros Hr. inversion Hr as [[He Hr']]. by apply (Hn r).
Qed.

Lemma EraseLeadingSlashes_append (a x : string) :
  OnlySlashes a → EraseLeadingSlashes (a +:+ x) = EraseLeadingSlashes x.
Proof.
  induction a as [|c a IH]; str_simpl; [done|]. simpl.
  intros [-> Ha]. destruct (decide (slash = slash)); [auto | done].
Qed.

Lemma EraseLeadingSlashes_split (s : string) :
  ∃ a, s = a +:+ EraseLeadingSlashes s ∧ OnlySlashes a
       ∧ NoSlashAtFront (EraseLeadingSlashes s).
Proof.
  induction s as [|c s (a & Hs & Ha & Hn)].
  - by exists EmptyString.
  - simpl. destruct (decide (c = slash)) as [->|Hc].
    + exists (String slash a). str_simpl. by rewrite <-Hs.
    + exists EmptyString. split_and!; [done..|]. intros r Hr. by inversion Hr.
Qed.

Lemma TrimSlashes_TrimmedOf (s : string) : TrimmedOf s (TrimSlashes s).
Proof.
  unfold TrimSlashes.
  destruct (EraseLeadingSlashes_split s) as (a & Hs & Ha & Hf).
  destruct (RemoveSlashAtEnd_split (EraseLeadingSlashes s)) as (b & Hx & Hb & He).
  exists a, b. split_and!; [by rewrite <-Hx | done.. | | done].
  intros r Hr. rewrite Hr in Hx. str_simpl. by apply (Hf (r +:+ b)).
Qed.

Lemma TrimmedOf_TrimSlashes (s t : string) : TrimmedOf s t → t = TrimSlashes s.
Proof.
  intros (a & b & -> & Ha & Hb & Hf & He). unfold TrimSlashes.
  rewrite EraseLeadingSlashes_append by done.
  destruct t as [|c t].
  - str_simpl. rewrite EraseLeadingSlashes_OnlySlashes by done. done.
  - assert (c ≠ slash) as Hc by (intros ->; by apply (Hf t)).
    rewrite append_cons. simpl EraseLeadingSlashes.
    destruct (decide (c = slash)); [done|].
    rewrite <-append_cons. by rewrite RemoveSlashAtEnd_append.
Qed.

End StringFacts.

(** ** The directory-membership test *)

(** C2.  For all directory strings [d] and [e]: each has exactly one
    form with its leading and trailing slashes trimmed; the grouped
    test holds iff the two trimmed forms are equal without regard to
    case, and the flat test holds iff the trimmed [e] starts, without
    regard to case, with the trimmed [d].  For the target ["A/B"], the
    entry ["a/b/c"] is a flat member and no grouped member, and the
    entry ["a/b"] is a member in both modes. *)
Theorem IsDirectoryMember_trimmed_nocase :
  (∀ d e : string, ∃ td te : string,
      (∀ t, TrimmedOf d t ↔ t = td) ∧ (∀ t, TrimmedOf e t ↔ t = te)
      ∧ (IsDirectoryMember d e true = true
         ↔ StringUtils.ToLower td = StringUtils.ToLower te)
      ∧ (IsDirectoryMember d e false = true
         ↔ ∃ rest, StringUtils.ToLower te = StringUtils.ToLower td +:+ rest))
  ∧ IsDirectoryMember "A/B" "a/b/c" false = true
  ∧ IsDirectoryMember "A/B" "a/b/c" true = false
  ∧ IsDirectoryMember "A/B" "a/b" true = true
  ∧ IsDirectoryMember "A/B" "a/b" false = true.
Proof.
  split; [|by vm_compute].
  intros d e. exists (TrimSlashes d), (TrimSlashes e).
  assert (∀ s t, TrimmedOf s t ↔ t = TrimSlashes s) as Htrim.
  { intros s t. split; [apply TrimmedOf_TrimSlashes | intros ->; apply TrimSlashes_TrimmedOf]. }
  split_and!; [apply Htrim | apply Htrim | |]; unfold IsDirectoryMember.
  - apply EqualsNoCase_ToLower.
  - apply StartsWithNoCase_ToLower.
Qed.

(** ** Routing *)

Lemma StartsWith_RemoveSlashAtEnd (p s : string) :
  SlashFree p →
  StringUtils.StartsWith (URIUtils.RemoveSlashAtEnd s) p = StringUtils.StartsWith s p.
Proof.
  revert s. induction p as [|c p IH]; intros s Hp; [done|].
  destruct Hp as [Hc Hp]. destruct s as [|d s]; [done|].
  destruct (decide (d = URIUtils.slash)) as [->|Hd].
  - simpl. destruct (URIUtils.RemoveSlashAtEnd s);
      repeat (case_decide; simplify_eq; try done).
  - rewrite RemoveSlashAtEnd_cons by done. simpl.
    case_decide; [by apply IH | done].
Qed.

Lemma StartsWith_false_namespace (fileName : string) :
  ¬ BeginsWithNamespace fileName →
  Forall (λ ns, StringUtils.StartsWith fileName ns = false) TopLevelNamespaces.
Proof.
  intros Hn. apply Forall_forall. intros ns Hns.
  destruct (StringUtils.StartsWith fileName ns) eqn:Hs; [|done].
  destruct Hn. apply StartsWith_prefix in Hs as [rest ->]. by exists ns, rest.
Qed.

Section Routing.
Context `{Collaborators}.

Lemma BeginsWithNamespace_StartsWith (fileName : string) :
  BeginsWithNamespace fileName ↔
  List.Exists (λ ns, StringUtils.StartsWith fileName ns = true) TopLevelNamespaces.
Proof.
  rewrite Exists_exists. split.
  - intros (ns & rest & Hns & ->). exists ns. split; [done|].
    apply StartsWith_prefix. by exists rest.
  - intros (ns & Hns & [rest ->]%StartsWith_prefix). by exists ns, rest.
Qed.

(** C1, as amended.  While the backend is not started, [GetDirectory]
    succeeds and adds nothing for every path that is empty, whose file
    name begins with one of [tv], [radio], [recordings], [channels],
    [providers], [timers], or that is a valid EPG-search path; started
    or not, it fails and adds nothing for every other path. *)
Theorem GetDirectory_routing (mgr : CPVRManager) (m_url : CURL) (results : CFileItemList) :
  (mgr_IsStarted mgr = false → Routable m_url →
   GetDirectory mgr m_url results = mkOutcome true (SetCacheToDisc CACHE_NEVER results) []
   ∧ m_items (out_results (GetDirectory mgr m_url CFileItemList_empty)) = [])
  ∧ (¬ Routable m_url →
     GetDirectory mgr m_url results = mkOutcome false (SetCacheToDisc CACHE_NEVER results) []).
Proof.
  assert (∀ res, mgr_IsStarted mgr = false → Routable m_url →
            GetDirectory mgr m_url res = mkOutcome true (SetCacheToDisc CACHE_NEVER res) [])
    as Hstopped.
  { intros res Hs Hr. unfold GetDirectory, Routable, FileNameOf in *. rewrite Hs.
    repeat (case_decide || case_match); try done.
    destruct Hr as [?|[Hb|?]]; [done| |congruence].
    apply BeginsWithNamespace_StartsWith in Hb. unfold TopLevelNamespaces in Hb.
    repeat (apply Exists_cons in Hb as [?|Hb]; [congruence|]). by apply Exists_nil in Hb. }
  split.
  - intros Hs Hr. split; [by apply Hstopped|]. by rewrite Hstopped.
  - intros Hr. unfold GetDirectory, Routable, FileNameOf in *.
    assert (¬ BeginsWithNamespace (URIUtils.RemoveSlashAtEnd (url_FileName m_url))) as Hb by tauto.
    apply StartsWith_false_namespace in Hb. unfold TopLevelNamespaces in Hb.
    repeat (apply Forall_cons in Hb as [? Hb]).
    case_decide; [tauto|].
    clear Hstopped. repeat (case_match; try congruence); tauto.
Qed.

(** C10.  [Exists] is true iff the backend is started, the protocol
    is [pvr] and the file name starts with [recordings]; so it is
    false for every path whose file name starts with [channels],
    [guide], [timers], [providers], [search], [tv] or [radio], and
    for every path [GetDirectory] does not route by one of its six
    top-level strings (the EPG-search paths among them), even while
    the backend is running. *)
Theorem Exists_iff_started_pvr_recordings (mgr : CPVRManager) (m_url : CURL) :
  (Exists mgr m_url = true
   ↔ mgr_IsStarted mgr = true ∧ url_Protocol m_url = "pvr"
     ∧ ∃ rest, url_FileName m_url = "recordings" +:+ rest)
  ∧ (∀ ns rest,
       ns ∈ ["channels"; "guide"; "timers"; "providers"; "search"; "tv"; "radio"] →
       url_FileName m_url = ns +:+ rest → Exists mgr m_url = false)
  ∧ (¬ BeginsWithNamespace (FileNameOf m_url) → Exists mgr m_url = false).
Proof.
  assert (Exists mgr m_url = true
          ↔ mgr_IsStarted mgr = true ∧ url_Protocol m_url = "pvr"
            ∧ ∃ rest, url_FileName m_url = "recordings" +:+ rest) as Hiff.
  { unfold Exists, IsProtocol. rewrite <-StartsWith_prefix.
    destruct (mgr_IsStarted mgr); simpl; [|intuition discriminate].
    rewrite andb_true_iff, bool_decide_eq_true. tauto. }
  split_and!; [done | |].
  - intros ns rest Hns Hf. apply not_true_is_false. rewrite Hiff.
    intros (_ & _ & [rest' Hr]). rewrite Hf in Hr.
    repeat (apply elem_of_cons in Hns as [->|Hns]; [discriminate Hr|]).
    by apply elem_of_nil in Hns.
  - intros Hb. apply not_true_is_false. rewrite Hiff.
    intros (_ & _ & Hr%StartsWith_prefix). apply Hb.
    apply BeginsWithNamespace_StartsWith. unfold TopLevelNamespaces, FileNameOf.
    do 2 apply Exists_cons_tl. apply Exists_cons_hd.
    rewrite StartsWith_RemoveSlashAtEnd; [done|]. simpl. by repeat split.
Qed.

End Routing.

(** C1 as stated fails.  The file name [tvx] has the first segment
    [tvx], which is none of the top-level namespaces, and [pvr://tvx]
    is no EPG-search path; [GetDirectory] still succeeds, because it
    compares the beginning of the file name with [tv]. *)
Lemma GetDirectory_first_segment_counterexample :
  let m_url := pvrURL "tvx" ∅ in
  FirstSegment (url_FileName m_url) = "tvx"
  ∧ ("tvx" ∉ EmptyString :: TopLevelNamespaces)
  ∧ sp_IsValid (CPVREpgSearchPath_parse (Collaborators := collaborators) (url_Get m_url)) = false
  ∧ out_ok (GetDirectory (H := collaborators) stoppedManager m_url CFileItemList_empty) = true
  ∧ out_ok (GetDirectory (H := collaborators) emptyManager m_url CFileItemList_empty) = true.
Proof.
  split_and!; try by vm_compute.
  unfold TopLevelNamespaces. intros Hin.
  repeat (apply elem_of_cons in Hin as [Hin|Hin]; [by inversion Hin|]).
  by apply elem_of_nil in Hin.
Qed.

(** The routing theorem at fixtures: [pvr://tv/] with the backend not
    started (section 8 of the specification), and [pvr://bogus]. *)
Lemma GetDirectory_routing_witness :
  out_ok (GetDirectory (H := collaborators) stoppedManager (pvrURL "tv/" ∅) CFileItemList_empty) = true
  ∧ m_items (out_results (GetDirectory (H := collaborators) stoppedManager (pvrURL "tv/" ∅)
                            CFileItemList_empty)) = []
  ∧ out_ok (GetDirectory (H := collaborators) emptyManager (pvrURL "bogus" ∅) CFileItemList_empty)
    = false.
Proof.
  pose proof (GetDirectory_routing (H := collaborators) stoppedManager (pvrURL "tv/" ∅)
                CFileItemList_empty) as [Hs _].
  pose proof (GetDirectory_routing (H := collaborators) emptyManager (pvrURL "bogus" ∅)
                CFileItemList_empty) as [_ Hf].
  assert (Routable (H := collaborators) (pvrURL "tv/" ∅)) as Hr.
  { right; left. exists "tv", EmptyString. split; [|by vm_compute].
    unfold TopLevelNamespaces. apply elem_of_cons. by left. }
  destruct (Hs eq_refl Hr) as [Hs1 Hs2].
  assert (¬ Routable (H := collaborators) (pvrURL "bogus" ∅)) as Hn.
  { intros [Hr'|[Hr'|Hr']]; [by vm_compute in Hr' | | by vm_compute in Hr'].
    apply BeginsWithNamespace_StartsWith in Hr'. unfold TopLevelNamespaces in Hr'.
    repeat (apply Exists_cons in Hr' as [Hr'|Hr']; [by vm_compute in Hr'|]).
    by apply Exists_nil in Hr'. }
  rewrite (Hf Hn), Hs1. by split_and!.
Defined.

(** ** The [view] option *)

Section ViewOption.
Context `{Collaborators}.

Lemma HasOption_Some (m_url : CURL) (key value : string) :
  url_Options m_url !! key = Some value →
  HasOption m_url key = true ∧ GetOption m_url key = value.
Proof.
  intros Hv. unfold HasOption, GetOption. rewrite Hv.
  split; [by apply bool_decide_eq_true | done].
Qed.

(** C5.  A URL whose [view] option has a value other than [grouped]
    and [flat] makes [GetRecordingsDirectory] fail, and one whose
    [view] option has a value other than [hidedisabled] makes
    [GetTimersDirectory] fail; neither adds an entry or queues a job,
    and the same holds for a started backend when the request comes
    through [GetDirectory]. *)
Theorem unsupported_view_fails (mgr : CPVRManager) (m_url : CURL) (results : CFileItemList)
    (view : string) :
  url_Options m_url !! "view" = Some view →
  (view ≠ "grouped" → view ≠ "flat" →
   GetRecordingsDirectory mgr m_url results
     = mkOutcome false (SetContent "recordings" results) []
   ∧ m_items (out_results (GetRecordingsDirectory mgr m_url results)) = m_items results
   ∧ ((∃ rest, FileNameOf m_url = "recordings" +:+ rest) → mgr_IsStarted mgr = true →
      out_ok (GetDirectory mgr m_url results) = false
      ∧ m_items (out_results (GetDirectory mgr m_url results)) = m_items results
      ∧ out_jobs (GetDirectory mgr m_url results) = []))
  ∧ (view ≠ "hidedisabled" →
     GetTimersDirectory mgr m_url results = (false, results)
     ∧ ((∃ rest, FileNameOf m_url = "timers" +:+ rest) → mgr_IsStarted mgr = true →
        GetDirectory mgr m_url results
          = mkOutcome false (SetCacheToDisc CACHE_NEVER results) [])).
Proof.
  intros [Hhas Hget]%HasOption_Some.
  assert (∀ res, view ≠ "grouped" → view ≠ "flat" →
            GetRecordingsDirectory mgr m_url res
              = mkOutcome false (SetContent "recordings" res) []) as Hrec.
  { intros res Hg Hf. unfold GetRecordingsDirectory. rewrite Hhas, Hget.
    by repeat case_decide. }
  assert (∀ res, view ≠ "hidedisabled" → GetTimersDirectory mgr m_url res = (false, res))
    as Htim.
  { intros res Hh. unfold GetTimersDirectory. rewrite Hhas, Hget.
    case_match; [|done]. by case_decide. }
  split.
  - intros Hg Hf. rewrite !Hrec by done. split_and!; [done..|].
    intros [rest Hr] Hs. unfold GetDirectory, FileNameOf in *. rewrite Hr, Hs.
    case_decide as He; [discriminate He|]. simpl StringUtils.StartsWith.
    repeat (case_decide; try done). by rewrite Hrec.
  - intros Hh. split; [by apply Htim|].
    intros [rest Hr] Hs. unfold GetDirectory, FileNameOf in *. rewrite Hr, Hs.
    case_decide as He; [discriminate He|]. simpl StringUtils.StartsWith.
    repeat (case_decide; try done). by rewrite Htim.
Qed.

End ViewOption.

(** The theorem at the fixture of section 8, [view=bogus]. *)
Lemma unsupported_view_fails_witness :
  out_ok (GetRecordingsDirectory (H := collaborators) emptyManager
            (pvrURL "recordings/tv/active/" {["view" := "bogus"]}) CFileItemList_empty) = false
  ∧ out_ok (GetDirectory (H := collaborators) emptyManager
              (pvrURL "recordings/tv/active/" {["view" := "bogus"]}) CFileItemList_empty) = false
  ∧ GetTimersDirectory (H := collaborators) emptyManager
      (pvrURL "timers/tv/timers/" {["view" := "bogus"]}) CFileItemList_empty
    = (false, CFileItemList_empty).
Proof.
  pose proof (unsupported_view_fails (H := collaborators) emptyManager
                (pvrURL "recordings/tv/active/" {["view" := "bogus"]}) CFileItemList_empty
                "bogus" eq_refl) as [Hr _].
  pose proof (unsupported_view_fails (H := collaborators) emptyManager
                (pvrURL "timers/tv/timers/" {["view" := "bogus"]}) CFileItemList_empty
                "bogus" eq_refl) as [_ Ht].
  destruct Hr as (Hr1 & _ & Hr2); [done..|].
  destruct Hr2 as (Hr2 & _); [by exists "/tv/active" | done |].
  destruct Ht as [Ht _]; [done|].
  rewrite Hr1, Hr2, Ht. by split_and!.
Defined.

(** ** Loops that add one entry per admitted element *)

Lemma WithItems_app_nil (results : CFileItemList) :
  WithItems (λ items, items ++ []) results = results.
Proof. destruct results. unfold WithItems. simpl. by rewrite app_nil_r. Qed.

(** A loop whose body adds [mk x] when [c x] holds and does nothing
    otherwise appends the entries of the admitted elements, in order. *)
Lemma fold_left_Add_filter {A : Type} (f : CFileItemList → A → CFileItemList)
    (c : A → bool) (P : A → Prop) `{∀ x, Decision (P x)} (mk : A → CFileItem)
    (l : list A) (results : CFileItemList) :
  (∀ rs x, f rs x = if c x then Add (mk x) rs else rs) →
  (∀ x, c x = true ↔ P x) →
  fold_left f l results = WithItems (λ items, items ++ (mk <$> filter P l)) results.
Proof.
  intros Hf Hc. revert results. induction l as [|x l IH]; intros results; simpl.
  - by rewrite WithItems_app_nil.
  - rewrite IH, Hf. destruct (c x) eqn:Hcx.
    + rewrite filter_cons_True by (by apply Hc).
      destruct results. unfold WithItems, Add. simpl. by rewrite <-app_assoc.
    + rewrite filter_cons_False; [done|]. rewrite <-Hc. congruence.
Qed.

(** ** Timers *)

Section Timers.
Context `{Collaborators}.

(** C8, as amended.  The timers root lists, in order, exactly the
    timers that are of the requested kind (rules or timers), that are
    of the requested radio/tv kind or are rules targeting any channel,
    and that are not disabled when disabled timers are hidden: the
    exception for any channel is for a timer rule in the rules listing,
    not for a timer a rule generated.  The listing below a
    rule lists exactly the timers of the path's radio/tv kind that
    have a parent, whose parent id is the rule's, whose client is the
    path's when the path names one, and that are not disabled when
    disabled timers are hidden. *)
Theorem timers_listed (path : CPVRTimersPath) (bHideDisabled : bool)
    (timers : list CPVRTimerInfoTag) (results : CFileItemList) :
  GetTimersRootDirectory path bHideDisabled timers results
    = (true, WithItems (λ items, items ++ (TimerEntry path <$>
                          filter (ListedAtTimersRoot path bHideDisabled) timers)) results)
  ∧ GetTimersSubDirectory path bHideDisabled timers results
    = (true, WithItems (λ items, items ++ (TimerEntry path <$>
                          filter (ListedBelowTimerRule path bHideDisabled) timers)) results).
Proof.
  split.
  - unfold GetTimersRootDirectory. f_equal.
    apply (fold_left_Add_filter _
             (λ timer, (bool_decide (tp_IsRadio path = tmr_IsRadio timer)
                        || (tp_IsRules path
                            && bool_decide (tmr_ClientChannelUID timer = PVR_TIMER_ANY_CHANNEL)))
                       && bool_decide (tp_IsRules path = tmr_IsTimerRule timer)
                       && (negb bHideDisabled || negb (tmr_IsDisabled timer)))); [done|].
    intros timer. unfold ListedAtTimersRoot.
    rewrite !andb_true_iff, !orb_true_iff, andb_true_iff, !bool_decide_eq_true,
      !negb_true_iff.
    destruct bHideDisabled, (tmr_IsDisabled timer), (tp_IsRules path),
      (tmr_IsTimerRule timer); naive_solver.
  - unfold GetTimersSubDirectory. f_equal.
    apply (fold_left_Add_filter _
             (λ timer, bool_decide (tmr_IsRadio timer = tp_IsRadio path) && tmr_HasParent timer
                       && (bool_decide (tp_GetClientId path = PVR_CLIENT_INVALID_UID)
                           || bool_decide (tmr_ClientID timer = tp_GetClientId path))
                       && bool_decide (tmr_ParentClientIndex timer = tp_GetParentId path)
                       && (negb bHideDisabled || negb (tmr_IsDisabled timer)))); [done|].
    intros timer. unfold ListedBelowTimerRule.
    rewrite !andb_true_iff, !orb_true_iff, !bool_decide_eq_true, !negb_true_iff.
    destruct bHideDisabled, (tmr_IsDisabled timer);
      destruct (decide (tp_GetClientId path = PVR_CLIENT_INVALID_UID)); naive_solver.
Qed.

End Timers.

(** The timers of the fixture, as [GetTimersDirectory] lists them: the
    TV rules, the same with disabled timers hidden, and the timers
    below the rule with client 1 and index 10. *)
Example timers_listed_example :
  m_infoTag <$> m_items (GetTimersDirectory (H := collaborators) timersManager
                           (pvrURL "timers/tv/rules/" ∅) CFileItemList_empty).2
  = [PVRTimerInfoTag anyChannelRule; PVRTimerInfoTag disabledRule]
  ∧ m_infoTag <$> m_items (GetTimersDirectory (H := collaborators) timersManager
                             (pvrURL "timers/tv/rules/" {["view" := "hidedisabled"]})
                             CFileItemList_empty).2
    = [PVRTimerInfoTag anyChannelRule]
  ∧ m_infoTag <$> m_items (GetTimersDirectory (H := collaborators) timersManager
                             (pvrURL "timers/tv/rules/1/10" ∅) CFileItemList_empty).2
    = [PVRTimerInfoTag timerOfRule10].
Proof. by vm_compute. Qed.

(** C8 as stated fails in its exception.  A radio timer for any channel
    that a rule generated is a timer the wording lists among the TV
    timers, and the code does not list it; the radio rule for any
    channel, which no rule generated, is a rule the wording keeps out of
    the TV rules, and the code lists it.  The exception of lines 917-919
    is [bRules && ClientChannelUID() == PVR_TIMER_ANY_CHANNEL]: it is
    for timer rules, in the rules listing. *)
Lemma rule_generated_any_channel_timer_counterexample :
  tmr_HasParent anyChannelTimer = true
  ∧ tmr_IsTimerRule anyChannelTimer = false
  ∧ tmr_ClientChannelUID anyChannelTimer = PVR_TIMER_ANY_CHANNEL (Collaborators := collaborators)
  ∧ filter (ListedAtTimersRoot_as_worded (H := collaborators)
              (parseTimersPath "pvr://timers/tv/timers/") false)
      (mgr_Timers anyChannelManager)
    = [anyChannelTimer]
  ∧ m_infoTag <$> m_items (GetTimersDirectory (H := collaborators) anyChannelManager
                             (pvrURL "timers/tv/timers/" ∅) CFileItemList_empty).2
    = []
  ∧ tmr_HasParent anyChannelRule = false
  ∧ filter (ListedAtTimersRoot_as_worded (H := collaborators)
              (parseTimersPath "pvr://timers/tv/rules/") false)
      (mgr_Timers anyChannelManager)
    = []
  ∧ m_infoTag <$> m_items (GetTimersDirectory (H := collaborators) anyChannelManager
                             (pvrURL "timers/tv/rules/" ∅) CFileItemList_empty).2
    = [PVRTimerInfoTag anyChannelRule].
Proof. by vm_compute. Qed.

(** ** The date-added view of a channel group *)

Section DateAdded.
Context `{Collaborators}.

Lemma OmittedByDateAdded_spec (mgr : CPVRManager) (groupMember : CPVRChannelGroupMember) :
  OmittedByDateAdded mgr groupMember = false ↔ AddedAfterFirstChannels mgr groupMember.
Proof.
  unfold OmittedByDateAdded, AddedAfterFirstChannels, CDateTime_le.
  destruct (dt_IsValid (ch_DateTimeAdded (gm_Channel groupMember))); simpl;
    [|split; [done | by intros [? _]]].
  destruct (GetClient mgr (gm_ChannelClientID groupMember)) as [client|];
    [|split; [by split | done]].
  rewrite andb_false_iff, Z.leb_gt. split.
  - intros Hc. split; [done|]. intros ? [= <-] Hv. destruct Hc; congruence.
  - intros [_ Hc]. destruct (dt_IsValid (cl_DateTimeFirstChannelsAdded client)) eqn:Hv;
      [right; by apply Hc | by left].
Qed.

(** C9, as amended.  In the date-added view of a channel group the
    listing holds, in order, exactly the group members that pass the
    client/provider filter and the hidden-flag test, whose channel has
    a valid added timestamp and, when the owning client recorded a
    "first channels added" timestamp, was added strictly after it;
    every entry of that view is marked hideable.  So a channel added
    during the client's initial population has no entry in the view. *)
Theorem date_added_view (mgr : CPVRManager) (m_url : CURL) (results : CFileItemList) :
  let path := CPVRChannelsPath_parse (url_GetWithoutOptions m_url) in
  cp_IsValid path = true → cp_IsEmpty path = false → cp_IsChannelsRoot path = false →
  cp_IsChannelGroup path = true →
  url_Options m_url !! "view" = Some "dateadded" →
  GetChannelsDirectory mgr m_url results
  = (true,
     WithItems
       (λ items,
          items ++ ((λ groupMember,
                       SetProperty "hideable" (VariantTypeBoolean true)
                         (CFileItem_groupMember groupMember))
                    <$> filter (ListedByDateAdded mgr m_url path)
                          (GetChannelGroupMembers mgr path)))
       results).
Proof.
  intros path Hvalid Hempty Hroot Hgroup [Hhas Hget]%HasOption_Some.
  unfold GetChannelsDirectory. fold path. rewrite Hvalid, Hempty, Hroot, Hgroup, Hhas, Hget.
  f_equal.
  apply (fold_left_Add_filter _
           (λ groupMember,
              negb (FilterChannel (CByClientAndProviderFilter_of m_url) (gm_Channel groupMember))
              && bool_decide (cp_IsHiddenChannelGroup path = ch_IsHidden (gm_Channel groupMember))
              && negb (OmittedByDateAdded mgr groupMember))).
  - intros rs groupMember. unfold AddChannel. simpl.
    destruct (FilterChannel _ _); [done|]. destruct (bool_decide _); [|done]. simpl.
    by destruct (OmittedByDateAdded mgr groupMember).
  - intros groupMember. unfold ListedByDateAdded.
    rewrite !andb_true_iff, !negb_true_iff, bool_decide_eq_true, OmittedByDateAdded_spec.
    naive_solver.
Qed.

End DateAdded.

(** The theorem at a fixture: of the initial channel and a later one,
    the date-added view of "all channels" lists the later one, marked
    hideable. *)
Lemma date_added_view_witness :
  m_items (snd (GetChannelsDirectory (H := collaborators) twoChannelsManager
                  (pvrURL "channels/tv/*" {["view" := "dateadded"]}) CFileItemList_empty))
  = [SetProperty "hideable" (VariantTypeBoolean true) (CFileItem_groupMember laterMember)].
Proof.
  assert (url_Options (pvrURL "channels/tv/*" {["view" := "dateadded"]}) !! "view"
          = Some "dateadded") as Hview by (by vm_compute).
  rewrite (date_added_view (H := collaborators) twoChannelsManager
             (pvrURL "channels/tv/*" {["view" := "dateadded"]}) CFileItemList_empty
             eq_refl eq_refl eq_refl eq_refl Hview).
  by vm_compute.
Defined.

(** C9 as stated fails in its last part.  A channel added during the
    client's initial population has no entry in the date-added view,
    and the entry it has in the plain listing of the group carries no
    "hideable" property: the code marks the entries the date-added view
    lists, not the channels it leaves out. *)
Lemma initial_population_not_marked_counterexample :
  CDateTime_le (ch_DateTimeAdded initialChannel) (mkDateTime true 10) = true
  ∧ m_items (snd (GetChannelsDirectory (H := collaborators) initialPopulationManager
                    (pvrURL "channels/tv/*" {["view" := "dateadded"]}) CFileItemList_empty)) = []
  ∧ m_items (snd (GetChannelsDirectory (H := collaborators) initialPopulationManager
                    (pvrURL "channels/tv/*" ∅) CFileItemList_empty))
    = [CFileItem_groupMember initialMember]
  ∧ m_mapProperties (CFileItem_groupMember initialMember) !! "hideable" = None.
Proof. by vm_compute. Qed.

(** ** The in-progress refresh *)

Section Refresh.
Context `{Collaborators}.

(** A counting loop counts the elements it neither skips nor rejects. *)
Lemma fold_left_count {A : Type} (skip test : A → bool) (P : A → Prop)
    `{∀ x, Decision (P x)} (l : list A) (n : Z) :
  (∀ x, skip x = false ∧ test x = true ↔ P x) →
  fold_left (λ k x, if skip x then k else if test x then k + 1 else k) l n
  = n + Z.of_nat (length (filter P l)).
Proof.
  intros HP. revert n. induction l as [|x l IH]; intros n; simpl; [lia|].
  rewrite IH. destruct (decide (P x)) as [Hx|Hx].
  - rewrite filter_cons_True by done. apply HP in Hx as [-> ->]. simpl. lia.
  - rewrite filter_cons_False by done.
    destruct (skip x) eqn:Hs; [done|]. destruct (test x) eqn:Ht; [|done].
    destruct Hx. by apply HP.
Qed.

Lemma CountInProgress_spec (folder : CFileItem) (recordings : list CPVRRecording) :
  let recPath := CPVRRecordingsPath_parse (m_strPath folder) in
  CountInProgress recPath (CByClientAndProviderFilter_of (CURL_parse (m_strPath folder)))
    (rp_GetUnescapedDirectoryPath recPath) recordings
  = RecomputedInProgress folder recordings.
Proof.
  intros recPath. unfold CountInProgress, RecomputedInProgress.
  rewrite (fold_left_count _ _
             (λ r, MatchesFolder folder r ∧ rec_ResumePointIsPartWay r = true)); [lia|].
  intros r. unfold MatchesFolder. fold recPath.
  rewrite !orb_false_iff, !negb_false_iff, !bool_decide_eq_true. tauto.
Qed.

(** What the loop body does to one folder. *)
Lemma DoWork_folder_spec (recordings : list CPVRRecording) (i : nat) (folder : CFileItem) :
  let n := RecomputedInProgress folder recordings in
  let updated := SetProperty "inprogressepisodes" (VariantTypeInteger n) folder in
  DoWork_folder recordings i folder
  = if rp_IsValid (CPVRRecordingsPath_parse (m_strPath folder))
    then if decide (n = asInteger (GetProperty "inprogressepisodes" folder) 0)
         then (folder, [])
         else (updated, [GUI_MSG_UPDATE_ITEM i updated])
    else (folder, []).
Proof.
  intros n updated. unfold DoWork_folder.
  destruct (rp_IsValid _); simpl; [|done].
  rewrite CountInProgress_spec. fold n. by repeat case_decide.
Qed.

Lemma DoWork_folder_position (recordings : list CPVRRecording) (i : nat) (folder : CFileItem)
    (m : CGUIMessage) :
  m ∈ (DoWork_folder recordings i folder).2 → msg_position m = i.
Proof.
  rewrite DoWork_folder_spec. repeat case_match; simpl; set_solver.
Qed.

Lemma DoWork_loop_position (recordings : list CPVRRecording) (k : nat)
    (folders : list CFileItem) (m : CGUIMessage) :
  m ∈ (DoWork_loop recordings k folders).2 → (k ≤ msg_position m)%nat.
Proof.
  revert k. induction folders as [|folder rest IH]; intros k; simpl; [set_solver|].
  destruct (DoWork_folder recordings k folder) as [folder' sent] eqn:Hf.
  destruct (DoWork_loop recordings (S k) rest) as [rest' sent'] eqn:Hl. simpl.
  intros [Hm|Hm]%elem_of_app.
  - pose proof (DoWork_folder_position recordings k folder m) as Hp.
    rewrite Hf in Hp. rewrite Hp; [lia | done].
  - specialize (IH (S k)). rewrite Hl in IH. specialize (IH Hm). lia.
Qed.

Lemma filter_none {A : Type} (P : A → Prop) `{∀ x, Decision (P x)} (l : list A) :
  (∀ x, x ∈ l → ¬ P x) → filter P l = [].
Proof.
  induction l as [|x l IH]; intros Hl; [done|].
  rewrite filter_cons_False by (apply Hl; left). apply IH. intros y Hy. apply Hl. by right.
Qed.

Lemma filter_all {A : Type} (P : A → Prop) `{∀ x, Decision (P x)} (l : list A) :
  (∀ x, x ∈ l → P x) → filter P l = l.
Proof.
  induction l as [|x l IH]; intros Hl; [done|].
  rewrite filter_cons_True by (apply Hl; left). f_equal. apply IH. intros y Hy. apply Hl.
  by right.
Qed.

(** The loop treats the folder at each position by the loop body and
    sends about it what the body sends. *)
Lemma DoWork_loop_lookup (recordings : list CPVRRecording) (k j : nat)
    (folders : list CFileItem) (folder : CFileItem) :
  folders !! j = Some folder →
  (DoWork_loop recordings k folders).1 !! j
    = Some (DoWork_folder recordings (k + j) folder).1
  ∧ MessagesAbout (k + j) (DoWork_loop recordings k folders).2
    = (DoWork_folder recordings (k + j) folder).2.
Proof.
  revert k j. induction folders as [|first rest IH]; intros k j Hj; [done|].
  simpl.
  destruct (DoWork_folder recordings k first) as [first' sent] eqn:Hf.
  destruct (DoWork_loop recordings (S k) rest) as [rest' sent'] eqn:Hl. simpl.
  unfold MessagesAbout. rewrite filter_app.
  destruct j as [|j]; simpl in Hj.
  - injection Hj as <-. rewrite Nat.add_0_r, Hf. simpl. split; [done|].
    rewrite (filter_none _ sent'), app_nil_r.
    + apply filter_all. intros m Hm.
      apply (DoWork_folder_position recordings k first). by rewrite Hf.
    + intros m Hm. pose proof (DoWork_loop_position recordings (S k) rest m) as Hp.
      rewrite Hl in Hp. specialize (Hp Hm). lia.
  - destruct (IH (S k) j Hj) as [IH1 IH2]. rewrite Hl in IH1, IH2. simpl in *.
    replace (k + S j)%nat with (S k + j)%nat by lia. split; [done|].
    rewrite (filter_none _ sent); [done|].
    intros m Hm. pose proof (DoWork_folder_position recordings k first m) as Hp.
    rewrite Hf in Hp. specialize (Hp Hm). lia.
Qed.

Lemma DoWork_unfold (job : CPVRRecordingFoldersInProgressEpisodesCountJob) :
  m_recordings job ≠ [] → m_items (m_folders job) ≠ [] →
  DoWork job
  = (true,
     mkJob (WithItems (λ _, (DoWork_loop (m_recordings job) 0 (m_items (m_folders job))).1)
              (m_folders job)) (m_recordings job),
     (DoWork_loop (m_recordings job) 0 (m_items (m_folders job))).2).
Proof.
  intros Hr Hf. unfold DoWork.
  destruct (m_recordings job); [done|]. destruct (m_items (m_folders job)); [done|].
  by destruct (DoWork_loop _ _ _).
Qed.

(** C7.  For every folder the refresh job goes through (the job has
    recordings, and the folder's path is a valid recordings path): if
    the recomputed number of partially watched recordings differs from
    the folder's "inprogressepisodes" property, the property is set to
    the new number and one item-update message is sent for that entry,
    carrying the updated entry; if the two are equal, the entry stays
    as it was and no message is sent for it. *)
Theorem DoWork_refreshes_changed_folders
    (job : CPVRRecordingFoldersInProgressEpisodesCountJob) (i : nat) (folder : CFileItem) :
  m_recordings job ≠ [] →
  m_items (m_folders job) !! i = Some folder →
  rp_IsValid (CPVRRecordingsPath_parse (m_strPath folder)) = true →
  let n := RecomputedInProgress folder (m_recordings job) in
  let shown := asInteger (GetProperty "inprogressepisodes" folder) 0 in
  let updated := SetProperty "inprogressepisodes" (VariantTypeInteger n) folder in
  let folders' := m_items (m_folders (DoWork job).1.2) in
  let sent := (DoWork job).2 in
  (DoWork job).1.1 = true
  ∧ (n ≠ shown →
     folders' !! i = Some updated
     ∧ MessagesAbout i sent = [GUI_MSG_UPDATE_ITEM i updated])
  ∧ (n = shown → folders' !! i = Some folder ∧ MessagesAbout i sent = []).
Proof.
  intros Hrecs Hi Hvalid n shown updated folders' sent.
  subst folders' sent. rewrite DoWork_unfold by (done || by intros Hn; rewrite Hn in Hi).
  destruct (DoWork_loop_lookup (m_recordings job) 0 i _ folder Hi) as [Hl Hm].
  simpl in *. rewrite Hl, Hm, DoWork_folder_spec, Hvalid. fold n shown updated.
  split; [done|]. by case_decide.
Qed.

End Refresh.

(** The theorem at a fixture: the second recording of [Foo/Baz] is part
    way through, the folder shows none, and the job sets the property
    to one and sends one message for the entry. *)
Lemma DoWork_refreshes_changed_folders_witness :
  m_items (m_folders (DoWork (H := collaborators) bazJob).1.2) !! 0%nat
  = Some (SetProperty "inprogressepisodes" (VariantTypeInteger 1) bazFolder)
  ∧ MessagesAbout 0 (DoWork (H := collaborators) bazJob).2
    = [GUI_MSG_UPDATE_ITEM 0 (SetProperty "inprogressepisodes" (VariantTypeInteger 1) bazFolder)].
Proof.
  pose proof (DoWork_refreshes_changed_folders (H := collaborators) bazJob 0 bazFolder)
    as Hw.
  destruct Hw as (_ & Hchanged & _); [done | done | by vm_compute |].
  apply Hchanged. by vm_compute.
Defined.

(** ** All channels across all groups *)

Section AllChannelsFacts.
Context `{Collaborators}.

Lemma GetLastWatchedChannelGroupMember_spec (mgr : CPVRManager) (channel : CPVRChannel) :
  match GetLastWatchedChannelGroupMember mgr channel with
  | Some member => LastWatchedEntry mgr channel member
  | None => ∀ m, ¬ LastWatchedEntry mgr channel m
  end.
Proof.
  unfold GetLastWatchedChannelGroupMember, LastWatchedEntry, LastWatchedGroup.
  case_decide as Hid.
  - destruct (GetByIdFromAll mgr (ch_LastWatchedGroupId channel)) as [lastGroup|] eqn:Hg.
    + destruct (grp_IsHidden lastGroup) eqn:Hh; simpl.
      { intros m (g & [_ Hg'] & Hh' & _). congruence. }
      destruct (grp_IsDeleted lastGroup) eqn:Hd; simpl.
      { intros m (g & [_ Hg'] & _ & Hd' & _). congruence. }
      destruct (GetByUniqueID lastGroup (ch_StorageId channel)) as [member|] eqn:Hm.
      * by exists lastGroup.
      * intros m (g & [_ Hg'] & _ & _ & Hm'). congruence.
    + intros m (g & [_ Hg'] & _). congruence.
  - intros m (g & [Hid' _] & _). by apply Hid'.
Qed.

Lemma FirstMatchingGroupMember_loop_spec (groups : list CPVRChannelGroup)
    (channel : CPVRChannel) :
  match FirstMatchingGroupMember_loop (Groups_GetMembers groups true) channel with
  | Some member => FirstVisibleGroupEntry groups channel member
  | None => Forall (Unsuitable channel) groups
  end.
Proof.
  unfold Groups_GetMembers. induction groups as [|g groups IH]; simpl; [done|].
  assert (Unsuitable channel g →
          match FirstMatchingGroupMember_loop
                  (List.filter (λ g, negb (grp_IsHidden g)) groups) channel with
          | Some member => FirstVisibleGroupEntry (g :: groups) channel member
          | None => Forall (Unsuitable channel) (g :: groups)
          end) as Hskip.
  { intros Hg. destruct (FirstMatchingGroupMember_loop _ channel) as [member|].
    - destruct IH as (before & g' & after & -> & Hb & Hrest).
      exists (g :: before), g', after. split; [done|]. split; [by constructor | done].
    - by constructor. }
  destruct (grp_IsHidden g) eqn:Hh; simpl; [apply Hskip; by left|].
  destruct (grp_IsDeleted g) eqn:Hd; [apply Hskip; right; by left|].
  destruct (GetByUniqueID g (ch_StorageId channel)) as [member|] eqn:Hm;
    [|apply Hskip; right; by right].
  exists [], g, groups. by split_and!.
Qed.

Lemma AllChannels_step_spec (mgr : CPVRManager) (group : CPVRChannelGroup)
    (result : list CPVRChannelGroupMember) (allGroupMember : CPVRChannelGroupMember) :
  ∃ produced, ProducedFor mgr group allGroupMember produced
              ∧ AllChannels_step mgr group result allGroupMember = result ++ produced.
Proof.
  unfold AllChannels_step.
  pose proof (GetLastWatchedChannelGroupMember_spec mgr (gm_Channel allGroupMember)) as Hlast.
  destruct (GetLastWatchedChannelGroupMember mgr (gm_Channel allGroupMember)) as [member|].
  { exists [member]. split; [by apply produced_last_watched | done]. }
  destruct (grp_IsHidden group) eqn:Hh.
  - unfold GetFirstMatchingGroupMember.
    destruct (ChannelGroups_Get mgr (ch_IsRadio (gm_Channel allGroupMember)))
      as [groups|] eqn:Hgroups.
    + pose proof (FirstMatchingGroupMember_loop_spec groups (gm_Channel allGroupMember))
        as Hfirst.
      destruct (FirstMatchingGroupMember_loop _ _) as [member|].
      * exists [member]. split; [by eapply produced_first_group | done].
      * exists []. split; [|by rewrite app_nil_r].
        apply produced_nothing; [done..|]. intros ? Hg. rewrite Hgroups in Hg. by simplify_eq.
    + exists []. split; [|by rewrite app_nil_r].
      apply produced_nothing; [done..|]. intros ? Hg. by rewrite Hgroups in Hg.
  - exists [allGroupMember]. split; [by apply produced_all_channels_member | done].
Qed.

(** C4, as amended.  In the listing of the group named [*], every
    visible member of the 'All channels' group contributes, in order:
    its channel's entry in the group the channel was last watched in,
    when that group exists, is visible and not deleted and still
    holds the channel; otherwise, when 'All channels' is hidden, the
    channel's entry in the first visible, non-deleted group that holds
    the channel, and nothing when there is none; otherwise the 'All
    channels' member itself. *)
Theorem all_channels_entries (mgr : CPVRManager) (path : CPVRChannelsPath)
    (group : CPVRChannelGroup) :
  cp_IsHiddenChannelGroup path = false →
  cp_GetGroupName path = "*" →
  GetGroupAll mgr (cp_IsRadio path) = Some group →
  ∃ produced : list (list CPVRChannelGroupMember),
    Forall2 (ProducedFor mgr group) (GetMembers group Include_ONLY_VISIBLE) produced
    ∧ GetChannelGroupMembers mgr path = concat produced.
Proof.
  intros Hhidden Hname Hall. unfold GetChannelGroupMembers.
  rewrite Hhidden, Hname, Hall. case_decide; [|done].
  generalize (GetMembers group Include_ONLY_VISIBLE). intros members.
  assert (∀ result, ∃ produced,
            Forall2 (ProducedFor mgr group) members produced
            ∧ fold_left (AllChannels_step mgr group) members result
              = result ++ concat produced) as Hloop.
  { induction members as [|m members IH]; intros result; simpl.
    - exists []. split; [constructor | by rewrite app_nil_r].
    - destruct (AllChannels_step_spec mgr group result m) as (p & Hp & ->).
      destruct (IH (result ++ p)) as (ps & Hps & ->).
      exists (p :: ps). split; [by constructor | by rewrite <-app_assoc]. }
  destruct (Hloop []) as (produced & Hp & ->). by exists produced.
Qed.

End AllChannelsFacts.

(** The theorem at the fixture of section 8: a channel last watched in
    a visible, non-deleted group that holds it is listed by that
    group's entry. *)
Lemma all_channels_entries_witness :
  (∃ produced,
      Forall2 (ProducedFor (H := collaborators) favouritesManager
                 (allChannelsGroup false [watchedInAll]))
        [watchedInAll] produced
      ∧ GetChannelGroupMembers (H := collaborators) favouritesManager
          (parseChannelsPath "pvr://channels/tv/*") = concat produced)
  ∧ GetChannelGroupMembers (H := collaborators) favouritesManager
      (parseChannelsPath "pvr://channels/tv/*") = [watchedInFavourites].
Proof.
  split; [|by vm_compute].
  exact (all_channels_entries (H := collaborators) favouritesManager
           (parseChannelsPath "pvr://channels/tv/*") (allChannelsGroup false [watchedInAll])
           eq_refl eq_refl eq_refl).
Defined.

(** C4 as stated fails.  The group the channel was last watched in
    exists, is visible and is not deleted, but no longer holds the
    channel; the listing then has the 'All channels' member, which is
    no entry of that group. *)
Lemma last_watched_group_without_channel_counterexample :
  LastWatchedGroup (H := collaborators) emptiedFavouritesManager watchedChannel (favourites [])
  ∧ grp_IsHidden (favourites []) = false
  ∧ grp_IsDeleted (favourites []) = false
  ∧ GetByUniqueID (favourites []) (ch_StorageId watchedChannel) = None
  ∧ GetChannelGroupMembers (H := collaborators) emptiedFavouritesManager
      (parseChannelsPath "pvr://channels/tv/*") = [watchedInAll]
  ∧ gm_GroupID watchedInAll ≠ grp_GroupID (favourites []).
Proof. split_and!; by vm_compute. Qed.

(** ** Recordings: the folders of the grouped listing *)

Section FolderEntries.
Context `{Collaborators}.

Lemma IncrementProperty_fields (strKey : string) (nVal : Z) (f : CFileItem) :
  m_strLabel (IncrementProperty strKey nVal f) = m_strLabel f
  ∧ m_strPath (IncrementProperty strKey nVal f) = m_strPath f
  ∧ m_bIsFolder (IncrementProperty strKey nVal f) = m_bIsFolder f
  ∧ m_overlayIcon (IncrementProperty strKey nVal f) = m_overlayIcon f.
Proof. done. Qed.

Lemma IncrementProperty_lookup_ne (strKey key : string) (nVal : Z) (f : CFileItem) :
  strKey ≠ key →
  m_mapProperties (IncrementProperty strKey nVal f) !! key = m_mapProperties f !! key.
Proof. intros Hne. unfold IncrementProperty, SetProperty. simpl. by rewrite lookup_insert_ne. Qed.

Lemma IncrementProperty_int64_lookup_ne (strKey key : string) (nVal : Z) (f : CFileItem) :
  strKey ≠ key →
  m_mapProperties (IncrementProperty_int64 strKey nVal f) !! key = m_mapProperties f !! key.
Proof.
  intros Hne. unfold IncrementProperty_int64, SetProperty. simpl.
  by rewrite lookup_insert_ne.
Qed.

Lemma IncrementProperty_lookup (strKey : string) (nVal n : Z) (f : CFileItem) :
  m_mapProperties f !! strKey = Some (VariantTypeInteger n) →
  m_mapProperties (IncrementProperty strKey nVal f) !! strKey
  = Some (VariantTypeInteger (n + nVal)).
Proof.
  intros Hn. unfold IncrementProperty, SetProperty, GetProperty. simpl.
  by rewrite lookup_insert_eq, Hn.
Qed.

(** What counting a recording does to the entry. *)
Lemma CountRecording_fields (r : CPVRRecording) (f : CFileItem) :
  m_strLabel (CountRecording r f) = m_strLabel f
  ∧ m_strPath (CountRecording r f) = m_strPath f
  ∧ m_bIsFolder (CountRecording r f) = m_bIsFolder f
  ∧ m_overlayIcon (CountRecording r f) = m_overlayIcon f.
Proof. unfold CountRecording. by repeat (case_decide || case_match). Qed.

Lemma CountRecording_total (r : CPVRRecording) (f : CFileItem) (n : Z) :
  m_mapProperties f !! "totalepisodes" = Some (VariantTypeInteger n) →
  m_mapProperties (CountRecording r f) !! "totalepisodes" = Some (VariantTypeInteger (n + 1)).
Proof.
  intros Hn. unfold CountRecording.
  rewrite IncrementProperty_int64_lookup_ne by done.
  destruct (rec_LocalResumePointIsPartWay r);
    [rewrite IncrementProperty_lookup_ne by done|];
    (case_decide; rewrite IncrementProperty_lookup_ne by done;
     by apply IncrementProperty_lookup).
Qed.

Lemma TouchFolder_fields (r : CPVRRecording) (f : CFileItem) :
  m_strLabel (TouchFolder r f) = m_strLabel f
  ∧ m_strPath (TouchFolder r f) = m_strPath f
  ∧ m_bIsFolder (TouchFolder r f) = m_bIsFolder f
  ∧ m_overlayIcon (TouchFolder r f) = m_overlayIcon f
  ∧ m_mapProperties (TouchFolder r f) = m_mapProperties f.
Proof. unfold TouchFolder. by case_match. Qed.

Lemma NewFolder_fields (s strFilePath : string) (r : CPVRRecording) :
  m_strLabel (NewFolder s strFilePath r) = s
  ∧ m_strPath (NewFolder s strFilePath r) = strFilePath
  ∧ m_bIsFolder (NewFolder s strFilePath r) = true
  ∧ m_overlayIcon (NewFolder s strFilePath r) = ICON_OVERLAY_WATCHED
  ∧ m_mapProperties (NewFolder s strFilePath r) !! "totalepisodes"
    = Some (VariantTypeInteger 0).
Proof. split_and!; try done. Qed.

End FolderEntries.

Section FolderLoop.
Context `{Collaborators}.
Variable p : CPVRRecordingsPath.
Variable flt : CByClientAndProviderFilter.
Hypothesis SameFolder_equivalence : Equivalence (SameFolder p).

(** [unwatchedFolders.insert(item)] when the play count is zero. *)
Definition NoteUnwatched (r : CPVRRecording) (item : nat) (unwatchedFolders : gset nat)
    : gset nat :=
  if decide (rec_PlayCount r = 0) then {[item]} ∪ unwatchedFolders else unwatchedFolders.

Lemma SubDirectories_step_skip (st : list CFileItem * gset nat) (r : CPVRRecording) :
  ¬ InSubDirectory p flt r → SubDirectories_step p flt (rp_IsRadio p) st r = st.
Proof.
  intros Hn. unfold SubDirectories_step. destruct st as [items uw].
  destruct (FilterRecording flt r) eqn:Hf; [done|].
  destruct (rec_IsDeleted r) eqn:Hd; [done|].
  case_bool_decide as Hr; simpl; [|done].
  case_decide as Hs; [done|]. destruct Hn. by repeat split.
Qed.

Lemma SubDirectories_step_count (items : list CFileItem) (uw : gset nat) (r : CPVRRecording) :
  InSubDirectory p flt r →
  SubDirectories_step p flt (rp_IsRadio p) (items, uw) r
  = match Get (FolderPath p (SubDirectoryOf p r)) items with
    | None =>
        (items ++ [CountRecording r
                     (NewFolder (SubDirectoryOf p r) (FolderPath p (SubDirectoryOf p r)) r)],
         NoteUnwatched r (length items) uw)
    | Some item =>
        (alter (λ f, CountRecording r (TouchFolder r f)) item items, NoteUnwatched r item uw)
    end.
Proof.
  intros [(Hf & Hd & Hr) Hs]. unfold SubDirectories_step, NoteUnwatched.
  rewrite Hf, Hd. rewrite bool_decide_eq_true_2 by done. simpl.
  fold (SubDirectoryOf p r). case_decide; [done|].
  fold (FolderPath p (SubDirectoryOf p r)).
  destruct (Get _ items) as [item|].
  - by rewrite list_alter_alter_eq.
  - rewrite alter_app_r_alt by done. by rewrite Nat.sub_diag.
Qed.

(** [Get] on a list of folders of their labels. *)
Lemma Get_Some_folder (s : string) (items : list CFileItem) (item : nat) :
  (∀ i f, items !! i = Some f → m_strPath f = FolderPath p (m_strLabel f)) →
  Get (FolderPath p s) items = Some item →
  ∃ f, items !! item = Some f ∧ SameFolder p (m_strLabel f) s.
Proof.
  intros Hpath. unfold Get.
  intros ([i f] & Hfind & Hitem)%fmap_Some. simpl in Hitem. subst i.
  apply list_find_Some in Hfind as (Hi & Heq & _).
  exists f. split; [done|]. unfold SameFolder. by rewrite <-(Hpath item f Hi).
Qed.

Lemma Get_None_folder (s : string) (items : list CFileItem) :
  (∀ i f, items !! i = Some f → m_strPath f = FolderPath p (m_strLabel f)) →
  Get (FolderPath p s) items = None →
  ∀ i f, items !! i = Some f → ¬ SameFolder p (m_strLabel f) s.
Proof.
  intros Hpath. unfold Get. intros Hfind%fmap_None i f Hi Hsame.
  apply list_find_None in Hfind. eapply Forall_lookup in Hfind; [|done].
  apply Hfind. unfold SameFolder in Hsame. by rewrite (Hpath i f Hi).
Qed.

(** How the description of a folder changes with one more recording. *)
Lemma CreatedByFirst_snoc (done : list CPVRRecording) (r : CPVRRecording) (s : string) :
  CreatedByFirst p flt done s → CreatedByFirst p flt (done ++ [r]) s.
Proof.
  intros (before & r0 & after & -> & Hrest). exists before, r0, (after ++ [r]).
  split; [by rewrite <-app_assoc | done].
Qed.

Lemma FolderAfter_other (done : list CPVRRecording) (r : CPVRRecording) (f : CFileItem) :
  FolderAfter p flt done f → ¬ BelongsTo p flt (m_strLabel f) r →
  FolderAfter p flt (done ++ [r]) f.
Proof.
  intros (Hfolder & Hpath & Hoverlay & Hfirst & Htotal) Hn.
  split_and!; [done.. | by apply CreatedByFirst_snoc |].
  by rewrite filter_app, filter_cons_False, filter_nil, app_nil_r.
Qed.

Lemma FolderAfter_counted (done : list CPVRRecording) (r : CPVRRecording) (f : CFileItem) :
  FolderAfter p flt done f → BelongsTo p flt (m_strLabel f) r →
  FolderAfter p flt (done ++ [r]) (CountRecording r (TouchFolder r f)).
Proof.
  intros (Hfolder & Hpath & Hoverlay & Hfirst & Htotal) Hb.
  destruct (CountRecording_fields r (TouchFolder r f)) as (Hl & Hp & Hf & Ho).
  destruct (TouchFolder_fields r f) as (Hl' & Hp' & Hf' & Ho' & Hm').
  unfold FolderAfter. rewrite Hl, Hp, Hf, Ho, Hl', Hp', Hf', Ho'.
  split_and!; [done.. | by apply CreatedByFirst_snoc |].
  rewrite (CountRecording_total r _
             (Z.of_nat (length (filter (BelongsTo p flt (m_strLabel f)) done))))
    by (by rewrite Hm').
  rewrite filter_app, filter_cons_True, filter_nil, length_app by done.
  do 2 f_equal. simpl length. lia.
Qed.

Lemma FolderAfter_created (done : list CPVRRecording) (r : CPVRRecording) :
  InSubDirectory p flt r →
  Forall (λ r', ¬ BelongsTo p flt (SubDirectoryOf p r) r') done →
  FolderAfter p flt (done ++ [r])
    (CountRecording r (NewFolder (SubDirectoryOf p r) (FolderPath p (SubDirectoryOf p r)) r)).
Proof.
  intros Hin Hnone. set (s := SubDirectoryOf p r).
  destruct (CountRecording_fields r (NewFolder s (FolderPath p s) r)) as (Hl & Hp & Hf & Ho).
  destruct (NewFolder_fields s (FolderPath p s) r) as (Hl' & Hp' & Hf' & Ho' & Hm').
  unfold FolderAfter. rewrite Hl, Hp, Hf, Ho, Hl', Hp', Hf', Ho'.
  split_and!; [done..| |].
  - exists done, r, []. by split_and!.
  - assert (BelongsTo p flt s r) as Hb by (split; [done | reflexivity]).
    rewrite (CountRecording_total r _ 0) by done.
    rewrite filter_app, filter_cons_True, filter_nil, length_app by done.
    by rewrite (filter_none _ done) by (intros r' Hr'; by eapply Forall_forall in Hnone).
Qed.

Lemma elem_of_snoc {A : Type} (l : list A) (x y : A) : x ∈ l ++ [y] ↔ x ∈ l ∨ x = y.
Proof. rewrite elem_of_app, list_elem_of_singleton. tauto. Qed.

Lemma elem_of_NoteUnwatched (r : CPVRRecording) (item i : nat) (uw : gset nat) :
  i ∈ NoteUnwatched r item uw ↔ (rec_PlayCount r = 0 ∧ i = item) ∨ i ∈ uw.
Proof. unfold NoteUnwatched. case_decide; set_solver. Qed.

Lemma LoopInvariant_init : LoopInvariant p flt [] ([], ∅).
Proof. split_and!; simpl; intros; set_solver. Qed.

(** A recording outside every sub-directory changes nothing. *)
Lemma LoopInvariant_skip (done : list CPVRRecording) (st : list CFileItem * gset nat)
    (r : CPVRRecording) :
  ¬ InSubDirectory p flt r → LoopInvariant p flt done st → LoopInvariant p flt (done ++ [r]) st.
Proof.
  intros Hn (I1 & I2 & I3 & I4). split_and!; [|done| |done].
  - intros i f Hi. destruct (I1 i f Hi) as [Hf Hu]. split.
    + apply FolderAfter_other; [done|]. by intros [? _].
    + rewrite Hu. split; intros (r' & Hr' & Hb & Hp); exists r'.
      * split; [|done]. apply elem_of_app. by left.
      * apply elem_of_snoc in Hr' as [?| ->]; [done|].
        by destruct Hb.
  - intros r' [Hr'| ->]%elem_of_snoc Hin; [by apply I3 | done].
Qed.

(** A recording whose folder is in the list is counted there. *)
Lemma LoopInvariant_found (done : list CPVRRecording) (items : list CFileItem) (uw : gset nat)
    (r : CPVRRecording) (item : nat) (f0 : CFileItem) :
  InSubDirectory p flt r →
  items !! item = Some f0 → SameFolder p (m_strLabel f0) (SubDirectoryOf p r) →
  LoopInvariant p flt done (items, uw) →
  LoopInvariant p flt (done ++ [r])
    (alter (λ f, CountRecording r (TouchFolder r f)) item items, NoteUnwatched r item uw).
Proof.
  intros Hin Hitem Hsame (I1 & I2 & I3 & I4). simpl in *.
  assert (∀ f, m_strLabel (CountRecording r (TouchFolder r f)) = m_strLabel f) as Hlabel.
  { intros f. destruct (CountRecording_fields r (TouchFolder r f)) as (-> & _).
    by destruct (TouchFolder_fields r f) as (-> & _). }
  assert (∀ i f, items !! i = Some f → i ≠ item →
                 ¬ BelongsTo p flt (m_strLabel f) r) as Hothers.
  { intros i f Hi Hne [_ Hb]. apply Hne, (I2 i item f f0 Hi Hitem).
    etrans; [done | by symmetry]. }
  assert (∀ i f', alter (λ f, CountRecording r (TouchFolder r f)) item items !! i = Some f' →
                  ∃ f, items !! i = Some f ∧ m_strLabel f' = m_strLabel f
                       ∧ (i = item → f' = CountRecording r (TouchFolder r f))
                       ∧ (i ≠ item → f' = f)) as Hlookup.
  { intros i f'. rewrite list_lookup_alter. case_decide as Hi.
    - subst i. rewrite Hitem. intros [= <-]. exists f0. by split_and!.
    - intros Hf'. exists f'. by split_and!. }
  split_and!; simpl.
  - intros i f' (f & Hi & Hl & Heq & Hne)%Hlookup. destruct (I1 i f Hi) as [Hf Hu].
    rewrite elem_of_NoteUnwatched, Hu, Hl. destruct (decide (i = item)) as [->|Hi'].
    + rewrite (Heq eq_refl). assert (f = f0) as -> by congruence.
      split; [apply FolderAfter_counted; [done | by split]|].
      split.
      * intros [[Hp _]|(r' & Hr' & Hb & Hp)].
        -- exists r. split_and!; [set_solver | by split | done].
        -- exists r'. split_and!; [set_solver | done..].
      * intros (r' & [Hr'| ->]%elem_of_snoc & Hb & Hp);
          [right; by exists r' | by left].
    + rewrite (Hne Hi'). split; [apply FolderAfter_other; [done | by eapply Hothers]|].
      split.
      * intros [[_ ?]|(r' & Hr' & Hb & Hp)]; [done|].
        exists r'. split_and!; [set_solver | done..].
      * intros (r' & [Hr'| ->]%elem_of_snoc & Hb & Hp);
          [right; by exists r' | by destruct (Hothers i f Hi Hi')].
  - intros i j f' g' (f & Hi & Hl & _)%Hlookup (g & Hj & Hl' & _)%Hlookup.
    rewrite Hl, Hl'. by apply I2.
  - intros r' [Hr'| ->]%elem_of_snoc Hin'.
    + destruct (I3 r' Hr' Hin') as (i & f & Hi & Hs).
      exists i. destruct (decide (i = item)) as [->|Hne].
      * exists (CountRecording r (TouchFolder r f)).
        rewrite list_lookup_alter_eq, Hi, Hlabel. by split.
      * exists f. by rewrite list_lookup_alter_ne.
    + exists item, (CountRecording r (TouchFolder r f0)).
      rewrite list_lookup_alter_eq, Hitem, Hlabel. by split.
  - intros i [[_ ->]|Hi]%elem_of_NoteUnwatched.
    + by rewrite list_lookup_alter_eq, Hitem.
    + destruct (I4 i Hi) as [f Hf]. rewrite list_lookup_alter.
      case_decide; [by rewrite Hitem | by rewrite Hf].
Qed.

(** A recording whose folder is not in the list creates it. *)
Lemma LoopInvariant_created (done : list CPVRRecording) (items : list CFileItem)
    (uw : gset nat) (r : CPVRRecording) :
  InSubDirectory p flt r →
  (∀ i f, items !! i = Some f → ¬ SameFolder p (m_strLabel f) (SubDirectoryOf p r)) →
  LoopInvariant p flt done (items, uw) →
  LoopInvariant p flt (done ++ [r])
    (items ++ [CountRecording r
                 (NewFolder (SubDirectoryOf p r) (FolderPath p (SubDirectoryOf p r)) r)],
     NoteUnwatched r (length items) uw).
Proof.
  intros Hin Hnone (I1 & I2 & I3 & I4). simpl in *.
  set (s := SubDirectoryOf p r) in *.
  set (f0 := CountRecording r (NewFolder s (FolderPath p s) r)).
  assert (m_strLabel f0 = s) as Hlabel.
  { unfold f0. by destruct (CountRecording_fields r (NewFolder s (FolderPath p s) r)) as (-> & _). }
  assert (Forall (λ r', ¬ BelongsTo p flt s r') done) as Hfresh.
  { apply Forall_forall. intros r' Hr' [Hin' Hs].
    destruct (I3 r' Hr' Hin') as (i & f & Hi & Hs'). apply (Hnone i f Hi).
    etrans; [done | by symmetry]. }
  assert (length items ∉ uw) as Hout.
  { intros [f Hf]%I4. apply lookup_lt_Some in Hf. lia. }
  assert (∀ i f, (items ++ [f0]) !! i = Some f →
                 (items !! i = Some f ∧ i ≠ length items) ∨ (i = length items ∧ f = f0))
    as Hlookup.
  { intros i f [Hi|[Hi Hf]]%lookup_app_Some.
    - left. split; [done|]. apply lookup_lt_Some in Hi. lia.
    - right. destruct (i - length items)%nat eqn:Hd; simplify_eq/=. split; [lia | done]. }
  split_and!; simpl.
  - intros i f [[Hi Hne]|[-> ->]]%Hlookup; rewrite elem_of_NoteUnwatched.
    + destruct (I1 i f Hi) as [Hf Hu]. rewrite Hu.
      assert (¬ BelongsTo p flt (m_strLabel f) r) as Hn by (intros [_ Hb]; by eapply Hnone).
      split; [by apply FolderAfter_other|]. split.
      * intros [[_ ?]|(r' & Hr' & Hb & Hp)]; [done|].
        exists r'. split_and!; [set_solver | done..].
      * intros (r' & [Hr'| ->]%elem_of_snoc & Hb & Hp);
          [right; by exists r' | done].
    + split; [by apply FolderAfter_created|]. rewrite Hlabel. split.
      * intros [[Hp _]|?]; [|done].
        exists r. split_and!; [set_solver | by split | done].
      * intros (r' & [Hr'| ->]%elem_of_snoc & Hb & Hp);
          [by eapply Forall_forall in Hfresh | by left].
  - intros i j f g [[Hi Hni]|[-> ->]]%Hlookup [[Hj Hnj]|[-> ->]]%Hlookup;
      rewrite ?Hlabel; intros Hs.
    + by eapply I2.
    + by destruct (Hnone i f Hi).
    + destruct (Hnone j g Hj). by symmetry.
    + done.
  - intros r' [Hr'| ->]%elem_of_snoc Hin'.
    + destruct (I3 r' Hr' Hin') as (i & f & Hi & Hs).
      exists i, f. split; [by apply lookup_app_l_Some | done].
    + exists (length items), f0. rewrite Hlabel. split; [|reflexivity].
      by rewrite lookup_app_r, Nat.sub_diag.
  - intros i [[_ ->]|Hi]%elem_of_NoteUnwatched.
    + exists f0. by rewrite lookup_app_r, Nat.sub_diag.
    + destruct (I4 i Hi) as [f Hf]. exists f. by apply lookup_app_l_Some.
Qed.

Lemma LoopInvariant_step (done : list CPVRRecording) (st : list CFileItem * gset nat)
    (r : CPVRRecording) :
  LoopInvariant p flt done st →
  LoopInvariant p flt (done ++ [r]) (SubDirectories_step p flt (rp_IsRadio p) st r).
Proof.
  intros Hinv. destruct (decide (InSubDirectory p flt r)) as [Hin|Hn].
  - destruct st as [items uw]. rewrite SubDirectories_step_count by done.
    assert (∀ i f, items !! i = Some f → m_strPath f = FolderPath p (m_strLabel f)) as Hpath.
    { intros i f Hi. destruct Hinv as (I1 & _). by destruct (I1 i f Hi) as [(_ & ? & _) _]. }
    destruct (Get _ items) as [item|] eqn:Hget.
    + destruct (Get_Some_folder _ _ _ Hpath Hget) as (f0 & Hitem & Hsame).
      by eapply LoopInvariant_found.
    + apply LoopInvariant_created; [done | | done].
      by apply Get_None_folder.
  - rewrite SubDirectories_step_skip by done. by apply LoopInvariant_skip.
Qed.

Lemma LoopInvariant_loop (recordings : list CPVRRecording) :
  LoopInvariant p flt recordings
    (fold_left (SubDirectories_step p flt (rp_IsRadio p)) recordings ([], ∅)).
Proof.
  induction recordings as [|r done IH] using rev_ind.
  - apply LoopInvariant_init.
  - rewrite fold_left_app. simpl. by apply LoopInvariant_step.
Qed.

End FolderLoop.

Section Folders.
Context `{Collaborators}.
Variable p : CPVRRecordingsPath.
Variable flt : CByClientAndProviderFilter.
Hypothesis SameFolder_equivalence : Equivalence (SameFolder p).

Lemma MarkUnwatched_lookup (l : list nat) (items : list CFileItem) (i : nat) :
  MarkUnwatched l items !! i
  = (if decide (i ∈ l) then SetOverlayImage ICON_OVERLAY_UNWATCHED else id) <$> items !! i.
Proof.
  unfold MarkUnwatched. revert items. induction l as [|x l IH]; intros items.
  - simpl fold_left. destruct (decide (i ∈ [])); [set_solver|]. by destruct (items !! i).
  - simpl fold_left. rewrite IH, list_lookup_alter.
    destruct (decide (i ∈ l)), (decide (i ∈ x :: l)), (decide (x = i));
      try set_solver; simplify_eq; by destruct (items !! _).
Qed.

Lemma ReplaceSize_fields (f : CFileItem) :
  m_strLabel (ReplaceSize f) = m_strLabel f
  ∧ m_strPath (ReplaceSize f) = m_strPath f
  ∧ m_bIsFolder (ReplaceSize f) = m_bIsFolder f
  ∧ m_overlayIcon (ReplaceSize f) = m_overlayIcon f
  ∧ m_mapProperties (ReplaceSize f) !! "totalepisodes" = m_mapProperties f !! "totalepisodes".
Proof.
  unfold ReplaceSize. case_decide; split_and!; try done; simpl.
  - by rewrite lookup_insert_ne, lookup_delete_ne.
  - by rewrite lookup_delete_ne.
Qed.

(** The folders [GetGetRecordingsSubDirectories] leaves in an empty
    list. *)
Lemma GetGetRecordingsSubDirectories_folders (recordings : list CPVRRecording) :
  let folders := GetGetRecordingsSubDirectories p recordings flt [] in
  (∀ i f, folders !! i = Some f →
          m_bIsFolder f = true
          ∧ m_strPath f = FolderPath p (m_strLabel f)
          ∧ CreatedByFirst p flt recordings (m_strLabel f)
          ∧ m_mapProperties f !! "totalepisodes"
            = Some (VariantTypeInteger
                      (Z.of_nat (length (filter (BelongsTo p flt (m_strLabel f)) recordings))))
          ∧ ((∃ r, r ∈ recordings ∧ BelongsTo p flt (m_strLabel f) r ∧ rec_PlayCount r = 0) →
             m_overlayIcon f = ICON_OVERLAY_UNWATCHED)
          ∧ (¬ (∃ r, r ∈ recordings ∧ BelongsTo p flt (m_strLabel f) r ∧ rec_PlayCount r = 0) →
             m_overlayIcon f = ICON_OVERLAY_WATCHED))
  ∧ (∀ i j f g, folders !! i = Some f → folders !! j = Some g →
                SameFolder p (m_strLabel f) (m_strLabel g) → i = j)
  ∧ (∀ r, r ∈ recordings → InSubDirectory p flt r →
          ∃ i f, folders !! i = Some f ∧ SameFolder p (m_strLabel f) (SubDirectoryOf p r)).
Proof.
  intros folders. subst folders. unfold GetGetRecordingsSubDirectories.
  pose proof (LoopInvariant_loop p flt SameFolder_equivalence recordings) as Hinv.
  destruct (fold_left _ recordings ([], ∅)) as [items uw]. destruct Hinv as (I1 & I2 & I3 & I4).
  simpl in *.
  assert (∀ i f', MarkUnwatched (elements uw) (ReplaceSize <$> items) !! i = Some f' →
                  ∃ f, items !! i = Some f
                       ∧ f' = (if decide (i ∈ uw) then SetOverlayImage ICON_OVERLAY_UNWATCHED
                               else id) (ReplaceSize f)) as Hlookup.
  { intros i f'. rewrite MarkUnwatched_lookup, list_lookup_fmap.
    destruct (items !! i) as [f|]; [|done]. simpl. intros [= <-]. exists f. split; [done|].
    destruct (decide (i ∈ elements uw)) as [Hi|Hi]; rewrite elem_of_elements in Hi.
    - by rewrite decide_True.
    - by rewrite decide_False. }
  assert (∀ i f', MarkUnwatched (elements uw) (ReplaceSize <$> items) !! i = Some f' →
                  ∃ f, items !! i = Some f ∧ m_strLabel f' = m_strLabel f) as Hlabel.
  { intros i f' (f & Hi & ->)%Hlookup. exists f. split; [done|].
    destruct (ReplaceSize_fields f) as (Hl & _). by case_decide. }
  split_and!.
  - intros i f' (f & Hi & ->)%Hlookup.
    destruct (I1 i f Hi) as [(Hfolder & Hpath & Hoverlay & Hfirst & Htotal) Hu].
    destruct (ReplaceSize_fields f) as (Hl & Hp & Hf & Ho & Hm).
    case_decide as Hin; simpl; rewrite ?Hl, ?Hp, ?Hf, ?Ho, ?Hm;
      (split_and!; [done..| |]); rewrite Hu in Hin; by intros.
  - intros i j f' g' (f & Hi & ->)%Hlabel (g & Hj & ->)%Hlabel Hs.
    exact (I2 i j f g Hi Hj Hs).
  - intros r Hr Hin. destruct (I3 r Hr Hin) as (i & f & Hi & Hs).
    exists i. eexists. rewrite MarkUnwatched_lookup, list_lookup_fmap, Hi. simpl.
    split; [done|]. destruct (ReplaceSize_fields f) as (Hl & _).
    case_decide; simpl; by rewrite Hl.
Qed.

End Folders.

Section GroupedListing.
Context `{Collaborators}.

Lemma HasOption_None (m_url : CURL) (key : string) :
  url_Options m_url !! key = None → HasOption m_url key = false.
Proof.
  intros Hn. unfold HasOption. rewrite Hn. apply bool_decide_eq_false. by intros [? ?].
Qed.

Lemma AggregatedInto_BelongsTo (p : CPVRRecordingsPath) (flt : CByClientAndProviderFilter)
    (folder : CFileItem) (r : CPVRRecording) :
  m_strPath folder = FolderPath p (m_strLabel folder) →
  AggregatedInto p flt folder r ↔ BelongsTo p flt (m_strLabel folder) r.
Proof. intros Hp. unfold AggregatedInto, BelongsTo, SameFolder. by rewrite Hp. Qed.

(** C6.  For every folder entry of the grouped listing, the overlay is
    "unwatched" iff one of the recordings aggregated into the folder
    has play count zero, and "watched" iff none has; the comparison of
    paths in the list is taken to be an equivalence. *)
Theorem folder_overlay_unwatched (p : CPVRRecordingsPath) (flt : CByClientAndProviderFilter)
    (recordings : list CPVRRecording) (folder : CFileItem) :
  Equivalence (λ a b : string, PathEquals a b = true) →
  folder ∈ GetGetRecordingsSubDirectories p recordings flt [] →
  (m_overlayIcon folder = ICON_OVERLAY_UNWATCHED
   ↔ ∃ r, r ∈ recordings ∧ AggregatedInto p flt folder r ∧ rec_PlayCount r = 0)
  ∧ (m_overlayIcon folder = ICON_OVERLAY_WATCHED
     ↔ ¬ ∃ r, r ∈ recordings ∧ AggregatedInto p flt folder r ∧ rec_PlayCount r = 0).
Proof.
  intros Heq [i Hi]%list_elem_of_lookup.
  assert (Equivalence (SameFolder p)) as Hsame.
  { destruct Heq as [Hrefl Hsym Htrans]. unfold SameFolder. split.
    - intros s. apply Hrefl.
    - intros s1 s2 Hs. by apply Hsym.
    - intros s1 s2 s3 Hs Hs'. by eapply Htrans. }
  destruct (GetGetRecordingsSubDirectories_folders p flt Hsame recordings) as (Hfolders & _).
  destruct (Hfolders i folder Hi) as (_ & Hpath & _ & _ & Hunwatched & Hwatched).
  assert ((∃ r, r ∈ recordings ∧ AggregatedInto p flt folder r ∧ rec_PlayCount r = 0)
          ↔ ∃ r, r ∈ recordings ∧ BelongsTo p flt (m_strLabel folder) r ∧ rec_PlayCount r = 0)
    as ->.
  { split; intros (r & Hr & Ha & Hp); exists r; (split_and!; [done | | done]);
      by apply (AggregatedInto_BelongsTo p flt folder r Hpath). }
  destruct (decide (List.Exists (λ r, BelongsTo p flt (m_strLabel folder) r
                                      ∧ rec_PlayCount r = 0) recordings)) as [He|He];
    rewrite Exists_exists in He.
  - rewrite (Hunwatched He). split; [done|]. split; [done | by intros []].
  - rewrite (Hwatched He). split; [|done]. split; [done | by intros ?].
Qed.

(** Folders compared without regard to the case of their segment. *)
Lemma OneFolderPerSegment_folders (p : CPVRRecordingsPath) (flt : CByClientAndProviderFilter)
    (recordings : list CPVRRecording) :
  (∀ s1 s2, SameFolder p s1 s2 ↔ StringUtils.ToLower s1 = StringUtils.ToLower s2) →
  OneFolderPerSegment p flt recordings (GetGetRecordingsSubDirectories p recordings flt []).
Proof.
  intros Hcase.
  assert (Equivalence (SameFolder p)) as Hsame.
  { split.
    - intros s. by apply Hcase.
    - intros s1 s2 Hs%Hcase. by apply Hcase.
    - intros s1 s2 s3 Hs%Hcase Hs'%Hcase. apply Hcase. congruence. }
  assert (∀ s r, BelongsTo p flt s r ↔ InFolder p flt s r) as Hin.
  { intros s r. unfold BelongsTo, InFolder. by rewrite Hcase. }
  destruct (GetGetRecordingsSubDirectories_folders p flt Hsame recordings)
    as (Hfolders & Hunique & Hcover).
  split_and!.
  - intros r Hr Hsub. destruct (Hcover r Hr Hsub) as (i & f & Hi & Hs%Hcase). by exists i, f.
  - intros i j f g Hi Hj Hs%Hcase. by eapply Hunique.
  - intros i f Hi.
    destruct (Hfolders i f Hi) as (Hfolder & Hpath & Hfirst & Htotal & _).
    split_and!; [done..| |].
    + destruct Hfirst as (before & r & after & -> & Hsub & Hlabel & Hbefore).
      exists before, r, after. split_and!; [done..|].
      eapply Forall_impl; [done|]. intros r' Hn Hr'. by apply Hn, Hin.
    + rewrite Htotal. do 4 f_equal. apply list_filter_iff. intros r. apply Hin.
Qed.

(** The leaves [GetRecordingsDirectory] adds. *)
Lemma AddRecordingLeaf_leaves (p : CPVRRecordingsPath) (flt : CByClientAndProviderFilter)
    (bGrouped : bool) (recordings : list CPVRRecording) (results : CFileItemList) :
  fold_left (AddRecordingLeaf p flt (rp_GetUnescapedDirectoryPath p) bGrouped) recordings results
  = WithItems (λ items, items ++ (RecordingLeaf <$> filter (LeafOf p flt bGrouped) recordings))
      results.
Proof.
  apply (fold_left_Add_filter _
           (λ r, negb (FilterRecording flt r)
                 && bool_decide (rec_IsDeleted r = rp_IsDeleted p)
                 && bool_decide (rec_IsRadio r = rp_IsRadio p)
                 && IsDirectoryMember (rp_GetUnescapedDirectoryPath p) (rec_Directory r) bGrouped)).
  - intros rs r. unfold AddRecordingLeaf.
    destruct (FilterRecording flt r); [done|].
    destruct (bool_decide (rec_IsDeleted r = rp_IsDeleted p)); [|done].
    destruct (bool_decide (rec_IsRadio r = rp_IsRadio p)); [|done].
    by destruct (IsDirectoryMember _ _ _).
  - intros r. unfold LeafOf.
    rewrite !andb_true_iff, negb_true_iff, !bool_decide_eq_true. tauto.
Qed.

(** C3.  The comparison of two folder paths below the listed path is
    taken to hold iff the two segments are equal without regard to
    case.  Then the grouped listing of an active recordings path is the
    folder entries followed by the leaves of the directory, and the
    folder entries are exactly one per distinct sub-directory segment
    among the recordings that pass the deleted, radio and
    client/provider filters: the first such recording creates the folder
    and "totalepisodes" is the number of such recordings of the segment.
    The flat listing is the leaves whose directory starts with the
    listed directory. *)
Theorem grouped_listing_one_folder_per_segment (mgr : CPVRManager) (m_url : CURL) :
  let p := CPVRRecordingsPath_parse (url_GetWithoutOptions m_url) in
  let flt := CByClientAndProviderFilter_of m_url in
  let recordings := mgr_Recordings mgr in
  let listing := GetRecordingsDirectory mgr m_url CFileItemList_empty in
  rp_IsValid p = true →
  (∀ s1 s2, SameFolder p s1 s2 ↔ StringUtils.ToLower s1 = StringUtils.ToLower s2) →
  (rp_IsDeleted p = false → GroupedView mgr m_url →
   out_ok listing = true
   ∧ ∃ folders,
       m_items (out_results listing)
       = folders ++ (RecordingLeaf <$> filter (LeafOf p flt true) recordings)
       ∧ OneFolderPerSegment p flt recordings folders)
  ∧ (FlatView mgr m_url →
     out_ok listing = true
     ∧ m_items (out_results listing) = RecordingLeaf <$> filter (LeafOf p flt false) recordings).
Proof.
  intros p flt recordings listing Hvalid Hcase. subst listing.
  unfold GetRecordingsDirectory. fold p flt recordings. rewrite Hvalid.
  split.
  - intros Hactive Hview.
    assert ((if HasOption m_url "view"
             then if decide (GetOption m_url "view" = "grouped") then Some true
                  else if decide (GetOption m_url "view" = "flat") then Some false else None
             else Some (SETTING_PVRRECORD_GROUPRECORDINGS mgr)) = Some true) as ->.
    { destruct Hview as [[-> ->]%HasOption_Some|[->%HasOption_None ->]]; [|done].
      by rewrite decide_True. }
    rewrite Hactive. simpl. rewrite AddRecordingLeaf_leaves. simpl. split; [done|].
    exists (GetGetRecordingsSubDirectories p recordings flt []).
    split; [done|]. by apply OneFolderPerSegment_folders.
  - intros Hview.
    assert ((if HasOption m_url "view"
             then if decide (GetOption m_url "view" = "grouped") then Some true
                  else if decide (GetOption m_url "view" = "flat") then Some false else None
             else Some (SETTING_PVRRECORD_GROUPRECORDINGS mgr)) = Some false) as ->.
    { destruct Hview as [[-> ->]%HasOption_Some|[->%HasOption_None ->]]; [|done].
      rewrite decide_False by done. by rewrite decide_True. }
    rewrite andb_false_r. simpl. by rewrite AddRecordingLeaf_leaves.
Qed.

End GroupedListing.

(** ** The stand-in satisfies what the theorems ask of the parameters *)

Lemma append_inj_l (a x y : string) : a +:+ x = a +:+ y → x = y.
Proof. induction a as [|c a IH]; rewrite ?append_nil_l, ?append_cons; [done | by intros [= ?%IH]]. Qed.

Lemma append_slash_inj (x y : string) : x +:+ "/" = y +:+ "/" → x = y.
Proof.
  revert y. induction x as [|c x IH]; intros [|d y];
    rewrite ?append_nil_l, ?append_cons; try done.
  - intros [= _ Hy]. by destruct y.
  - intros [= _ Hx]. by destruct x.
  - by intros [= -> ->%IH].
Qed.

Lemma collaborators_SameFolder (p : CPVRRecordingsPath) (s1 s2 : string) :
  SameFolder (H := collaborators) p s1 s2
  ↔ StringUtils.ToLower s1 = StringUtils.ToLower s2.
Proof.
  unfold SameFolder, FolderPath. simpl. rewrite EqualsNoCase_ToLower, !ToLower_append.
  split; [|by intros ->].
  intros Heq%append_inj_l. by apply append_slash_inj.
Qed.

Lemma EqualsNoCase_equivalence :
  Equivalence (λ a b : string, StringUtils.EqualsNoCase a b = true).
Proof.
  split.
  - intros a. apply EqualsNoCase_refl.
  - intros a b. rewrite !EqualsNoCase_ToLower. congruence.
  - intros a b c. rewrite !EqualsNoCase_ToLower. congruence.
Qed.

(** C3 at the fixture of section 8: the grouped listing of the root
    shows exactly one folder, [Foo], with "totalepisodes" 2, and the
    flat listing of [Foo] shows both recordings as leaves. *)
Lemma grouped_listing_one_folder_per_segment_witness :
  (∃ folders,
      m_items (out_results (GetRecordingsDirectory (H := collaborators) fooManager activeRoot
                              CFileItemList_empty))
      = folders ++ []
      ∧ OneFolderPerSegment (H := collaborators) (parseRecordingsPath "pvr://recordings/tv/active/")
          (CByClientAndProviderFilter_of (H := collaborators) activeRoot)
          [recordingBar; recordingBaz] folders)
  ∧ m_items (out_results (GetRecordingsDirectory (H := collaborators) fooManager activeRoot
                            CFileItemList_empty)) = [fooFolder]
  ∧ m_mapProperties fooFolder !! "totalepisodes" = Some (VariantTypeInteger 2)
  ∧ m_items (out_results (GetRecordingsDirectory (H := collaborators) fooManager flatFoo
                            CFileItemList_empty))
    = [RecordingLeaf recordingBar; RecordingLeaf recordingBaz].
Proof.
  pose proof (grouped_listing_one_folder_per_segment (H := collaborators) fooManager activeRoot
                eq_refl (collaborators_SameFolder _)) as [Hgrouped _].
  pose proof (grouped_listing_one_folder_per_segment (H := collaborators) fooManager flatFoo
                eq_refl (collaborators_SameFolder _)) as [_ Hflat].
  split_and!.
  - destruct Hgrouped as (_ & folders & Hitems & Hone); [done | by right |].
    exists folders. split; [|done]. rewrite Hitems. f_equal.
  - by vm_compute.
  - by vm_compute.
  - destruct Hflat as [_ ->]; [by left|]. by vm_compute.
Defined.

(** C6 at the fixture of section 8: the folder [Foo] holds a watched
    and an unwatched recording and shows the "unwatched" overlay. *)
Lemma folder_overlay_unwatched_witness :
  0 < rec_PlayCount recordingBar
  ∧ rec_PlayCount recordingBaz = 0
  ∧ m_overlayIcon fooFolder = ICON_OVERLAY_UNWATCHED
  ∧ ∃ r, r ∈ [recordingBar; recordingBaz]
         ∧ AggregatedInto (H := collaborators) (parseRecordingsPath "pvr://recordings/tv/active/")
             (CByClientAndProviderFilter_of (H := collaborators) activeRoot) fooFolder r
         ∧ rec_PlayCount r = 0.
Proof.
  split_and!; [done..|].
  assert (fooFolder ∈ GetGetRecordingsSubDirectories (H := collaborators)
                        (parseRecordingsPath "pvr://recordings/tv/active/")
                        [recordingBar; recordingBaz]
                        (CByClientAndProviderFilter_of (H := collaborators) activeRoot) [])
    as Hin.
  { assert (GetGetRecordingsSubDirectories (H := collaborators)
              (parseRecordingsPath "pvr://recordings/tv/active/")
              [recordingBar; recordingBaz]
              (CByClientAndProviderFilter_of (H := collaborators) activeRoot) [] = [fooFolder])
      as -> by (by vm_compute).
    apply list_elem_of_here. }
  by apply (folder_overlay_unwatched (H := collaborators) _ _ _ fooFolder
              EqualsNoCase_equivalence Hin).
Defined.
(** * Further properties of the code *)

(** ** Directory strings (lines 344-366) *)

Lemma append_nil_r (s : string) : s +:+ EmptyString = s.
Proof. induction s as [|c s IH]; str_simpl; congruence. Qed.

Lemma append_assoc (a b c : string) : (a +:+ b) +:+ c = a +:+ b +:+ c.
Proof. induction a as [|x a IH]; str_simpl; congruence. Qed.

Lemma OnlySlashes_append (a b : string) : OnlySlashes (a +:+ b) ↔ OnlySlashes a ∧ OnlySlashes b.
Proof. induction a as [|c a IH]; str_simpl; simpl; [tauto | rewrite IH; tauto]. Qed.

(** Slashes around a directory string do not change its trimmed form. *)
Lemma TrimSlashes_surrounded (a s b : string) :
  OnlySlashes a → OnlySlashes b → TrimSlashes (a +:+ s +:+ b) = TrimSlashes s.
Proof.
  intros Ha Hb. symmetry. apply TrimmedOf_TrimSlashes.
  destruct (TrimSlashes_TrimmedOf s) as (a' & b' & Hs & Ha' & Hb' & Hf & He).
  exists (a +:+ a'), (b' +:+ b). split_and!; [|by apply OnlySlashes_append..|done|done].
  rewrite Hs at 1. by rewrite !append_assoc.
Qed.

Lemma TrimSlashes_empty (s : string) : TrimSlashes s = EmptyString ↔ OnlySlashes s.
Proof.
  split.
  - intros Ht. destruct (TrimSlashes_TrimmedOf s) as (a & b & Hs & Ha & Hb & _).
    rewrite Ht, append_nil_l in Hs. rewrite Hs. by apply OnlySlashes_append.
  - intros Hs. unfold TrimSlashes. by rewrite EraseLeadingSlashes_OnlySlashes.
Qed.

Lemma RemoveSlashAtEnd_cons_nonempty (c : ascii) (r : string) :
  URIUtils.RemoveSlashAtEnd r ≠ EmptyString →
  URIUtils.RemoveSlashAtEnd (String c r) = String c (URIUtils.RemoveSlashAtEnd r).
Proof. intros Hr. simpl. by destruct (URIUtils.RemoveSlashAtEnd r). Qed.

(** Removing the slashes at the end of [x +:+ y] leaves [x] in front
    when [x] does not end with a slash. *)
Lemma RemoveSlashAtEnd_keeps_front (x y : string) :
  NoSlashAtEnd x → ∃ z, URIUtils.RemoveSlashAtEnd (x +:+ y) = x +:+ z.
Proof.
  intros Hx. induction x as [|c x IH].
  - exists (URIUtils.RemoveSlashAtEnd y). by rewrite !append_nil_l.
  - destruct x as [|d x].
    + assert (c ≠ URIUtils.slash) as Hc by (intros ->; by apply (Hx EmptyString)).
      exists (URIUtils.RemoveSlashAtEnd y). str_simpl. by rewrite RemoveSlashAtEnd_cons.
    + destruct IH as [z Hz]; [by eapply NoSlashAtEnd_tail|].
      exists z. rewrite append_cons, RemoveSlashAtEnd_cons_nonempty; rewrite Hz; [|done].
      by rewrite !append_cons.
Qed.

Lemma StartsWithNoCase_append (x z : string) : StringUtils.StartsWithNoCase (x +:+ z) x = true.
Proof. apply StartsWithNoCase_ToLower. exists (StringUtils.ToLower z). apply ToLower_append. Qed.

Lemma IsDirectoryMember_grouped_flat (d e : string) :
  IsDirectoryMember d e true = true → IsDirectoryMember d e false = true.
Proof.
  unfold IsDirectoryMember. rewrite EqualsNoCase_ToLower, StartsWithNoCase_ToLower.
  intros ->. exists EmptyString. by rewrite append_nil_r.
Qed.

(** X1.  Slashes put in front of or behind either directory string do
    not change the outcome of the membership test, in either mode. *)
Theorem IsDirectoryMember_ignores_outer_slashes (a b d e : string) (bGrouped : bool) :
  OnlySlashes a → OnlySlashes b →
  IsDirectoryMember (a +:+ d +:+ b) e bGrouped = IsDirectoryMember d e bGrouped
  ∧ IsDirectoryMember d (a +:+ e +:+ b) bGrouped = IsDirectoryMember d e bGrouped.
Proof.
  intros Ha Hb. unfold IsDirectoryMember. by rewrite !TrimSlashes_surrounded.
Qed.

Lemma IsDirectoryMember_ignores_outer_slashes_witness :
  IsDirectoryMember "//Foo/Bar/" "Foo/Bar" true = IsDirectoryMember "Foo/Bar" "Foo/Bar" true
  ∧ IsDirectoryMember "Foo" "//Foo/Bar/" false = IsDirectoryMember "Foo" "Foo/Bar" false.
Proof.
  split.
  - apply (IsDirectoryMember_ignores_outer_slashes "//" "/" "Foo/Bar" "Foo/Bar" true);
      by repeat split.
  - apply (IsDirectoryMember_ignores_outer_slashes "//" "/" "Foo" "Foo/Bar" false);
      by repeat split.
Defined.

(** X2.  For the directory of a listing root (empty, or slashes only)
    every entry directory is a member in flat mode, and in grouped mode
    exactly the entry directories that are themselves empty or slashes
    only. *)
Theorem IsDirectoryMember_of_root (d e : string) :
  OnlySlashes d →
  IsDirectoryMember d e false = true
  ∧ (IsDirectoryMember d e true = true ↔ OnlySlashes e).
Proof.
  intros Hd%TrimSlashes_empty. unfold IsDirectoryMember. rewrite Hd. split; [done|].
  rewrite <-TrimSlashes_empty. by destruct (TrimSlashes e).
Qed.

Lemma IsDirectoryMember_of_root_witness :
  IsDirectoryMember "/" "Foo/Bar" false = true
  ∧ (IsDirectoryMember "/" "Foo/Bar" true = true ↔ OnlySlashes "Foo/Bar").
Proof. apply (IsDirectoryMember_of_root "/" "Foo/Bar"). by repeat split. Defined.

(** X3.  Grouped membership is an equivalence relation on directory
    strings.  Flat membership is reflexive and transitive: an entry
    directory below [e], with [e] below [d], is below [d]. *)
Theorem IsDirectoryMember_relations :
  Equivalence (λ d e, IsDirectoryMember d e true = true)
  ∧ PreOrder (λ d e, IsDirectoryMember d e false = true).
Proof.
  unfold IsDirectoryMember. split; split.
  - intros d. apply EqualsNoCase_refl.
  - intros d e. rewrite !EqualsNoCase_ToLower. congruence.
  - intros d e f. rewrite !EqualsNoCase_ToLower. congruence.
  - intros d. apply StartsWithNoCase_ToLower. exists EmptyString. by rewrite append_nil_r.
  - intros d e f. rewrite !StartsWithNoCase_ToLower. intros [r1 H1] [r2 H2].
    exists (r1 +:+ r2). by rewrite H2, H1, append_assoc.
Qed.

(** X4.  The flat test compares characters, not segments: every entry
    directory that continues the trimmed target directory by any text
    is a flat member, so the flat listing of [Foo] also holds what lies
    in a directory [Foobar]. *)
Theorem IsDirectoryMember_flat_is_a_text_prefix (d rest : string) :
  IsDirectoryMember d (TrimSlashes d +:+ rest) false = true
  ∧ IsDirectoryMember "Foo" "Foobar" false = true
  ∧ IsDirectoryMember "Foo" "Foobar" true = false.
Proof.
  split; [|by vm_compute]. unfold IsDirectoryMember.
  destruct (TrimSlashes_TrimmedOf d) as (a & b & _ & _ & _ & Hf & He).
  destruct (TrimSlashes d) as [|c t] eqn:Ht; [done|].
  assert (c ≠ URIUtils.slash) as Hc by (intros ->; by apply (Hf t)).
  unfold TrimSlashes at 1. rewrite append_cons. simpl EraseLeadingSlashes.
  rewrite decide_False by done. rewrite <-append_cons.
  destruct (RemoveSlashAtEnd_keeps_front (String c t) rest He) as [z ->].
  apply StartsWithNoCase_append.
Qed.
(** ** The client/provider filter (lines 368-394) *)

Section FilterFacts.
Context `{Collaborators}.

(** X5.  An item passes the filter made from a URL iff the URL names
    no client, or the item is of the URL's client and, when the URL
    names a provider other than the invalid one, of that provider. *)
Theorem Filter_passes_iff (url : CURL) (itemClientID itemClientProviderUid : Z) :
  Filter (CByClientAndProviderFilter_of url) itemClientID itemClientProviderUid = false
  ↔ match GetClientAndProviderFromPath url with
    | None => True
    | Some (clientId, providerId) =>
        itemClientID = clientId
        ∧ (providerId = PVR_PROVIDER_INVALID_UID ∨ itemClientProviderUid = providerId)
    end.
Proof.
  unfold Filter, CByClientAndProviderFilter_of.
  destruct (GetClientAndProviderFromPath url) as [[clientId providerId]|]; simpl; [|done].
  destruct (decide (itemClientID = clientId)),
    (decide (providerId = PVR_PROVIDER_INVALID_UID)),
    (decide (itemClientProviderUid = providerId)); repeat case_decide; naive_solver.
Qed.

End FilterFacts.

(** ** Loops over a list *)

Lemma fold_left_invariant {A B : Type} (I : B → Prop) (f : B → A → B) (l : list A) (b : B) :
  I b → (∀ b x, I b → I (f b x)) → I (fold_left f l b).
Proof. revert b. induction l as [|x l IH]; intros b Hb Hf; simpl; [done|]. apply IH; auto. Qed.

Global Instance SameSettings_equivalence : Equivalence SameSettings.
Proof.
  unfold SameSettings. split.
  - by intros a.
  - intros a b (-> & -> & ->). done.
  - intros a b c (-> & -> & ->). done.
Qed.

Global Instance KeepsEntries_preorder : PreOrder KeepsEntries.
Proof. unfold KeepsEntries. split; [by intros a | intros a b c Hab Hbc; by etrans]. Qed.

Lemma SameSettings_Add (it : CFileItem) (results : CFileItemList) :
  SameSettings results (Add it results).
Proof. done. Qed.

Lemma KeepsEntries_Add (it : CFileItem) (results : CFileItemList) :
  KeepsEntries (m_items results) (m_items (Add it results)).
Proof. unfold KeepsEntries, Add. simpl. rewrite fmap_app. by apply prefix_app_r. Qed.

Lemma KeepsEntries_app (items more : list CFileItem) : KeepsEntries items (items ++ more).
Proof. unfold KeepsEntries. rewrite fmap_app. by apply prefix_app_r. Qed.

Lemma KeepsEntries_alter (f : CFileItem → CFileItem) (i : nat) (items : list CFileItem) :
  (∀ it, m_strPath (f it) = m_strPath it) → KeepsEntries items (alter f i items).
Proof.
  intros Hf. unfold KeepsEntries. replace (m_strPath <$> alter f i items) with (m_strPath <$> items);
    [done|].
  apply list_eq. intros j. rewrite !list_lookup_fmap, list_lookup_alter.
  case_decide; [subst j|done]. destruct (items !! i); simpl; by rewrite ?Hf.
Qed.

Lemma KeepsEntries_fmap (f : CFileItem → CFileItem) (items : list CFileItem) :
  (∀ it, m_strPath (f it) = m_strPath it) → KeepsEntries items (f <$> items).
Proof.
  intros Hf. unfold KeepsEntries. replace (m_strPath <$> (f <$> items)) with (m_strPath <$> items);
    [done|].
  apply list_eq. intros j. rewrite !list_lookup_fmap.
  destruct (items !! j); simpl; by rewrite ?Hf.
Qed.
Global Instance Grows_preorder : PreOrder Grows.
Proof.
  unfold Grows. split.
  - by intros a.
  - intros a b c [H1 H2] [H3 H4]. split; by etrans.
Qed.

Lemma Grows_Add (it : CFileItem) (results : CFileItemList) : Grows results (Add it results).
Proof. split; [apply SameSettings_Add | apply KeepsEntries_Add]. Qed.

Lemma Grows_fold_left {A : Type} (f : CFileItemList → A → CFileItemList) (l : list A)
    (results : CFileItemList) :
  (∀ rs x, Grows rs (f rs x)) → Grows results (fold_left f l results).
Proof.
  intros Hf. apply (fold_left_invariant (Grows results)); [done|].
  intros rs x Hrs. by etrans.
Qed.

Ltac grows :=
  repeat first
    [ reflexivity
    | apply Grows_fold_left; intros ??
    | progress (etrans; [|apply Grows_Add])
    | case_match
    | case_decide ].

Section Growth.
Context `{Collaborators}.

Lemma GetRootDirectory_Grows (mgr : CPVRManager) (bRadio : bool) (results : CFileItemList) :
  Grows results (GetRootDirectory mgr bRadio results).2.
Proof. unfold GetRootDirectory. simpl. grows. Qed.

Lemma SubDirectories_step_KeepsEntries (p : CPVRRecordingsPath)
    (flt : CByClientAndProviderFilter) (bRadio : bool) (st : list CFileItem * gset nat)
    (r : CPVRRecording) :
  KeepsEntries st.1 (SubDirectories_step p flt bRadio st r).1.
Proof.
  assert (∀ it, m_strPath (CountRecording r it) = m_strPath it) as Hcount
    by (intros it; by destruct (CountRecording_fields r it) as (_ & -> & _)).
  assert (∀ it, m_strPath (TouchFolder r it) = m_strPath it) as Htouch
    by (intros it; by destruct (TouchFolder_fields r it) as (_ & -> & _)).
  unfold SubDirectories_step. destruct st as [items uw]. simpl.
  repeat first [done | case_match | case_decide]; simplify_eq/=.
  - etrans; [|by apply KeepsEntries_alter]. by apply KeepsEntries_alter.
  - etrans; [|by apply KeepsEntries_alter]. by apply KeepsEntries_alter.
  - etrans; [|by apply KeepsEntries_alter]. apply KeepsEntries_app.
  - etrans; [|by apply KeepsEntries_alter]. apply KeepsEntries_app.
Qed.

Lemma MarkUnwatched_KeepsEntries (l : list nat) (items : list CFileItem) :
  KeepsEntries items (MarkUnwatched l items).
Proof.
  unfold MarkUnwatched. apply (fold_left_invariant (KeepsEntries items)); [done|].
  intros rs i Hrs. etrans; [done|]. by apply KeepsEntries_alter.
Qed.

Lemma GetGetRecordingsSubDirectories_KeepsEntries (p : CPVRRecordingsPath)
    (recordings : list CPVRRecording) (flt : CByClientAndProviderFilter)
    (items : list CFileItem) :
  KeepsEntries items (GetGetRecordingsSubDirectories p recordings flt items).
Proof.
  unfold GetGetRecordingsSubDirectories.
  pose proof (fold_left_invariant (λ st, KeepsEntries items st.1)
                (SubDirectories_step p flt (rp_IsRadio p)) recordings (items, ∅)) as Hloop.
  destruct (fold_left _ recordings (items, ∅)) as [items' uw].
  etrans; [apply Hloop|].
  - done.
  - intros st r Hst. etrans; [done|]. apply SubDirectories_step_KeepsEntries.
  - simpl. etrans; [|apply MarkUnwatched_KeepsEntries].
    apply KeepsEntries_fmap. intros it. by destruct (ReplaceSize_fields it) as (_ & -> & _).
Qed.

Lemma GetRecordingsDirectory_Grows (mgr : CPVRManager) (m_url : CURL)
    (results : CFileItemList) :
  Grows (SetContent "recordings" results)
    (out_results (GetRecordingsDirectory mgr m_url results)).
Proof.
  unfold GetRecordingsDirectory.
  repeat first [reflexivity | case_match | case_decide]; simpl;
    (apply Grows_fold_left; [intros rs r; unfold AddRecordingLeaf; grows|]) ||
    (etrans; [|apply Grows_fold_left; intros rs r; unfold AddRecordingLeaf; grows]).
  all: try reflexivity.
  all: split; [done|]; apply GetGetRecordingsSubDirectories_KeepsEntries.
Qed.

Lemma GetChannelsDirectory_Grows (mgr : CPVRManager) (m_url : CURL) (results : CFileItemList) :
  Grows results (GetChannelsDirectory mgr m_url results).2.
Proof. unfold GetChannelsDirectory, GetChannelGroupsDirectory, AddChannel. grows. Qed.

Lemma GetTimersDirectory_Grows (mgr : CPVRManager) (m_url : CURL) (results : CFileItemList) :
  Grows results (GetTimersDirectory mgr m_url results).2.
Proof.
  unfold GetTimersDirectory, GetTimersRootDirectory, GetTimersSubDirectory, AddTimer. grows.
Qed.

Lemma GetProvidersDirectory_Grows (mgr : CPVRManager) (m_url : CURL)
    (results : CFileItemList) :
  Grows results (GetProvidersDirectory mgr m_url results).2.
Proof. unfold GetProvidersDirectory. grows. Qed.

Lemma GetSavedSearches_Grows (mgr : CPVRManager) (bRadio : bool) (id : Z)
    (results : CFileItemList) :
  Grows results (GetSavedSearchesDirectory mgr bRadio results).2
  ∧ Grows results (GetSavedSearchResults mgr bRadio id results).2.
Proof. unfold GetSavedSearchesDirectory, GetSavedSearchResults. split; grows. Qed.

End Growth.
(** ** [GetDirectory]: what every listing call leaves of the list (lines 216-315) *)

Lemma StartsWith_recordings_not_tv_radio (fileName : string) :
  StringUtils.StartsWith fileName "recordings" = true →
  StringUtils.StartsWith fileName "tv" = false ∧ StringUtils.StartsWith fileName "radio" = false.
Proof.
  intros [rest ->]%StartsWith_prefix. by split.
Qed.

Section ListingCalls.
Context `{Collaborators}.

Lemma GetDirectory_Grows (mgr : CPVRManager) (m_url : CURL) (results : CFileItemList) :
  ∃ prepared,
    Grows (SetCacheToDisc CACHE_NEVER prepared) (out_results (GetDirectory mgr m_url results))
    ∧ m_items prepared = m_items results
    ∧ m_content prepared
      = (if mgr_IsStarted mgr && StringUtils.StartsWith (FileNameOf m_url) "recordings"
         then "recordings" else m_content results)
    ∧ m_sortDescription prepared
      = (if mgr_IsStarted mgr && bool_decide (FileNameOf m_url = EmptyString)
         then m_sortDescription results ++ [551] else m_sortDescription results).
Proof.
  pose proof (GetRootDirectory_Grows mgr false (SetCacheToDisc CACHE_NEVER results)) as Htv.
  pose proof (GetRootDirectory_Grows mgr true (SetCacheToDisc CACHE_NEVER results)) as Hradio.
  pose proof (GetRecordingsDirectory_Grows mgr m_url (SetCacheToDisc CACHE_NEVER results)) as Hrec.
  pose proof (GetChannelsDirectory_Grows mgr m_url (SetCacheToDisc CACHE_NEVER results)) as Hch.
  pose proof (GetProvidersDirectory_Grows mgr m_url (SetCacheToDisc CACHE_NEVER results)) as Hprov.
  pose proof (GetTimersDirectory_Grows mgr m_url (SetCacheToDisc CACHE_NEVER results)) as Htim.
  pose proof (λ bRadio id,
                GetSavedSearches_Grows mgr bRadio id (SetCacheToDisc CACHE_NEVER results))
    as Hsearch.
  pose proof (StartsWith_recordings_not_tv_radio (FileNameOf m_url)) as Hrecordings.
  unfold GetDirectory, FileNameOf in *.
  destruct (mgr_IsStarted mgr); cbn [andb].
  - case_decide as Hempty.
    { rewrite Hempty. rewrite bool_decide_eq_true_2 by done.
      exists (AddSortMethod 551 results). split_and!; [|done..].
      split; [done|]. unfold KeepsEntries. simpl. rewrite !fmap_app, <-!app_assoc.
      by apply prefix_app_r. }
    rewrite bool_decide_eq_false_2 by done.
    destruct (StringUtils.StartsWith _ "recordings") eqn:Hr.
    + destruct Hrecordings as [-> ->]; [done|].
      exists (SetContent "recordings" results). by split_and!.
    + exists results. split_and!; [|done..].
      repeat case_match; unfold NoJobs; cbn [out_results snd]; try done.
      * apply (Hsearch _ 0).
      * apply Hsearch.
  - exists results. split_and!; [|done..]. repeat first [case_decide | case_match]; done.
Qed.

(** X6.  Whatever the URL and the state of the backend, and whether
    the call succeeds or fails, [GetDirectory] leaves the list marked
    as never to be cached to disc, and the entries that were in the
    list before the call are still there afterwards, in the same
    places and with the same target paths. *)
Theorem GetDirectory_never_cached_keeps_entries (mgr : CPVRManager) (m_url : CURL)
    (results : CFileItemList) :
  m_cacheToDisc (out_results (GetDirectory mgr m_url results)) = CACHE_NEVER
  ∧ (m_strPath <$> m_items results)
      `prefix_of` (m_strPath <$> m_items (out_results (GetDirectory mgr m_url results))).
Proof.
  destruct (GetDirectory_Grows mgr m_url results)
    as (prepared & [(_ & <- & _) Hkeep] & Hitems & _).
  split; [done|]. unfold KeepsEntries in Hkeep. simpl in Hkeep. by rewrite <-Hitems.
Qed.

(** X7.  The content type of the list becomes ["recordings"] exactly
    when the backend is started and the file name starts with
    [recordings], also when the recordings listing then fails; every
    other call leaves the content type alone.  A sort method (by label,
    551) is added exactly for the empty file name with the backend
    started. *)
Theorem GetDirectory_content_and_sort (mgr : CPVRManager) (m_url : CURL)
    (results : CFileItemList) :
  let listing := out_results (GetDirectory mgr m_url results) in
  m_content listing
  = (if mgr_IsStarted mgr && StringUtils.StartsWith (FileNameOf m_url) "recordings"
     then "recordings" else m_content results)
  ∧ m_sortDescription listing
    = (if mgr_IsStarted mgr && bool_decide (FileNameOf m_url = EmptyString)
       then m_sortDescription results ++ [551] else m_sortDescription results).
Proof.
  destruct (GetDirectory_Grows mgr m_url results)
    as (prepared & [(Hcontent & _ & Hsort) _] & _ & <- & <-).
  by split.
Qed.

End ListingCalls.
(** ** The root menu (lines 127-212) *)

Section RootMenu.
Context `{Collaborators}.

(** X8.  [GetRootDirectory] always succeeds and adds, behind what is in
    the list, the nodes Guide (if a client supports the guide),
    Channels, Recordings (if a client supports recordings), Providers
    (if the backend knows more than one provider), Timers, Timer rules
    and Search (if a client supports the guide), in this order.  Every
    node is a folder without a backend entity that names its window
    and its icon; there are at least three and at most seven. *)
Theorem GetRootDirectory_menu (mgr : CPVRManager) (bRadio : bool) (results : CFileItemList) :
  ∃ menu,
    GetRootDirectory mgr bRadio results = (true, WithItems (λ items, items ++ menu) results)
    ∧ m_strPath <$> menu
      = (if mgr_AnyClientSupportingEPG mgr
         then ["pvr://guide/" +:+ (if bRadio then "radio" else "tv") +:+ "/"] else [])
        ++ [if bRadio then PATH_RADIO_CHANNELS else PATH_TV_CHANNELS]
        ++ (if mgr_AnyClientSupportingRecordings mgr
            then [if bRadio then PATH_ACTIVE_RADIO_RECORDINGS else PATH_ACTIVE_TV_RECORDINGS]
            else [])
        ++ (if decide (1 < Z.of_nat (length (mgr_Providers mgr)))
            then [if bRadio then PATH_RADIO_PROVIDERS else PATH_TV_PROVIDERS] else [])
        ++ [if bRadio then PATH_RADIO_TIMERS else PATH_TV_TIMERS;
            if bRadio then PATH_RADIO_TIMER_RULES else PATH_TV_TIMER_RULES]
        ++ (if mgr_AnyClientSupportingEPG mgr
            then [if bRadio then PATH_RADIO_SEARCH else PATH_TV_SEARCH] else [])
    ∧ Forall (λ it, m_bIsFolder it = true ∧ m_infoTag it = NoInfoTag
                    ∧ is_Some (m_mapProperties it !! "node.target")
                    ∧ is_Some (m_art it !! "icon")) menu
    ∧ (3 ≤ length menu ≤ 7)%nat.
Proof.
  unfold GetRootDirectory.
  destruct (mgr_AnyClientSupportingEPG mgr), (mgr_AnyClientSupportingRecordings mgr),
    (decide (1 < Z.of_nat (length (mgr_Providers mgr))));
    (eexists; split;
     [unfold Add, WithItems; cbn [m_items m_content m_cacheToDisc m_sortDescription];
      rewrite <-?app_assoc; reflexivity|]);
    (split; [reflexivity|]);
    (split; [|simpl; lia]);
    repeat (apply Forall_cons; split;
            [split_and!; [done | done | by eexists | by eexists]|]);
    apply Forall_nil_2.
Qed.

End RootMenu.

(** ** The leaves of a recordings listing (lines 646-664) *)

Section Leaves.
Context `{Collaborators}.

(** X9.  For the same path, filter and recordings, the loop that adds
    the leaves adds in grouped mode a sub-list of what it adds in flat
    mode: the recordings of the directory itself are among those of
    the directory and everything below it, in the same order. *)
Theorem grouped_leaves_among_flat_leaves (recPath : CPVRRecordingsPath)
    (byClientAndProviderFilter : CByClientAndProviderFilter) (strDirectory : string)
    (recordings : list CPVRRecording) (results : CFileItemList) :
  sublist
    (m_items (fold_left (AddRecordingLeaf recPath byClientAndProviderFilter strDirectory true)
                recordings results))
    (m_items (fold_left (AddRecordingLeaf recPath byClientAndProviderFilter strDirectory false)
                recordings results)).
Proof.
  assert (∀ grouped flat, sublist (m_items grouped) (m_items flat) →
            sublist
              (m_items (fold_left (AddRecordingLeaf recPath byClientAndProviderFilter
                                     strDirectory true) recordings grouped))
              (m_items (fold_left (AddRecordingLeaf recPath byClientAndProviderFilter
                                     strDirectory false) recordings flat))) as Hloop.
  { induction recordings as [|r recordings IH]; intros grouped flat Hsub; [done|].
    simpl. apply IH. unfold AddRecordingLeaf.
    destruct (FilterRecording _ r); [done|].
    destruct (negb (bool_decide (rec_IsDeleted r = rp_IsDeleted recPath))
              || negb (bool_decide (rec_IsRadio r = rp_IsRadio recPath))); [done|].
    cbn [orb].
    destruct (IsDirectoryMember strDirectory (rec_Directory r) true) eqn:Hg.
    - rewrite (IsDirectoryMember_grouped_flat _ _ Hg). cbn [negb]. by apply sublist_app.
    - cbn [negb].
      destruct (IsDirectoryMember strDirectory (rec_Directory r) false); cbn [negb]; [|done].
      by apply sublist_inserts_r. }
  by apply Hloop.
Qed.

End Leaves.
(** ** The counters of the folder entries (lines 396-484) *)

Lemma NoteUnwatched_elem (r : CPVRRecording) (item i : nat) (uw : gset nat) :
  i ∈ NoteUnwatched r item uw ↔ (rec_PlayCount r = 0 ∧ i = item) ∨ i ∈ uw.
Proof. unfold NoteUnwatched. case_decide; set_solver. Qed.

Lemma MarkUnwatched_at (l : list nat) (items : list CFileItem) (i : nat) :
  MarkUnwatched l items !! i
  = (if decide (i ∈ l) then SetOverlayImage ICON_OVERLAY_UNWATCHED else id) <$> items !! i.
Proof.
  unfold MarkUnwatched. revert items. induction l as [|x l IH]; intros items.
  - simpl fold_left. destruct (decide (i ∈ [])); [set_solver|]. by destruct (items !! i).
  - simpl fold_left. rewrite IH, list_lookup_alter.
    destruct (decide (i ∈ l)), (decide (i ∈ x :: l)), (decide (x = i));
      try set_solver; simplify_eq; by destruct (items !! _).
Qed.

(** [int64_t] is the representative of a number modulo 2^64 in the
    range of a 64-bit signed integer. *)
Lemma int64_t_range (z : Z) : - 2 ^ 63 ≤ int64_t z < 2 ^ 63.
Proof. unfold int64_t. pose proof (Z.mod_pos_bound (z + 2 ^ 63) (2 ^ 64)). lia. Qed.

Lemma int64_t_small (z : Z) : - 2 ^ 63 ≤ z < 2 ^ 63 → int64_t z = z.
Proof. intros Hz. unfold int64_t. rewrite Z.mod_small; lia. Qed.

(** Adding to a wrapped sum and wrapping is wrapping the whole sum. *)
Lemma int64_t_add_l (a b : Z) : int64_t (int64_t a + b) = int64_t (a + b).
Proof.
  unfold int64_t. f_equal.
  replace ((a + 2 ^ 63) mod 2 ^ 64 - 2 ^ 63 + b + 2 ^ 63)
    with ((a + 2 ^ 63) mod 2 ^ 64 + b) by lia.
  rewrite Z.add_mod_idemp_l by lia. f_equal. lia.
Qed.

Section Counters.
Context `{Collaborators}.

(** The three ways one turn of the loop can go. *)
Lemma SubDirectories_step_cases (p : CPVRRecordingsPath) (flt : CByClientAndProviderFilter)
    (bRadio : bool) (items : list CFileItem) (uw : gset nat) (r : CPVRRecording) :
  SubDirectories_step p flt bRadio (items, uw) r = (items, uw)
  ∨ (∃ item f0,
        items !! item = Some f0
        ∧ SubDirectories_step p flt bRadio (items, uw) r
          = (alter (λ f, CountRecording r (TouchFolder r f)) item items,
             NoteUnwatched r item uw))
  ∨ (∃ s strFilePath,
        SubDirectories_step p flt bRadio (items, uw) r
        = (items ++ [CountRecording r (NewFolder s strFilePath r)],
           NoteUnwatched r (length items) uw)).
Proof.
  unfold SubDirectories_step, NoteUnwatched.
  destruct (FilterRecording flt r); [by left|].
  destruct (rec_IsDeleted r); [by left|].
  destruct (negb _); [by left|].
  case_decide; [by left|].
  destruct (Get _ items) as [item|] eqn:Hget.
  - right; left. unfold Get in Hget.
    apply fmap_Some in Hget as ([i f0] & Hfind & ->).
    apply list_find_Some in Hfind as (Hi & _). exists i, f0. split; [done|].
    simpl. by rewrite list_alter_alter_eq.
  - right; right. eexists _, _. rewrite alter_app_r_alt by done. by rewrite Nat.sub_diag.
Qed.

Lemma CountRecording_counters (r : CPVRRecording) (f : CFileItem) (t w u ip s : Z) :
  HasCounters f t w u ip s →
  HasCounters (CountRecording r f) (t + 1)
    (w + if decide (rec_PlayCount r = 0) then 0 else 1)
    (u + if decide (rec_PlayCount r = 0) then 1 else 0)
    (ip + if rec_LocalResumePointIsPartWay r then 1 else 0)
    (int64_t (s + rec_SizeInBytes r)).
Proof.
  intros (Ht & Hw & Hu & Hip & Hs). unfold HasCounters, CountRecording.
  unfold GetProperty in Hs.
  destruct (decide (rec_PlayCount r = 0)), (rec_LocalResumePointIsPartWay r);
    unfold IncrementProperty_int64, IncrementProperty, SetProperty, GetProperty,
      WithProperties; simpl;
    repeat first [rewrite lookup_insert_eq | rewrite lookup_insert_ne by done];
    rewrite ?Ht, ?Hw, ?Hu, ?Hip; simpl; rewrite ?Hs, ?Z.add_0_r; done.
Qed.

Lemma CountRecording_shape (r : CPVRRecording) (f : CFileItem) :
  FolderShape f → FolderShape (CountRecording r f).
Proof.
  intros (Hf & Htag & Hpre & Ho & Hsize). unfold FolderShape, CountRecording.
  destruct (decide (rec_PlayCount r = 0)), (rec_LocalResumePointIsPartWay r);
    unfold IncrementProperty_int64, IncrementProperty, SetProperty, WithProperties; simpl;
    by rewrite !lookup_insert_ne.
Qed.

Lemma TouchFolder_shape (r : CPVRRecording) (f : CFileItem) (t w u ip s : Z) :
  (FolderShape f → FolderShape (TouchFolder r f))
  ∧ (HasCounters f t w u ip s → HasCounters (TouchFolder r f) t w u ip s).
Proof. unfold TouchFolder. by case_match. Qed.

Lemma NewFolder_shape (strCurrent strFilePath : string) (r : CPVRRecording) :
  FolderShape (NewFolder strCurrent strFilePath r)
  ∧ HasCounters (NewFolder strCurrent strFilePath r) 0 0 0 0 0.
Proof. by split; split_and!. Qed.

Lemma CountersInvariant_step (p : CPVRRecordingsPath) (flt : CByClientAndProviderFilter)
    (bRadio : bool) (st : list CFileItem * gset nat) (r : CPVRRecording) :
  CountersInvariant st → CountersInvariant (SubDirectories_step p flt bRadio st r).
Proof.
  destruct st as [items uw]. intros [Hfolders Hbound].
  destruct (SubDirectories_step_cases p flt bRadio items uw r)
    as [->|[(item & f0 & Hitem & ->)|(s & strFilePath & ->)]]; [done| |]; unfold CountersInvariant in *; cbn [fst snd] in *.
  - split.
    + intros i f'. rewrite list_lookup_alter. case_decide as Hi.
      * subst i. rewrite Hitem. intros [= <-].
        destruct (Hfolders item f0 Hitem)
          as (Hshape & t & w & u & ip & s & Hc & (Hsum & Hw & Hu & Ht & Hip) & Hs & Huw).
        split; [by apply CountRecording_shape, TouchFolder_shape|].
        eexists _, _, _, _, _. split; [by apply CountRecording_counters, TouchFolder_shape|].
        split; [|split; [apply int64_t_range|]].
        -- unfold Consistent.
           destruct (decide (rec_PlayCount r = 0)), (rec_LocalResumePointIsPartWay r); lia.
        -- rewrite NoteUnwatched_elem, Huw.
           destruct (decide (rec_PlayCount r = 0)); intuition lia.
      * intros Hf'.
        destruct (Hfolders i f' Hf') as (Hshape & t & w & u & ip & s & Hc & Hcons & Hs & Huw).
        split; [done|]. exists t, w, u, ip, s. do 3 (split; [done|]).
        rewrite NoteUnwatched_elem, Huw. intuition congruence.
    + intros i [[_ ->]|Hi]%NoteUnwatched_elem; rewrite length_alter.
      * by apply lookup_lt_Some in Hitem.
      * by apply Hbound.
  - split.
    + intros i f' [Hf'|[Hi Hf']]%lookup_app_Some.
      * destruct (Hfolders i f' Hf')
          as (Hshape & t & w & u & ip & s' & Hc & Hcons & Hs & Huw).
        split; [done|]. exists t, w, u, ip, s'. do 3 (split; [done|]).
        rewrite NoteUnwatched_elem, Huw. apply lookup_lt_Some in Hf'. intuition lia.
      * destruct (i - length items)%nat eqn:Hd; simplify_eq/=.
        assert (i = length items) as -> by lia.
        destruct (NewFolder_shape s strFilePath r) as [Hshape Hc].
        split; [by apply CountRecording_shape|].
        eexists _, _, _, _, _. split; [by apply CountRecording_counters|].
        split; [|split; [apply int64_t_range|]].
        -- unfold Consistent.
           destruct (decide (rec_PlayCount r = 0)), (rec_LocalResumePointIsPartWay r); lia.
        -- rewrite NoteUnwatched_elem.
           assert (length items ∉ uw) as Hout by (intros Hin%Hbound; lia).
           destruct (decide (rec_PlayCount r = 0)); intuition lia.
    + intros i [[_ ->]|Hi%Hbound]%NoteUnwatched_elem; rewrite length_app; simpl; lia.
Qed.

Lemma CountersInvariant_loop (p : CPVRRecordingsPath) (flt : CByClientAndProviderFilter)
    (bRadio : bool) (recordings : list CPVRRecording) :
  CountersInvariant (fold_left (SubDirectories_step p flt bRadio) recordings ([], ∅)).
Proof.
  apply (fold_left_invariant CountersInvariant).
  - split; simpl; [intros i f Hi; by rewrite lookup_nil in Hi | set_solver].
  - intros st r. apply CountersInvariant_step.
Qed.

(** The entries of the finished list, from those of the loop. *)
Lemma GetGetRecordingsSubDirectories_lookup (p : CPVRRecordingsPath)
    (flt : CByClientAndProviderFilter) (recordings : list CPVRRecording)
    (items : list CFileItem) (i : nat) (f' : CFileItem) :
  let st := fold_left (SubDirectories_step p flt (rp_IsRadio p)) recordings (items, ∅) in
  GetGetRecordingsSubDirectories p recordings flt items !! i = Some f' →
  ∃ f, st.1 !! i = Some f
       ∧ f' = (if decide (i ∈ st.2) then SetOverlayImage ICON_OVERLAY_UNWATCHED else id)
                (ReplaceSize f).
Proof.
  intros st. subst st. unfold GetGetRecordingsSubDirectories.
  destruct (fold_left _ recordings (items, ∅)) as [items' uw]. simpl.
  rewrite MarkUnwatched_at, list_lookup_fmap.
  destruct (items' !! i) as [f|]; [|done]. simpl. intros [= <-]. exists f. split; [done|].
  destruct (decide (i ∈ elements uw)) as [Hi|Hi]; rewrite elem_of_elements in Hi.
  - by rewrite decide_True.
  - by rewrite decide_False.
Qed.

Lemma ReplaceSize_counters (f : CFileItem) (t w u ip s : Z) :
  FolderShape f → HasCounters f t w u ip s →
  m_bIsFolder (ReplaceSize f) = true ∧ m_infoTag (ReplaceSize f) = NoInfoTag
  ∧ m_bLabelPreformatted (ReplaceSize f) = true
  ∧ m_overlayIcon (ReplaceSize f) = ICON_OVERLAY_WATCHED
  ∧ m_dwSize (ReplaceSize f) = s
  ∧ m_mapProperties (ReplaceSize f) !! "totalepisodes" = Some (VariantTypeInteger t)
  ∧ m_mapProperties (ReplaceSize f) !! "watchedepisodes" = Some (VariantTypeInteger w)
  ∧ m_mapProperties (ReplaceSize f) !! "unwatchedepisodes" = Some (VariantTypeInteger u)
  ∧ m_mapProperties (ReplaceSize f) !! "inprogressepisodes" = Some (VariantTypeInteger ip)
  ∧ m_mapProperties (ReplaceSize f) !! "sizeinbytes" = None
  ∧ m_mapProperties (ReplaceSize f) !! "recordingsize"
    = (if decide (0 < s) then Some (VariantTypeString (SizeToString s)) else None).
Proof.
  intros (Hf & Htag & Hpre & Ho & Hsize) (Ht & Hw & Hu & Hip & Hs).
  unfold ReplaceSize. rewrite Hs. case_decide; simpl;
    rewrite ?lookup_insert_eq, ?lookup_insert_ne, ?lookup_delete_eq, ?lookup_delete_ne by done;
    by split_and!.
Qed.

(** The folder entries are folders without a backend entity. *)
Lemma GetGetRecordingsSubDirectories_shape (p : CPVRRecordingsPath)
    (flt : CByClientAndProviderFilter) (recordings : list CPVRRecording) :
  Forall (λ f, m_bIsFolder f = true ∧ m_infoTag f = NoInfoTag)
    (GetGetRecordingsSubDirectories p recordings flt []).
Proof.
  apply Forall_lookup. intros i f' Hi.
  apply GetGetRecordingsSubDirectories_lookup in Hi as (f & Hi & ->).
  destruct (CountersInvariant_loop p flt (rp_IsRadio p) recordings) as [Hfolders _].
  destruct (Hfolders i f Hi) as (Hshape & t & w & u & ip & s & Hc & _).
  destruct (ReplaceSize_counters f t w u ip s Hshape Hc) as (Hf & Htag & _).
  by destruct (decide (i ∈ _)).
Qed.

(** X10.  Every folder entry of the grouped listing carries the four
    episode counters as integers that fit together: watched and
    unwatched episodes add up to the total, the total is at least one
    (no folder is empty), and the episodes in progress are between
    zero and the total.  The overlay is "unwatched" iff the unwatched
    counter is positive and "watched" iff it is zero.  The working
    property "sizeinbytes" is gone; the entry's size is a 64-bit signed
    number, and "recordingsize" is the text for that size if the size
    is positive and is not set otherwise.  The entry is a folder with a
    preformatted label and no backend entity. *)
Theorem folder_counters_consistent (p : CPVRRecordingsPath) (flt : CByClientAndProviderFilter)
    (recordings : list CPVRRecording) (folder : CFileItem) :
  folder ∈ GetGetRecordingsSubDirectories p recordings flt [] →
  ∃ t w u ip,
    m_mapProperties folder !! "totalepisodes" = Some (VariantTypeInteger t)
    ∧ m_mapProperties folder !! "watchedepisodes" = Some (VariantTypeInteger w)
    ∧ m_mapProperties folder !! "unwatchedepisodes" = Some (VariantTypeInteger u)
    ∧ m_mapProperties folder !! "inprogressepisodes" = Some (VariantTypeInteger ip)
    ∧ t = w + u ∧ 0 ≤ w ∧ 0 ≤ u ∧ 1 ≤ t ∧ 0 ≤ ip ≤ t
    ∧ (m_overlayIcon folder = ICON_OVERLAY_UNWATCHED ↔ 0 < u)
    ∧ (m_overlayIcon folder = ICON_OVERLAY_WATCHED ↔ u = 0)
    ∧ m_mapProperties folder !! "sizeinbytes" = None
    ∧ - 2 ^ 63 ≤ m_dwSize folder < 2 ^ 63
    ∧ m_mapProperties folder !! "recordingsize"
      = (if decide (0 < m_dwSize folder)
         then Some (VariantTypeString (SizeToString (m_dwSize folder))) else None)
    ∧ m_bIsFolder folder = true ∧ m_bLabelPreformatted folder = true
    ∧ m_infoTag folder = NoInfoTag.
Proof.
  intros [i Hi]%list_elem_of_lookup.
  apply GetGetRecordingsSubDirectories_lookup in Hi as (f & Hi & ->).
  destruct (CountersInvariant_loop p flt (rp_IsRadio p) recordings) as [Hfolders _].
  destruct (Hfolders i f Hi)
    as (Hshape & t & w & u & ip & s & Hc & (Hsum & Hw & Hu & Ht & Hip1 & Hip2)
        & [Hs1 Hs2] & Huw).
  destruct (ReplaceSize_counters f t w u ip s Hshape Hc)
    as (Hf & Htag & Hpre & Ho & Hsize & Pt & Pw & Pu & Pip & Ps & Pr).
  exists t, w, u, ip.
  destruct (decide (i ∈ _)) as [Hin|Hin]; simpl; rewrite Hsize, ?Ho; rewrite Huw in Hin;
    split_and!; first [done | split; (done || lia)].
Qed.

End Counters.

Lemma folder_counters_consistent_witness :
  ∃ t w u ip,
    m_mapProperties fooFolder !! "totalepisodes" = Some (VariantTypeInteger t)
    ∧ m_mapProperties fooFolder !! "watchedepisodes" = Some (VariantTypeInteger w)
    ∧ m_mapProperties fooFolder !! "unwatchedepisodes" = Some (VariantTypeInteger u)
    ∧ m_mapProperties fooFolder !! "inprogressepisodes" = Some (VariantTypeInteger ip)
    ∧ t = w + u ∧ 0 ≤ w ∧ 0 ≤ u ∧ 1 ≤ t ∧ 0 ≤ ip ≤ t
    ∧ (m_overlayIcon fooFolder = ICON_OVERLAY_UNWATCHED ↔ 0 < u)
    ∧ (m_overlayIcon fooFolder = ICON_OVERLAY_WATCHED ↔ u = 0)
    ∧ m_mapProperties fooFolder !! "sizeinbytes" = None
    ∧ - 2 ^ 63 ≤ m_dwSize fooFolder < 2 ^ 63
    ∧ m_mapProperties fooFolder !! "recordingsize"
      = (if decide (0 < m_dwSize fooFolder)
         then Some (VariantTypeString (SizeToString (Collaborators := collaborators)
                                         (m_dwSize fooFolder))) else None)
    ∧ m_bIsFolder fooFolder = true ∧ m_bLabelPreformatted fooFolder = true
    ∧ m_infoTag fooFolder = NoInfoTag.
Proof.
  apply (folder_counters_consistent (H := collaborators)
           (parseRecordingsPath "pvr://recordings/tv/active/")
           (CByClientAndProviderFilter_of (H := collaborators) activeRoot)
           [recordingBar; recordingBaz] fooFolder).
  assert (GetGetRecordingsSubDirectories (H := collaborators)
            (parseRecordingsPath "pvr://recordings/tv/active/")
            [recordingBar; recordingBaz]
            (CByClientAndProviderFilter_of (H := collaborators) activeRoot) [] = [fooFolder])
    as -> by (by vm_compute).
  apply list_elem_of_here.
Defined.
(** ** What the counters of a folder entry count *)

Lemma TotalSize_snoc (l : list CPVRRecording) (r : CPVRRecording) :
  TotalSize (l ++ [r]) = TotalSize l + rec_SizeInBytes r.
Proof. unfold TotalSize. induction l as [|x l IH]; simpl; lia. Qed.

Lemma length_filter_snoc {A : Type} (P : A → Prop) `{∀ x, Decision (P x)} (l : list A) (x : A) :
  Z.of_nat (length (filter P (l ++ [x])))
  = Z.of_nat (length (filter P l)) + (if decide (P x) then 1 else 0).
Proof.
  rewrite filter_app, length_app. case_decide.
  - rewrite filter_cons_True by done. simpl. lia.
  - rewrite filter_cons_False by done. simpl. lia.
Qed.

Section Aggregates.
Context `{Collaborators}.
Variable p : CPVRRecordingsPath.
Variable flt : CByClientAndProviderFilter.

Lemma HasCounters_eq (f : CFileItem) (t w u ip s t' w' u' ip' s' : Z) :
  HasCounters f t w u ip s → t = t' → w = w' → u = u' → ip = ip' → s = s' →
  HasCounters f t' w' u' ip' s'.
Proof. by intros Hc <- <- <- <- <-. Qed.

Lemma CountRecording_dateTime (r : CPVRRecording) (f : CFileItem) :
  m_dateTime (CountRecording r f) = m_dateTime f.
Proof. unfold CountRecording. by repeat (case_decide || case_match). Qed.

Lemma CountersAfter_other (done : list CPVRRecording) (r : CPVRRecording) (f : CFileItem) :
  ¬ BelongsTo p flt (m_strLabel f) r → CountersAfter p flt done f →
  CountersAfter p flt (done ++ [r]) f.
Proof.
  intros Hn. unfold CountersAfter.
  by rewrite filter_app, filter_cons_False, filter_nil, app_nil_r.
Qed.

(** A counted recording adds itself to each counter it falls under. *)
Lemma CountersAfter_snoc (mine : list CPVRRecording) (r : CPVRRecording) (f : CFileItem) :
  HasCounters f (Z.of_nat (length mine))
    (Z.of_nat (length (filter (λ r, rec_PlayCount r ≠ 0) mine)))
    (Z.of_nat (length (filter (λ r, rec_PlayCount r = 0) mine)))
    (Z.of_nat (length (filter (λ r, rec_LocalResumePointIsPartWay r = true) mine)))
    (int64_t (TotalSize mine)) →
  HasCounters (CountRecording r f) (Z.of_nat (length (mine ++ [r])))
    (Z.of_nat (length (filter (λ r, rec_PlayCount r ≠ 0) (mine ++ [r]))))
    (Z.of_nat (length (filter (λ r, rec_PlayCount r = 0) (mine ++ [r]))))
    (Z.of_nat (length (filter (λ r, rec_LocalResumePointIsPartWay r = true) (mine ++ [r]))))
    (int64_t (TotalSize (mine ++ [r]))).
Proof.
  intros Hc%(CountRecording_counters r). eapply HasCounters_eq; [done|..].
  - rewrite length_app. simpl. lia.
  - rewrite length_filter_snoc. by repeat case_decide.
  - by rewrite length_filter_snoc.
  - rewrite length_filter_snoc. by destruct (rec_LocalResumePointIsPartWay r).
  - by rewrite TotalSize_snoc, int64_t_add_l.
Qed.

Lemma CountersAfter_counted (done : list CPVRRecording) (r : CPVRRecording) (f : CFileItem) :
  BelongsTo p flt (m_strLabel f) r → CountersAfter p flt done f →
  CountersAfter p flt (done ++ [r]) (CountRecording r (TouchFolder r f)).
Proof.
  intros Hb (Hc & Hdate & Hlatest). unfold CountersAfter.
  destruct (CountRecording_fields r (TouchFolder r f)) as (-> & _).
  destruct (TouchFolder_fields r f) as (-> & _).
  rewrite filter_app, filter_cons_True, filter_nil by done. cbn zeta.
  rewrite CountRecording_dateTime.
  split_and!.
  - apply CountersAfter_snoc. by apply (proj2 (TouchFolder_shape r f _ _ _ _ _)).
  - rewrite fmap_app. unfold TouchFolder. case_match; simpl; set_solver.
  - apply Forall_app. unfold TouchFolder, CDateTime_lt.
    destruct (Z.ltb_spec (dt_time (m_dateTime f))
                (dt_time (rec_RecordingTimeAsLocalTime r))) as [Hlt|Hge]; simpl.
    + split; [|by repeat constructor].
      eapply Forall_impl; [done|]. intros r' Hr'. simpl in Hr'. lia.
    + split; [done | by repeat constructor].
Qed.

Lemma CountersAfter_created (done : list CPVRRecording) (r : CPVRRecording) :
  InSubDirectory p flt r →
  Equivalence (SameFolder p) →
  Forall (λ r', ¬ BelongsTo p flt (SubDirectoryOf p r) r') done →
  CountersAfter p flt (done ++ [r])
    (CountRecording r (NewFolder (SubDirectoryOf p r) (FolderPath p (SubDirectoryOf p r)) r)).
Proof.
  intros Hin Heq Hnone. set (s := SubDirectoryOf p r). unfold CountersAfter.
  destruct (CountRecording_fields r (NewFolder s (FolderPath p s) r)) as (-> & _).
  destruct (NewFolder_fields s (FolderPath p s) r) as (-> & _).
  assert (BelongsTo p flt s r) as Hb by (split; [done | reflexivity]).
  rewrite filter_app, filter_cons_True, filter_nil by done.
  rewrite (filter_none _ done) by (intros r' Hr'; by eapply Forall_forall in Hnone).
  cbn zeta. rewrite CountRecording_dateTime. split_and!.
  - apply (CountersAfter_snoc [] r). apply NewFolder_shape.
  - simpl. set_solver.
  - repeat constructor. simpl. lia.
Qed.

Lemma CountersAfter_step (done : list CPVRRecording) (st : list CFileItem * gset nat)
    (r : CPVRRecording) :
  Equivalence (SameFolder p) →
  LoopInvariant p flt done st →
  (∀ i f, st.1 !! i = Some f → CountersAfter p flt done f) →
  ∀ i f, (SubDirectories_step p flt (rp_IsRadio p) st r).1 !! i = Some f →
         CountersAfter p flt (done ++ [r]) f.
Proof.
  intros Heq (I1 & I2 & I3 & I4) Hcounters i f.
  destruct (decide (InSubDirectory p flt r)) as [Hin|Hn].
  - destruct st as [items uw]. rewrite SubDirectories_step_count by done. simpl in *.
    assert (∀ i f, items !! i = Some f → m_strPath f = FolderPath p (m_strLabel f)) as Hpath.
    { intros j g Hj. by destruct (I1 j g Hj) as [(_ & ? & _) _]. }
    destruct (Get _ items) as [item|] eqn:Hget; simpl.
    + destruct (Get_Some_folder _ _ _ _ Hpath Hget) as (f0 & Hitem & Hsame).
      rewrite list_lookup_alter. case_decide as Hi.
      * subst i. rewrite Hitem. intros [= <-].
        apply CountersAfter_counted; [by split | by eapply Hcounters].
      * intros Hf. apply CountersAfter_other; [|by eapply Hcounters].
        intros [_ Hb]. apply Hi. symmetry. apply (I2 i item f f0 Hf Hitem).
        etrans; [done | by symmetry].
    + pose proof (Get_None_folder _ _ _ Hpath Hget) as Hnone.
      intros [Hf|[Hi Hf]]%lookup_app_Some.
      * apply CountersAfter_other; [|by eapply Hcounters].
        intros [_ Hb]. by eapply Hnone.
      * destruct (i - length items)%nat eqn:Hd; simplify_eq/=.
        apply CountersAfter_created; [done..|].
        apply Forall_forall. intros r' Hr' [Hin' Hs].
        destruct (I3 r' Hr' Hin') as (j & g & Hj & Hs'). apply (Hnone j g Hj).
        etrans; [done | by symmetry].
  - rewrite SubDirectories_step_skip by done. intros Hf.
    apply CountersAfter_other; [|by eapply Hcounters]. by intros [? _].
Qed.

Lemma CountersAfter_loop (recordings : list CPVRRecording) :
  Equivalence (SameFolder p) →
  ∀ i f, (fold_left (SubDirectories_step p flt (rp_IsRadio p)) recordings ([], ∅)).1 !! i
         = Some f →
         CountersAfter p flt recordings f.
Proof.
  intros Heq. induction recordings as [|r gone IH] using rev_ind; [done|].
  rewrite fold_left_app. simpl. apply CountersAfter_step; [done | | done].
  by apply LoopInvariant_loop.
Qed.

End Aggregates.

Section AggregatedCounters.
Context `{Collaborators}.

Lemma ReplaceSize_dateTime (f : CFileItem) : m_dateTime (ReplaceSize f) = m_dateTime f.
Proof. unfold ReplaceSize. by case_decide. Qed.

(** X11.  With the comparison of paths in the list taken to be an
    equivalence: for every folder entry of the grouped listing, the
    counters "watchedepisodes", "unwatchedepisodes" and
    "inprogressepisodes" are the numbers of the recordings aggregated
    into the folder whose play count is not zero, is zero, and whose
    locally cached resume point is part way; the entry's size is the
    sum of their sizes as the code keeps it, in a 64-bit signed integer
    that wraps around; and the entry's date is the recording time of
    one of them and not before that of any of them. *)
Theorem folder_counters_aggregate (p : CPVRRecordingsPath) (flt : CByClientAndProviderFilter)
    (recordings : list CPVRRecording) (folder : CFileItem) :
  Equivalence (λ a b : string, PathEquals a b = true) →
  folder ∈ GetGetRecordingsSubDirectories p recordings flt [] →
  let aggregated := filter (AggregatedInto p flt folder) recordings in
  m_mapProperties folder !! "watchedepisodes"
  = Some (VariantTypeInteger
            (Z.of_nat (length (filter (λ r, rec_PlayCount r ≠ 0) aggregated))))
  ∧ m_mapProperties folder !! "unwatchedepisodes"
    = Some (VariantTypeInteger
              (Z.of_nat (length (filter (λ r, rec_PlayCount r = 0) aggregated))))
  ∧ m_mapProperties folder !! "inprogressepisodes"
    = Some (VariantTypeInteger
              (Z.of_nat (length (filter (λ r, rec_LocalResumePointIsPartWay r = true)
                                   aggregated))))
  ∧ m_dwSize folder = int64_t (TotalSize aggregated)
  ∧ m_dateTime folder ∈ (rec_RecordingTimeAsLocalTime <$> aggregated)
  ∧ Forall (λ r, dt_time (rec_RecordingTimeAsLocalTime r) ≤ dt_time (m_dateTime folder))
      aggregated.
Proof.
  intros Heq [i Hi]%list_elem_of_lookup aggregated.
  assert (Equivalence (SameFolder p)) as Hsame.
  { destruct Heq as [Hrefl Hsym Htrans]. unfold SameFolder. split.
    - intros s. apply Hrefl.
    - intros s1 s2 Hs. by apply Hsym.
    - intros s1 s2 s3 Hs Hs'. by eapply Htrans. }
  destruct (GetGetRecordingsSubDirectories_folders p flt Hsame recordings) as (Hfolders & _).
  destruct (Hfolders i folder Hi) as (_ & Hpath & _).
  assert (aggregated = filter (BelongsTo p flt (m_strLabel folder)) recordings) as ->.
  { apply list_filter_iff. intros r. by apply AggregatedInto_BelongsTo. }
  apply GetGetRecordingsSubDirectories_lookup in Hi as (f & Hi & ->).
  pose proof (CountersAfter_loop p flt recordings Hsame i f Hi) as (Hc & Hdate & Hlatest).
  destruct (CountersInvariant_loop p flt (rp_IsRadio p) recordings) as [Hshapes _].
  destruct (Hshapes i f Hi) as (Hshape & _).
  destruct (ReplaceSize_counters f _ _ _ _ _ Hshape Hc)
    as (_ & _ & _ & _ & Hsize & _ & Pw & Pu & Pip & _).
  destruct (ReplaceSize_fields f) as (Hlabel & _).
  pose proof (ReplaceSize_dateTime f) as Hd.
  destruct (decide (i ∈ _)); simpl; rewrite Hlabel, Hd; by split_and!.
Qed.

End AggregatedCounters.

Lemma folder_counters_aggregate_witness :
  m_mapProperties fooFolder !! "watchedepisodes" = Some (VariantTypeInteger 1)
  ∧ m_mapProperties fooFolder !! "unwatchedepisodes" = Some (VariantTypeInteger 1)
  ∧ m_mapProperties fooFolder !! "inprogressepisodes" = Some (VariantTypeInteger 0)
  ∧ m_dwSize fooFolder = 300
  ∧ m_dateTime fooFolder = rec_RecordingTimeAsLocalTime recordingBaz.
Proof.
  assert (fooFolder ∈ GetGetRecordingsSubDirectories (H := collaborators)
                        (parseRecordingsPath "pvr://recordings/tv/active/")
                        [recordingBar; recordingBaz]
                        (CByClientAndProviderFilter_of (H := collaborators) activeRoot) [])
    as Hin.
  { assert (GetGetRecordingsSubDirectories (H := collaborators)
              (parseRecordingsPath "pvr://recordings/tv/active/")
              [recordingBar; recordingBaz]
              (CByClientAndProviderFilter_of (H := collaborators) activeRoot) [] = [fooFolder])
      as -> by (by vm_compute).
    apply list_elem_of_here. }
  pose proof (folder_counters_aggregate (H := collaborators) _ _ _ fooFolder
                EqualsNoCase_equivalence Hin) as (Hw & Hu & Hip & Hsize & _).
  split_and!; [exact Hw | exact Hu | exact Hip | exact Hsize | done].
Defined.

(** A size that does not fit: the 2^63 bytes of the one recording of a
    folder become the [int64_t] -2^63, which is the folder's size, and
    the folder gets no "recordingsize". *)
Example folder_size_wraps_example :
  (λ f, (m_strLabel f, m_dwSize f, m_mapProperties f !! "recordingsize"))
    <$> GetGetRecordingsSubDirectories (H := collaborators)
          (parseRecordingsPath "pvr://recordings/tv/active/") [hugeRecording]
          (CByClientAndProviderFilter_of (H := collaborators) activeRoot) []
  = [("Foo", - 2 ^ 63, None)].
Proof. by vm_compute. Qed.
(** ** The refresh job of a recordings listing (lines 599-668) *)

Section RecordingsListing.
Context `{Collaborators}.

Lemma GroupedView_FlatView_option (mgr : CPVRManager) (m_url : CURL) (bGrouped : bool) :
  (if bGrouped then GroupedView mgr m_url else FlatView mgr m_url) ↔
  (if HasOption m_url "view"
   then if decide (GetOption m_url "view" = "grouped") then Some true
        else if decide (GetOption m_url "view" = "flat") then Some false else None
   else Some (SETTING_PVRRECORD_GROUPRECORDINGS mgr)) = Some bGrouped.
Proof.
  unfold GroupedView, FlatView.
  destruct (url_Options m_url !! "view") as [view|] eqn:Hview.
  - destruct (HasOption_Some _ _ _ Hview) as [-> ->].
    destruct bGrouped; repeat case_decide; naive_solver.
  - rewrite (HasOption_None _ _ Hview).
    destruct bGrouped, (SETTING_PVRRECORD_GROUPRECORDINGS mgr); naive_solver.
Qed.

(** A listing into an empty list: the folders, then the leaves. *)
Lemma GetRecordingsDirectory_listing (mgr : CPVRManager) (m_url : CURL) (bGrouped : bool) :
  let p := CPVRRecordingsPath_parse (url_GetWithoutOptions m_url) in
  let flt := CByClientAndProviderFilter_of m_url in
  let folders :=
    if negb (rp_IsDeleted p) && bGrouped
    then GetGetRecordingsSubDirectories p (mgr_Recordings mgr) flt [] else [] in
  rp_IsValid p = true →
  (if bGrouped then GroupedView mgr m_url else FlatView mgr m_url) →
  GetRecordingsDirectory mgr m_url CFileItemList_empty
  = mkOutcome true
      (mkFileItemList
         (folders ++ (RecordingLeaf <$> filter (LeafOf p flt bGrouped) (mgr_Recordings mgr)))
         "recordings" CACHE_IF_SLOW [])
      (match folders with
       | [] => []
       | _ => [mkJob (mkFileItemList folders "recordings" CACHE_IF_SLOW [])
                 (mgr_Recordings mgr)]
       end).
Proof.
  intros p flt folders Hvalid Hview%GroupedView_FlatView_option.
  unfold GetRecordingsDirectory. fold p flt. rewrite Hview, Hvalid.
  rewrite AddRecordingLeaf_leaves. subst folders.
  destruct (negb (rp_IsDeleted p) && bGrouped); [|done].
  unfold WithItems, IsEmpty. simpl.
  by destruct (GetGetRecordingsSubDirectories p (mgr_Recordings mgr) flt []).
Qed.

Lemma GetRecordingsDirectory_fails (mgr : CPVRManager) (m_url : CURL)
    (results : CFileItemList) :
  let p := CPVRRecordingsPath_parse (url_GetWithoutOptions m_url) in
  out_ok (GetRecordingsDirectory mgr m_url results) = false →
  (rp_IsValid p = false ∨ ¬ (GroupedView mgr m_url ∨ FlatView mgr m_url))
  ∧ GetRecordingsDirectory mgr m_url results
    = mkOutcome false (SetContent "recordings" results) [].
Proof.
  intros p. unfold GetRecordingsDirectory. fold p.
  pose proof (GroupedView_FlatView_option mgr m_url true) as Hg.
  pose proof (GroupedView_FlatView_option mgr m_url false) as Hf.
  cbn match in Hg, Hf.
  destruct (if HasOption m_url "view" then _ else _) as [bGrouped|].
  - destruct (rp_IsValid p); [done|]. intros _. split; [by left | done].
  - intros _. split; [|done]. right. intros [?%Hg|?%Hf]; done.
Qed.

Lemma FolderEntries_listing (folders leaves : list CFileItem) :
  Forall (λ f, m_bIsFolder f = true) folders →
  Forall (λ f, m_bIsFolder f = false) leaves →
  FolderEntries (folders ++ leaves) = folders.
Proof.
  intros Hf Hl. unfold FolderEntries. rewrite filter_app.
  rewrite filter_all by (intros f Hin; by eapply Forall_forall in Hf).
  rewrite filter_none, app_nil_r; [done|].
  intros f Hin Hfolder. eapply Forall_forall in Hl; [|done]. simpl in Hl. congruence.
Qed.

(** X12.  A listing into an empty list queues at most one refresh job,
    and queues it exactly when the listing shows a folder entry.  The
    job is given the folder entries as they are in the listing, in
    order and none of the leaves, together with all recordings of the
    backend.  Folder entries occur only in a successful grouped
    listing of a path that is not a deleted one; a flat listing, a
    listing of deleted recordings and a failed listing queue nothing. *)
Theorem GetRecordingsDirectory_refresh_job (mgr : CPVRManager) (m_url : CURL) :
  let p := CPVRRecordingsPath_parse (url_GetWithoutOptions m_url) in
  let listing := GetRecordingsDirectory mgr m_url CFileItemList_empty in
  let folders := FolderEntries (m_items (out_results listing)) in
  out_jobs listing
  = match folders with
    | [] => []
    | _ => [mkJob (mkFileItemList folders "recordings" CACHE_IF_SLOW []) (mgr_Recordings mgr)]
    end
  ∧ (folders ≠ [] →
     out_ok listing = true ∧ rp_IsDeleted p = false ∧ GroupedView mgr m_url)
  ∧ ∃ leaves, m_items (out_results listing) = folders ++ leaves
              ∧ Forall (λ it, ∃ r, m_infoTag it = PVRRecordingInfoTag r) leaves.
Proof.
  intros p listing folders. subst listing folders.
  assert (∀ recordings : list CPVRRecording,
            Forall (λ f, m_bIsFolder f = false) (RecordingLeaf <$> recordings)) as Hleaves.
  { intros recordings. apply Forall_fmap, Forall_true. by intros r. }
  assert (∀ recordings : list CPVRRecording,
            Forall (λ it, ∃ r, m_infoTag it = PVRRecordingInfoTag r)
              (RecordingLeaf <$> recordings)) as Htags.
  { intros recordings. apply Forall_fmap, Forall_true. intros r. by exists r. }
  destruct (out_ok (GetRecordingsDirectory mgr m_url CFileItemList_empty)) eqn:Hok.
  - assert (rp_IsValid p = true ∧ ∃ bGrouped : bool,
              if bGrouped then GroupedView mgr m_url else FlatView mgr m_url)
      as [Hvalid [bGrouped Hview]].
    { revert Hok. unfold GetRecordingsDirectory. fold p.
      pose proof (λ b, GroupedView_FlatView_option mgr m_url b) as Hopt.
      destruct (if HasOption m_url "view" then _ else _) as [bGrouped|]; [|done].
      destruct (rp_IsValid p); [intros _|done]. split; [done|].
      exists bGrouped. by apply Hopt. }
    rewrite (GetRecordingsDirectory_listing mgr m_url bGrouped Hvalid Hview). fold p. simpl.
    destruct (negb (rp_IsDeleted p) && bGrouped) eqn:Hg.
    + rewrite FolderEntries_listing;
        [|eapply Forall_impl; [apply GetGetRecordingsSubDirectories_shape|];
          by intros f [? _] | apply Hleaves].
      split_and!; [done| |by eexists].
      apply andb_true_iff in Hg as [Hd%negb_true_iff ->]. by intros _.
    + rewrite (FolderEntries_listing []); [|done | apply Hleaves].
      split_and!; [done | done | by eexists].
  - apply GetRecordingsDirectory_fails in Hok as [_ ->]. simpl.
    split_and!; [done | done | by exists []].
Qed.

End RecordingsListing.
(** ** [GetRecordingsDirectoryInfo] (lines 488-535) *)

Section DirectoryInfo.
Context `{Collaborators}.

Lemma DirectoryInfo_step_folders (folders : list CFileItem) (st : CFileItem * Z) :
  Forall (λ f, m_infoTag f = NoInfoTag) folders →
  fold_left DirectoryInfo_step folders st = st.
Proof.
  intros Hf. induction folders as [|f folders IH]; [done|].
  apply Forall_cons in Hf as [Hf Hrest]. simpl. rewrite <-(IH Hrest) at 2. f_equal.
  unfold DirectoryInfo_step. destruct st. by rewrite Hf.
Qed.

Lemma DirectoryInfo_step_leaf (item : CFileItem) (sizeInBytes : Z) (r : CPVRRecording)
    (t w u ip : Z) :
  EpisodeCounters item t w u ip →
  ∃ item',
    DirectoryInfo_step (item, sizeInBytes) (RecordingLeaf r)
    = (item', int64_t (sizeInBytes + rec_SizeInBytes r))
    ∧ EpisodeCounters item' (t + 1)
        (w + if decide (rec_PlayCount r ≠ 0) then 1 else 0)
        (u + if decide (rec_PlayCount r = 0) then 1 else 0)
        (ip + if decide (rec_ResumePointIsPartWay r = true) then 1 else 0)
    ∧ m_bLabelPreformatted item' = m_bLabelPreformatted item
    ∧ m_dateTime item' = DateAfter (m_dateTime item) [rec_RecordingTimeAsLocalTime r].
Proof.
  intros (Ht & Hw & Hu & Hip). unfold DirectoryInfo_step, RecordingLeaf, DateAfter.
  cbn [m_infoTag SetOverlayImage CFileItem_recording CFileItem_of fold_left].
  eexists. split; [reflexivity|]. unfold EpisodeCounters.
  destruct (dt_IsValid (m_dateTime item) || _), (decide (rec_PlayCount r = 0)),
    (rec_ResumePointIsPartWay r);
    unfold IncrementProperty, SetProperty, GetProperty, WithProperties; simpl;
    repeat first [rewrite lookup_insert_eq | rewrite lookup_insert_ne by done];
    rewrite ?Ht, ?Hw, ?Hu, ?Hip; simpl;
    repeat case_decide; rewrite ?Z.add_0_r; done.
Qed.

Lemma DateAfter_snoc (d : CDateTime) (times : list CDateTime) (t : CDateTime) :
  DateAfter d (times ++ [t]) = DateAfter (DateAfter d times) [t].
Proof. unfold DateAfter. by rewrite fold_left_app. Qed.

Lemma DirectoryInfo_loop (item : CFileItem) (leaves : list CPVRRecording) :
  EpisodeCounters item 0 0 0 0 →
  ∃ item',
    fold_left DirectoryInfo_step (RecordingLeaf <$> leaves) (item, 0)
    = (item', int64_t (TotalSize leaves))
    ∧ EpisodeCounters item' (Z.of_nat (length leaves))
        (Z.of_nat (length (filter (λ r, rec_PlayCount r ≠ 0) leaves)))
        (Z.of_nat (length (filter (λ r, rec_PlayCount r = 0) leaves)))
        (Z.of_nat (length (filter (λ r, rec_ResumePointIsPartWay r = true) leaves)))
    ∧ m_bLabelPreformatted item' = m_bLabelPreformatted item
    ∧ m_dateTime item'
      = DateAfter (m_dateTime item) (rec_RecordingTimeAsLocalTime <$> leaves).
Proof.
  intros Hzero. induction leaves as [|r leaves IH] using rev_ind.
  - exists item. by split_and!.
  - destruct IH as (item1 & Hloop & Hc & Hpre & Hdate).
    rewrite fmap_app, fold_left_app, Hloop. cbn [fmap list_fmap fold_left].
    destruct (DirectoryInfo_step_leaf item1 (int64_t (TotalSize leaves)) r _ _ _ _ Hc)
      as (item' & -> & Hc' & Hpre' & Hdate').
    exists item'.
    rewrite int64_t_add_l, TotalSize_snoc, !length_filter_snoc, length_app, fmap_app.
    cbn [fmap list_fmap length]. rewrite DateAfter_snoc, <-Hdate, Hpre', Hpre.
    replace (Z.of_nat (length leaves + 1)) with (Z.of_nat (length leaves) + 1) by lia.
    by split_and!.
Qed.

(** A successful call, in terms of the leaves of the listing. *)
Lemma GetRecordingsDirectoryInfo_success (mgr : CPVRManager) (item : CFileItem)
    (bGrouped : bool) :
  let m_url := CURL_parse (m_strPath item) in
  let p := CPVRRecordingsPath_parse (url_GetWithoutOptions m_url) in
  let leaves :=
    filter (LeafOf p (CByClientAndProviderFilter_of m_url) bGrouped) (mgr_Recordings mgr) in
  let unwatched := filter (λ r, rec_PlayCount r = 0) leaves in
  rp_IsValid p = true →
  (if bGrouped then GroupedView mgr m_url else FlatView mgr m_url) →
  ∃ counted,
    (GetRecordingsDirectoryInfo mgr item).1
    = (true,
       SetOverlayImage (if decide (unwatched = []) then ICON_OVERLAY_WATCHED
                        else ICON_OVERLAY_UNWATCHED)
         (SetProperty "recordingsize"
            (VariantTypeString (SizeToString (int64_t (TotalSize leaves)))) counted))
    ∧ EpisodeCounters counted (Z.of_nat (length leaves))
        (Z.of_nat (length (filter (λ r, rec_PlayCount r ≠ 0) leaves)))
        (Z.of_nat (length unwatched))
        (Z.of_nat (length (filter (λ r, rec_ResumePointIsPartWay r = true) leaves)))
    ∧ m_bLabelPreformatted counted = true
    ∧ m_dateTime counted
      = DateAfter (m_dateTime item) (rec_RecordingTimeAsLocalTime <$> leaves).
Proof.
  intros m_url p leaves unwatched Hvalid Hview. unfold GetRecordingsDirectoryInfo.
  fold m_url. rewrite (GetRecordingsDirectory_listing mgr m_url bGrouped Hvalid Hview).
  fold p leaves. cbn [out_ok out_results out_jobs m_items].
  rewrite fold_left_app.
  rewrite (DirectoryInfo_step_folders (if negb (rp_IsDeleted p) && bGrouped then _ else [])).
  2:{ destruct (negb (rp_IsDeleted p) && bGrouped); [|done].
      eapply Forall_impl; [apply GetGetRecordingsSubDirectories_shape|]. by intros f [_ ?]. }
  match goal with
  | |- context [fold_left DirectoryInfo_step _ (?start, 0)] =>
      destruct (DirectoryInfo_loop start leaves) as (counted & -> & Hc & Hpre & Hdate);
        [unfold EpisodeCounters; simpl;
         repeat first [rewrite lookup_insert_eq | rewrite lookup_insert_ne by done];
         by split_and!|]
  end.
  exists counted. split_and!; [|done..].
  destruct Hc as (_ & _ & Hu & _). cbn [fst]. f_equal.
  match goal with
  | |- context [asInteger (GetProperty "unwatchedepisodes" ?it) 0] =>
      assert (asInteger (GetProperty "unwatchedepisodes" it) 0 = Z.of_nat (length unwatched))
        as ->
  end.
  { unfold GetProperty, SetProperty. simpl. rewrite lookup_insert_ne by done. by rewrite Hu. }
  destruct unwatched; simpl; by repeat case_decide.
Qed.

(** X13.  When the item's path is a valid recordings path and the view
    in effect is the grouped or the flat one, the call succeeds and the
    item describes the leaves of the listing of its directory, the
    folder entries of a grouped listing not counted: "totalepisodes" is
    their number, "watchedepisodes", "unwatchedepisodes" and
    "inprogressepisodes" are the numbers of those whose play count is
    not zero, is zero, and whose resume point is part way,
    "recordingsize" is made from the sum of their sizes as the code
    keeps it, in a 64-bit signed integer that wraps around, the overlay
    is "watched" iff none has play count zero, and the label counts as
    preformatted. *)
Theorem GetRecordingsDirectoryInfo_counts (mgr : CPVRManager) (item : CFileItem)
    (bGrouped : bool) :
  let m_url := CURL_parse (m_strPath item) in
  let p := CPVRRecordingsPath_parse (url_GetWithoutOptions m_url) in
  let leaves :=
    filter (LeafOf p (CByClientAndProviderFilter_of m_url) bGrouped) (mgr_Recordings mgr) in
  let unwatched := filter (λ r, rec_PlayCount r = 0) leaves in
  let info := (GetRecordingsDirectoryInfo mgr item).1.2 in
  rp_IsValid p = true →
  (if bGrouped then GroupedView mgr m_url else FlatView mgr m_url) →
  (GetRecordingsDirectoryInfo mgr item).1.1 = true
  ∧ m_mapProperties info !! "totalepisodes"
    = Some (VariantTypeInteger (Z.of_nat (length leaves)))
  ∧ m_mapProperties info !! "watchedepisodes"
    = Some (VariantTypeInteger
              (Z.of_nat (length (filter (λ r, rec_PlayCount r ≠ 0) leaves))))
  ∧ m_mapProperties info !! "unwatchedepisodes"
    = Some (VariantTypeInteger (Z.of_nat (length unwatched)))
  ∧ m_mapProperties info !! "inprogressepisodes"
    = Some (VariantTypeInteger
              (Z.of_nat (length (filter (λ r, rec_ResumePointIsPartWay r = true) leaves))))
  ∧ m_mapProperties info !! "recordingsize"
    = Some (VariantTypeString (SizeToString (int64_t (TotalSize leaves))))
  ∧ m_overlayIcon info
    = (if decide (unwatched = []) then ICON_OVERLAY_WATCHED else ICON_OVERLAY_UNWATCHED)
  ∧ m_bLabelPreformatted info = true.
Proof.
  intros m_url p leaves unwatched info Hvalid Hview. subst info.
  destruct (GetRecordingsDirectoryInfo_success mgr item bGrouped Hvalid Hview)
    as (counted & -> & (Ht & Hw & Hu & Hip) & Hpre & _).
  fold m_url p leaves unwatched. simpl.
  rewrite !lookup_insert_ne by done. rewrite lookup_insert_eq. by split_and!.
Qed.

(** X14.  The call succeeds iff the item's path is a valid recordings
    path and the view in effect is the grouped or the flat one; when it
    fails, the item is left as it was and no job is queued. *)
Theorem GetRecordingsDirectoryInfo_fails_untouched (mgr : CPVRManager) (item : CFileItem) :
  let m_url := CURL_parse (m_strPath item) in
  let p := CPVRRecordingsPath_parse (url_GetWithoutOptions m_url) in
  ((GetRecordingsDirectoryInfo mgr item).1.1 = true
   ↔ rp_IsValid p = true ∧ (GroupedView mgr m_url ∨ FlatView mgr m_url))
  ∧ ((GetRecordingsDirectoryInfo mgr item).1.1 = false →
     GetRecordingsDirectoryInfo mgr item = (false, item, [])).
Proof.
  intros m_url p.
  assert ((GetRecordingsDirectoryInfo mgr item).1.1 = false →
          (rp_IsValid p = false ∨ ¬ (GroupedView mgr m_url ∨ FlatView mgr m_url))
          ∧ GetRecordingsDirectoryInfo mgr item = (false, item, [])) as Hfail.
  { unfold GetRecordingsDirectoryInfo. fold m_url.
    destruct (out_ok (GetRecordingsDirectory mgr m_url CFileItemList_empty)) eqn:Hok.
    - by destruct (fold_left _ _ _).
    - intros _. by apply GetRecordingsDirectory_fails in Hok as [? ->]. }
  split; [|by intros [_ ?]%Hfail].
  destruct ((GetRecordingsDirectoryInfo mgr item).1.1) eqn:Hok.
  - split; [intros _|done].
    revert Hok. unfold GetRecordingsDirectoryInfo. fold m_url.
    destruct (out_ok (GetRecordingsDirectory mgr m_url CFileItemList_empty)) eqn:Hok';
      [intros _|done].
    revert Hok'. unfold GetRecordingsDirectory. fold p.
    pose proof (λ b, GroupedView_FlatView_option mgr m_url b) as Hopt.
    destruct (if HasOption m_url "view" then _ else _) as [bGrouped|]; [|done].
    destruct (rp_IsValid p); [intros _|done]. split; [done|].
    specialize (Hopt bGrouped). destruct bGrouped; [left | right]; by apply Hopt.
  - destruct (Hfail eq_refl) as [[Hv|Hn] _]; split; try done.
    + intros [? _]. congruence.
    + by intros [_ ?].
Qed.

Lemma DateAfter_valid (d : CDateTime) (times : list CDateTime) :
  dt_IsValid d = true → Forall (λ t, dt_IsValid t = true) times →
  DateAfter d times = default d (last times).
Proof.
  intros Hd Ht. induction times as [|t times IH] using rev_ind; [done|].
  apply Forall_app in Ht as [Ht Hlast]. rewrite DateAfter_snoc, last_snoc, (IH Ht).
  simpl. unfold DateAfter. simpl.
  assert (dt_IsValid (default d (last times)) = true) as ->; [|done].
  destruct (last times) as [t'|] eqn:Hl; [|done]. simpl.
  eapply Forall_forall in Ht; [done|]. by eapply last_Some_elem_of.
Qed.

(** X15.  Lines 508-510 replace the item's date whenever that date is
    valid.  So for an item that has a valid date, and recordings whose
    recording times are valid, the date after a successful call is the
    recording time of the last leaf of the listing, whether or not it
    is the latest one; without leaves the date stays. *)
Theorem GetRecordingsDirectoryInfo_date_of_last_leaf (mgr : CPVRManager) (item : CFileItem)
    (bGrouped : bool) :
  let m_url := CURL_parse (m_strPath item) in
  let p := CPVRRecordingsPath_parse (url_GetWithoutOptions m_url) in
  let leaves :=
    filter (LeafOf p (CByClientAndProviderFilter_of m_url) bGrouped) (mgr_Recordings mgr) in
  rp_IsValid p = true →
  (if bGrouped then GroupedView mgr m_url else FlatView mgr m_url) →
  dt_IsValid (m_dateTime item) = true →
  Forall (λ r, dt_IsValid (rec_RecordingTimeAsLocalTime r) = true) leaves →
  m_dateTime (GetRecordingsDirectoryInfo mgr item).1.2
  = default (m_dateTime item) (last (rec_RecordingTimeAsLocalTime <$> leaves)).
Proof.
  intros m_url p leaves Hvalid Hview Hdate Htimes.
  destruct (GetRecordingsDirectoryInfo_success mgr item bGrouped Hvalid Hview)
    as (counted & -> & _ & _ & Hd).
  fold m_url p leaves in Hd. simpl. rewrite Hd.
  apply DateAfter_valid; [done|]. by apply Forall_fmap.
Qed.

End DirectoryInfo.

Lemma GetRecordingsDirectoryInfo_counts_witness :
  let info := (GetRecordingsDirectoryInfo (H := collaborators) flatFooManager datedFooItem).1.2 in
  m_mapProperties info !! "totalepisodes" = Some (VariantTypeInteger 2)
  ∧ m_mapProperties info !! "unwatchedepisodes" = Some (VariantTypeInteger 1)
  ∧ m_mapProperties info !! "inprogressepisodes" = Some (VariantTypeInteger 1)
  ∧ m_overlayIcon info = ICON_OVERLAY_UNWATCHED.
Proof.
  assert (FlatView flatFooManager (CURL_parse (Collaborators := collaborators)
                                     (m_strPath datedFooItem))) as Hview
    by (right; by vm_compute).
  pose proof (GetRecordingsDirectoryInfo_counts (H := collaborators) flatFooManager
                datedFooItem false eq_refl Hview) as (_ & Ht & _ & Hu & Hip & _ & Ho & _).
  split_and!; [exact Ht | exact Hu | exact Hip | exact Ho].
Defined.

Lemma GetRecordingsDirectoryInfo_date_of_last_leaf_witness :
  m_dateTime (GetRecordingsDirectoryInfo (H := collaborators) flatFooManager datedFooItem).1.2
  = rec_RecordingTimeAsLocalTime recordingBar
  ∧ dt_time (rec_RecordingTimeAsLocalTime recordingBar)
    < dt_time (rec_RecordingTimeAsLocalTime recordingBaz).
Proof.
  assert (FlatView flatFooManager (CURL_parse (Collaborators := collaborators)
                                     (m_strPath datedFooItem))) as Hview
    by (right; by vm_compute).
  split; [|done].
  rewrite (GetRecordingsDirectoryInfo_date_of_last_leaf (H := collaborators) flatFooManager
             datedFooItem false eq_refl Hview eq_refl); [done|].
  by repeat constructor.
Defined.
(** ** The refresh job (lines 550-591) *)

Section RefreshFacts.
Context `{Collaborators}.

Lemma DoWork_folder_again (recordings : list CPVRRecording) (i j : nat) (folder : CFileItem) :
  DoWork_folder recordings j (DoWork_folder recordings i folder).1
  = ((DoWork_folder recordings i folder).1, []).
Proof.
  rewrite (DoWork_folder_spec recordings i folder).
  destruct (rp_IsValid (CPVRRecordingsPath_parse (m_strPath folder))) eqn:Hvalid.
  - case_decide as Hn; simpl.
    + rewrite DoWork_folder_spec, Hvalid. by rewrite decide_True.
    + rewrite DoWork_folder_spec. simpl. rewrite Hvalid.
      rewrite decide_True; [done|].
      unfold GetProperty. simpl. by rewrite lookup_insert_eq.
  - simpl. by rewrite DoWork_folder_spec, Hvalid.
Qed.

Lemma DoWork_loop_again (recordings : list CPVRRecording) (k k' : nat)
    (folders : list CFileItem) :
  DoWork_loop recordings k' (DoWork_loop recordings k folders).1
  = ((DoWork_loop recordings k folders).1, []).
Proof.
  revert k k'. induction folders as [|folder rest IH]; intros k k'; [done|].
  simpl.
  pose proof (DoWork_folder_again recordings k k' folder) as Hf.
  destruct (DoWork_folder recordings k folder) as [folder' sent].
  specialize (IH (S k) (S k')).
  destruct (DoWork_loop recordings (S k) rest) as [rest' sent'].
  simpl in *. by rewrite Hf, IH.
Qed.

Lemma DoWork_folder_Refreshed (recordings : list CPVRRecording) (i : nat) (folder : CFileItem) :
  Refreshed folder (DoWork_folder recordings i folder).1
  ∧ ((DoWork_folder recordings i folder).2 = []
     ∨ (DoWork_folder recordings i folder).2
       = [GUI_MSG_UPDATE_ITEM i (DoWork_folder recordings i folder).1]).
Proof.
  rewrite DoWork_folder_spec. repeat case_match; simpl; split; try (by left).
  - right. by eexists.
  - by right.
Qed.

Lemma DoWork_loop_Refreshed (recordings : list CPVRRecording) (k : nat)
    (folders : list CFileItem) :
  let folders' := (DoWork_loop recordings k folders).1 in
  let sent := (DoWork_loop recordings k folders).2 in
  Forall2 Refreshed folders folders'
  ∧ sublist (msg_position <$> sent) (seq k (length folders))
  ∧ Forall (λ m, (k ≤ msg_position m)%nat
                 ∧ folders' !! (msg_position m - k)%nat = Some (msg_item m)) sent.
Proof.
  revert k. induction folders as [|folder rest IH]; intros k; simpl.
  { split_and!; constructor. }
  change (seq k (S (length rest))) with (k :: seq (S k) (length rest)).
  destruct (DoWork_folder_Refreshed recordings k folder) as [Href Hsent].
  destruct (DoWork_folder recordings k folder) as [folder' sent].
  destruct (IH (S k)) as (Hrest & Hsorted & Hpos).
  destruct (DoWork_loop recordings (S k) rest) as [rest' sent']. simpl in *.
  assert (Forall (λ m, (k ≤ msg_position m)%nat
                       ∧ (folder' :: rest') !! (msg_position m - k)%nat = Some (msg_item m))
            sent') as Hpos'.
  { eapply Forall_impl; [done|]. intros m [Hm Hl]. split; [lia|].
    replace (msg_position m - k)%nat with (S (msg_position m - S k)) by lia. done. }
  split; [by constructor|].
  destruct Hsent as [->| ->]; simpl.
  - split; [by apply sublist_cons | done].
  - split; [by apply sublist_skip|].
    constructor; [|done]. simpl. split; [lia|]. by rewrite Nat.sub_diag.
Qed.

(** X16.  Running the refresh job a second time, on the folders the
    first run left, changes nothing and sends no message. *)
Theorem DoWork_idempotent (job : CPVRRecordingFoldersInProgressEpisodesCountJob) :
  DoWork (DoWork job).1.2 = (true, (DoWork job).1.2, []).
Proof.
  destruct (m_recordings job) as [|r rs] eqn:Hr.
  { assert (DoWork job = (true, job, [])) as Hd by (unfold DoWork; by rewrite Hr).
    by rewrite Hd. }
  destruct (m_items (m_folders job)) as [|f fs] eqn:Hf.
  { assert (DoWork job = (true, job, [])) as Hd by (unfold DoWork; by rewrite Hr, Hf).
    by rewrite Hd. }
  rewrite (DoWork_unfold job) by (by rewrite ?Hr, ?Hf). simpl.
  pose proof (DoWork_loop_again (m_recordings job) 0 0 (m_items (m_folders job))) as Hagain.
  assert ((DoWork_loop (m_recordings job) 0 (m_items (m_folders job))).1 ≠ []) as Hne.
  { rewrite Hf. simpl. by repeat case_match. }
  rewrite DoWork_unfold; simpl; [|by rewrite Hr | done].
  by rewrite Hagain.
Qed.

(** X17.  The refresh job always reports success and keeps its
    recordings and the settings of its folder list.  It leaves as many
    folders as it was given, each either as it was or with only its
    "inprogressepisodes" property set.  Its messages are in the order
    of the folders, at most one per folder, and each carries the folder
    as the job leaves it at that position.  A job without recordings
    does nothing, so the counters of its folders stay as they are. *)
Theorem DoWork_only_sets_the_counter (job : CPVRRecordingFoldersInProgressEpisodesCountJob) :
  let after := (DoWork job).1.2 in
  let sent := (DoWork job).2 in
  (DoWork job).1.1 = true
  ∧ m_recordings after = m_recordings job
  ∧ SameSettings (m_folders job) (m_folders after)
  ∧ Forall2 Refreshed (m_items (m_folders job)) (m_items (m_folders after))
  ∧ sublist (msg_position <$> sent) (seq 0 (length (m_items (m_folders job))))
  ∧ Forall (λ m, m_items (m_folders after) !! msg_position m = Some (msg_item m)) sent
  ∧ (m_recordings job = [] → DoWork job = (true, job, [])).
Proof.
  intros after sent. subst after sent.
  assert (Forall2 Refreshed (m_items (m_folders job)) (m_items (m_folders job))) as Hsame.
  { apply Forall2_same_length_lookup. split; [done|]. intros i f f' Hf Hf'. left. congruence. }
  destruct (m_recordings job) as [|r rs] eqn:Hr.
  { assert (DoWork job = (true, job, [])) as -> by (unfold DoWork; by rewrite Hr).
    simpl. split_and!; try done; first [apply sublist_nil_l | constructor]. }
  destruct (m_items (m_folders job)) as [|f fs] eqn:Hf.
  { assert (DoWork job = (true, job, [])) as -> by (unfold DoWork; by rewrite Hr, Hf).
    simpl. rewrite Hf. split_and!; try done; first [apply sublist_nil_l | constructor]. }
  rewrite (DoWork_unfold job) by (by rewrite ?Hr, ?Hf). simpl.
  destruct (DoWork_loop_Refreshed (m_recordings job) 0 (m_items (m_folders job)))
    as (Href & Hsorted & Hpos). rewrite Hf, Hr in *.
  split_and!; [done..| |done].
  eapply Forall_impl; [exact Hpos|]. intros m [_ Hm]. by rewrite Nat.sub_0_r in Hm.
Qed.

End RefreshFacts.
(** ** Channel groups and channels (lines 700-902) *)

Section ChannelFacts.
Context `{Collaborators}.

Lemma GetByUniqueID_storage (group : CPVRChannelGroup) (storageId : Z)
    (member : CPVRChannelGroupMember) :
  GetByUniqueID group storageId = Some member → ch_StorageId (gm_Channel member) = storageId.
Proof.
  unfold GetByUniqueID. intros [_ Hm]%find_some. by apply bool_decide_eq_true in Hm.
Qed.

Lemma GetLastWatchedChannelGroupMember_storage (mgr : CPVRManager) (channel : CPVRChannel)
    (member : CPVRChannelGroupMember) :
  GetLastWatchedChannelGroupMember mgr channel = Some member →
  ch_StorageId (gm_Channel member) = ch_StorageId channel.
Proof.
  unfold GetLastWatchedChannelGroupMember.
  repeat first [case_decide | case_match]; try done. apply GetByUniqueID_storage.
Qed.

Lemma GetFirstMatchingGroupMember_storage (mgr : CPVRManager) (channel : CPVRChannel)
    (member : CPVRChannelGroupMember) :
  GetFirstMatchingGroupMember mgr channel = Some member →
  ch_StorageId (gm_Channel member) = ch_StorageId channel.
Proof.
  unfold GetFirstMatchingGroupMember.
  destruct (ChannelGroups_Get mgr (ch_IsRadio channel)) as [groups|]; [|done].
  generalize (Groups_GetMembers groups true). intros channelGroups.
  induction channelGroups as [|g channelGroups IH]; simpl; [done|].
  destruct (grp_IsDeleted g); [done|].
  destruct (GetByUniqueID g (ch_StorageId channel)) as [m|] eqn:Hm; [|done].
  intros [= <-]. by eapply GetByUniqueID_storage.
Qed.

Lemma AllChannels_step_storage (mgr : CPVRManager) (group : CPVRChannelGroup)
    (result : list CPVRChannelGroupMember) (allGroupMember : CPVRChannelGroupMember) :
  (StorageIds (AllChannels_step mgr group result allGroupMember) = StorageIds result
   ∧ grp_IsHidden group = true)
  ∨ StorageIds (AllChannels_step mgr group result allGroupMember)
    = StorageIds result ++ [ch_StorageId (gm_Channel allGroupMember)].
Proof.
  unfold AllChannels_step, StorageIds.
  destruct (GetLastWatchedChannelGroupMember mgr (gm_Channel allGroupMember)) as [m|] eqn:Hm.
  { right. rewrite fmap_app. simpl.
    by rewrite (GetLastWatchedChannelGroupMember_storage _ _ _ Hm). }
  destruct (grp_IsHidden group); [|right; by rewrite fmap_app].
  destruct (GetFirstMatchingGroupMember mgr (gm_Channel allGroupMember)) as [m|] eqn:Hf.
  - right. rewrite fmap_app. simpl. by rewrite (GetFirstMatchingGroupMember_storage _ _ _ Hf).
  - by left.
Qed.

(** X18.  In the listing of the group named [*], putting a channel's
    entry from another group in the place of its 'All channels' entry
    never changes the channel: the storage ids of the listed entries
    are, in order, a sub-list of those of the visible members of 'All
    channels', and the same list when 'All channels' is not hidden. *)
Theorem all_channels_lists_the_same_channels (mgr : CPVRManager) (path : CPVRChannelsPath)
    (group : CPVRChannelGroup) :
  cp_IsHiddenChannelGroup path = false →
  cp_GetGroupName path = "*" →
  GetGroupAll mgr (cp_IsRadio path) = Some group →
  sublist (StorageIds (GetChannelGroupMembers mgr path))
    (StorageIds (GetMembers group Include_ONLY_VISIBLE))
  ∧ (grp_IsHidden group = false →
     StorageIds (GetChannelGroupMembers mgr path)
     = StorageIds (GetMembers group Include_ONLY_VISIBLE)).
Proof.
  intros Hhidden Hname Hall. unfold GetChannelGroupMembers.
  rewrite Hhidden, Hname, Hall. rewrite decide_True by done.
  generalize (GetMembers group Include_ONLY_VISIBLE). intros members.
  assert (∀ result,
            (∃ listed, StorageIds (fold_left (AllChannels_step mgr group) members result)
                       = StorageIds result ++ listed
                       ∧ sublist listed (StorageIds members))
            ∧ (grp_IsHidden group = false →
               StorageIds (fold_left (AllChannels_step mgr group) members result)
               = StorageIds result ++ StorageIds members)) as Hloop.
  { induction members as [|m members IH]; intros result; simpl.
    - split; [exists []|]; by rewrite app_nil_r.
    - destruct (IH (AllChannels_step mgr group result m)) as [(listed & -> & Hsub) Heq].
      destruct (AllChannels_step_storage mgr group result m) as [[Hs Hh]|Hs].
      + rewrite Hs. split; [|congruence]. exists listed. split; [done|].
        by apply sublist_cons.
      + split.
        * exists (ch_StorageId (gm_Channel m) :: listed). rewrite Hs, <-app_assoc.
          split; [done|]. by apply sublist_skip.
        * intros Hh. rewrite (Heq Hh), Hs, <-app_assoc. done. }
  destruct (Hloop []) as [(listed & -> & Hsub) Heq]. split; [done|].
  intros Hh. exact (Heq Hh).
Qed.

(** X19.  Outside the date-added view, the listing of a channel group
    adds, in order, the plain entries (none marked hideable) of
    exactly the group members that pass the client/provider filter and
    whose channel's hidden flag is that of the path; in the last-played
    view only those whose channel has been watched. *)
Theorem channel_group_listing (mgr : CPVRManager) (m_url : CURL) (results : CFileItemList) :
  let path := CPVRChannelsPath_parse (url_GetWithoutOptions m_url) in
  cp_IsValid path = true → cp_IsEmpty path = false → cp_IsChannelsRoot path = false →
  cp_IsChannelGroup path = true →
  url_Options m_url !! "view" ≠ Some "dateadded" →
  GetChannelsDirectory mgr m_url results
  = (true,
     WithItems
       (λ items, items ++ (CFileItem_groupMember
                           <$> filter (ListedInGroup m_url path)
                                 (GetChannelGroupMembers mgr path)))
       results).
Proof.
  intros path Hvalid Hempty Hroot Hgroup Hview.
  unfold GetChannelsDirectory. fold path. rewrite Hvalid, Hempty, Hroot, Hgroup.
  assert (HasOption m_url "view" && bool_decide (GetOption m_url "view" = "dateadded") = false)
    as ->.
  { destruct (url_Options m_url !! "view") as [view|] eqn:Hv.
    - destruct (HasOption_Some _ _ _ Hv) as [-> ->]. simpl.
      apply bool_decide_eq_false. congruence.
    - by rewrite (HasOption_None _ _ Hv). }
  f_equal.
  apply (fold_left_Add_filter _
           (λ groupMember,
              negb (FilterChannel (CByClientAndProviderFilter_of m_url) (gm_Channel groupMember))
              && bool_decide (cp_IsHiddenChannelGroup path = ch_IsHidden (gm_Channel groupMember))
              && negb (HasOption m_url "view"
                       && bool_decide (GetOption m_url "view" = "lastplayed")
                       && bool_decide (ch_LastWatched (gm_Channel groupMember) = 0)))).
  - intros rs groupMember. unfold AddChannel. cbn zeta.
    destruct (FilterChannel _ _); [done|]. destruct (bool_decide (_ = ch_IsHidden _)); [|done].
    simpl. by destruct (_ && _ && _).
  - intros groupMember. unfold ListedInGroup.
    rewrite !andb_true_iff, !negb_true_iff, bool_decide_eq_true, !andb_false_iff,
      !bool_decide_eq_false.
    destruct (url_Options m_url !! "view") as [view|] eqn:Hv.
    + destruct (HasOption_Some _ _ _ Hv) as [-> ->].
      destruct (decide (view = "lastplayed")) as [->|]; naive_solver.
    + rewrite (HasOption_None _ _ Hv). naive_solver.
Qed.

(** X20.  A channel group path whose group cannot be found is no
    error: when the container of the kind exists and holds no group of
    the path's name and client, the listing succeeds and adds
    nothing. *)
Theorem unknown_channel_group_lists_nothing (mgr : CPVRManager) (m_url : CURL)
    (results : CFileItemList) (groups : list CPVRChannelGroup) :
  let path := CPVRChannelsPath_parse (url_GetWithoutOptions m_url) in
  cp_IsValid path = true → cp_IsEmpty path = false → cp_IsChannelsRoot path = false →
  cp_IsChannelGroup path = true →
  cp_IsHiddenChannelGroup path = false → cp_GetGroupName path ≠ "*" →
  ChannelGroups_Get mgr (cp_IsRadio path) = Some groups →
  GetByName groups (cp_GetGroupName path) (cp_GetGroupClientID path) = None →
  GetChannelsDirectory mgr m_url results = (true, results).
Proof.
  intros path Hvalid Hempty Hroot Hgroup Hhidden Hname Hgroups Hnone.
  unfold GetChannelsDirectory. fold path. rewrite Hvalid, Hempty, Hroot, Hgroup.
  unfold GetChannelGroupMembers. rewrite Hhidden, Hgroups, Hnone.
  by rewrite decide_False.
Qed.


End ChannelFacts.

Lemma all_channels_lists_the_same_channels_witness :
  StorageIds (GetChannelGroupMembers (H := collaborators) favouritesManager
                (parseChannelsPath "pvr://channels/tv/*"))
  = StorageIds (GetMembers (allChannelsGroup false [watchedInAll]) Include_ONLY_VISIBLE)
  ∧ GetChannelGroupMembers (H := collaborators) favouritesManager
      (parseChannelsPath "pvr://channels/tv/*") ≠ [watchedInAll].
Proof.
  split; [|by vm_compute].
  by apply (all_channels_lists_the_same_channels (H := collaborators) favouritesManager
              (parseChannelsPath "pvr://channels/tv/*") (allChannelsGroup false [watchedInAll])
              eq_refl eq_refl eq_refl).
Defined.

Lemma channel_group_listing_witness :
  m_items (GetChannelsDirectory (H := collaborators) initialPopulationManager
             (pvrURL "channels/tv/*" ∅) CFileItemList_empty).2
  = [CFileItem_groupMember initialMember].
Proof.
  assert (url_Options (pvrURL "channels/tv/*" ∅) !! "view" ≠ Some "dateadded") as Hview
    by (by vm_compute).
  rewrite (channel_group_listing (H := collaborators) initialPopulationManager
             (pvrURL "channels/tv/*" ∅) CFileItemList_empty
             eq_refl eq_refl eq_refl eq_refl Hview).
  by vm_compute.
Defined.

Lemma unknown_channel_group_lists_nothing_witness :
  GetChannelsDirectory (H := collaborators) initialPopulationManager
    (pvrURL "channels/tv/Nowhere" ∅) CFileItemList_empty
  = (true, CFileItemList_empty).
Proof.
  apply (unknown_channel_group_lists_nothing (H := collaborators) initialPopulationManager
           (pvrURL "channels/tv/Nowhere" ∅) CFileItemList_empty
           [allChannelsGroup false [initialMember]]); try done.
Defined.
(** ** Timers (lines 907-999) *)

Section TimerFacts.
Context `{Collaborators}.

(** X22.  Hiding the disabled timers gives the listing one gets,
    without hiding, of the timers that are not disabled: the option
    removes entries and changes none, at the root and below a rule. *)
Theorem hiding_disabled_timers_removes_them (path : CPVRTimersPath)
    (timers : list CPVRTimerInfoTag) (results : CFileItemList) :
  GetTimersRootDirectory path true timers results
  = GetTimersRootDirectory path false (filter (λ t, tmr_IsDisabled t = false) timers) results
  ∧ GetTimersSubDirectory path true timers results
    = GetTimersSubDirectory path false (filter (λ t, tmr_IsDisabled t = false) timers) results.
Proof.
  unfold GetTimersRootDirectory, GetTimersSubDirectory.
  split; f_equal; revert results; induction timers as [|t timers IH]; intros results;
    try done; simpl fold_left.
  - destruct (tmr_IsDisabled t) eqn:Hd.
    + rewrite filter_cons_False by (by rewrite Hd). rewrite <-IH. by rewrite !andb_false_r.
    + rewrite filter_cons_True by done. simpl fold_left. rewrite <-IH. done.
  - destruct (tmr_IsDisabled t) eqn:Hd.
    + rewrite filter_cons_False by (by rewrite Hd). rewrite <-IH. by rewrite !andb_false_r.
    + rewrite filter_cons_True by done. simpl fold_left. rewrite <-IH. done.
Qed.

(** X23.  [GetTimersDirectory] succeeds iff the path is valid, is a
    timers root or a timer rule, and the URL has no [view] option or
    the option [hidedisabled]; a failed call adds nothing.  On success
    the disabled timers are hidden iff the option is given or the
    setting is on, and a path that is both a root and a rule is listed
    as a root. *)
Theorem GetTimersDirectory_succeeds_iff (mgr : CPVRManager) (m_url : CURL)
    (results : CFileItemList) :
  let path := CPVRTimersPath_parse (url_GetWithoutOptions m_url) in
  let bHideDisabled :=
    bool_decide (url_Options m_url !! "view" = Some "hidedisabled")
    || SETTING_PVRTIMERS_HIDEDISABLEDTIMERS mgr in
  ((GetTimersDirectory mgr m_url results).1 = true
   ↔ tp_IsValid path = true
     ∧ (tp_IsTimersRoot path = true ∨ tp_IsTimerRule path = true)
     ∧ (url_Options m_url !! "view" = None
        ∨ url_Options m_url !! "view" = Some "hidedisabled"))
  ∧ ((GetTimersDirectory mgr m_url results).1 = false →
     GetTimersDirectory mgr m_url results = (false, results))
  ∧ ((GetTimersDirectory mgr m_url results).1 = true →
     GetTimersDirectory mgr m_url results
     = if tp_IsTimersRoot path
       then GetTimersRootDirectory path bHideDisabled (mgr_Timers mgr) results
       else GetTimersSubDirectory path bHideDisabled (mgr_Timers mgr) results).
Proof.
  intros path bHideDisabled. subst bHideDisabled.
  unfold GetTimersDirectory. fold path.
  destruct (url_Options m_url !! "view") as [view|] eqn:Hv.
  - destruct (HasOption_Some _ _ _ Hv) as [-> ->].
    destruct (decide (view = "hidedisabled")) as [->|Hne].
    + rewrite bool_decide_eq_true_2 by done.
      destruct (tp_IsValid path), (tp_IsTimersRoot path), (tp_IsTimerRule path); simpl;
        split_and!; try done; naive_solver.
    + rewrite bool_decide_eq_false_2 by congruence.
      destruct (tp_IsValid path), (tp_IsTimersRoot path), (tp_IsTimerRule path); simpl;
        split_and!; try done; naive_solver.
  - rewrite (HasOption_None _ _ Hv). rewrite bool_decide_eq_false_2 by done.
    destruct (tp_IsValid path), (tp_IsTimersRoot path), (tp_IsTimerRule path); simpl;
      split_and!; try done; naive_solver.
Qed.

End TimerFacts.

(** ** Providers (lines 1001-1113) *)

Section ProviderFacts.
Context `{Collaborators}.

(** X24.  The providers root lists, in order, one entry per provider
    that serves a channel or a recording of the path's kind; the entry
    refers to the provider, and its path is made from the kind of the
    listed path and the provider's client and unique id. *)
Theorem providers_root_listing (mgr : CPVRManager) (m_url : CURL) (results : CFileItemList) :
  let path := CPVRProvidersPath_parse (url_GetWithoutOptions m_url) in
  pp_IsValid path = true → pp_IsProvidersRoot path = true →
  GetProvidersDirectory mgr m_url results
  = (true,
     WithItems
       (λ items,
          items ++ ((λ provider,
                       CFileItem_of
                         (pp_AsString (CPVRProvidersPath_provider (pp_GetKind path)
                                         (prov_ClientId provider) (prov_UniqueId provider)))
                         (PVRProviderInfoTag provider))
                    <$> filter (Serves mgr (pp_IsRadio path)) (mgr_Providers mgr)))
       results).
Proof.
  intros path Hvalid Hroot. unfold GetProvidersDirectory. fold path. rewrite Hvalid, Hroot.
  f_equal.
  apply (fold_left_Add_filter _
           (λ provider,
              negb (negb (HasChannelForProvider mgr (pp_IsRadio path) (prov_ClientId provider)
                            (prov_UniqueId provider))
                    && negb (HasRecordingForProvider mgr (pp_IsRadio path)
                               (prov_ClientId provider) (prov_UniqueId provider))))).
  - intros rs provider. by destruct (negb _ && negb _).
  - intros provider. unfold Serves.
    destruct (HasChannelForProvider _ _ _ _), (HasRecordingForProvider _ _ _ _); naive_solver.
Qed.

(** X25.  Below a provider, the channels listing fails and adds nothing
    when the backend has no 'All channels' group of the kind;
    otherwise it lists, in order, the visible members of that group
    whose channel is of the path's client and, when the path names a
    provider other than the invalid one, of that provider.  The
    recordings listing lists, in order, the recordings of the path's
    kind, client and provider in the same sense, deleted ones
    included, as plain entries without an overlay. *)
Theorem provider_contents_listing (mgr : CPVRManager) (m_url : CURL)
    (results : CFileItemList) :
  let path := CPVRProvidersPath_parse (url_GetWithoutOptions m_url) in
  pp_IsValid path = true → pp_IsProvidersRoot path = false → pp_IsProvider path = false →
  (pp_IsChannels path = true →
   GetProvidersDirectory mgr m_url results
   = match GetGroupAll mgr (pp_IsRadio path) with
     | Some group =>
         (true,
          WithItems
            (λ items,
               items ++ (CFileItem_groupMember
                         <$> filter (λ m, OfProvider path (ch_ClientID (gm_Channel m))
                                            (ch_ClientProviderUid (gm_Channel m)))
                               (GetMembers group Include_ONLY_VISIBLE)))
            results)
     | None => (false, results)
     end)
  ∧ (pp_IsChannels path = false → pp_IsRecordings path = true →
     GetProvidersDirectory mgr m_url results
     = (true,
        WithItems
          (λ items,
             items ++ (CFileItem_recording
                       <$> filter (λ r, rec_IsRadio r = pp_IsRadio path
                                        ∧ OfProvider path (rec_ClientID r)
                                            (rec_ClientProviderUid r))
                             (mgr_Recordings mgr)))
          results)).
Proof.
  intros path Hvalid Hroot Hprovider. unfold GetProvidersDirectory. fold path.
  rewrite Hvalid, Hroot, Hprovider. split.
  - intros ->. destruct (GetGroupAll mgr (pp_IsRadio path)) as [group|]; [|done]. f_equal.
    apply (fold_left_Add_filter _
             (λ m, bool_decide (ch_ClientID (gm_Channel m) = pp_GetClientId path)
                   && negb (bool_decide (pp_GetProviderUid path ≠ PVR_PROVIDER_INVALID_UID)
                            && negb (bool_decide (ch_ClientProviderUid (gm_Channel m)
                                                  = pp_GetProviderUid path))))).
    + intros rs m. cbn zeta. destruct (bool_decide (ch_ClientID _ = _)); [|done]. simpl.
      by destruct (_ && _).
    + intros m. unfold OfProvider.
      rewrite andb_true_iff, negb_true_iff, andb_false_iff, negb_false_iff,
        bool_decide_eq_false, !bool_decide_eq_true.
      destruct (decide (pp_GetProviderUid path = PVR_PROVIDER_INVALID_UID)); naive_solver.
  - intros -> ->. f_equal.
    apply (fold_left_Add_filter _
             (λ r, bool_decide (rec_IsRadio r = pp_IsRadio path)
                   && bool_decide (rec_ClientID r = pp_GetClientId path)
                   && negb (bool_decide (pp_GetProviderUid path ≠ PVR_PROVIDER_INVALID_UID)
                            && negb (bool_decide (rec_ClientProviderUid r
                                                  = pp_GetProviderUid path))))).
    + intros rs r. destruct (bool_decide (rec_IsRadio r = _)); [|done].
      destruct (bool_decide (rec_ClientID r = _)); [|done]. simpl.
      by destruct (_ && _).
    + intros r. unfold OfProvider.
      rewrite !andb_true_iff, negb_true_iff, andb_false_iff, negb_false_iff,
        bool_decide_eq_false, !bool_decide_eq_true.
      destruct (decide (pp_GetProviderUid path = PVR_PROVIDER_INVALID_UID)); naive_solver.
Qed.

End ProviderFacts.

Lemma providers_root_listing_witness :
  m_infoTag <$> m_items (GetProvidersDirectory (H := collaborators) providerManager
                           (pvrURL "providers/tv/" ∅) CFileItemList_empty).2
  = [PVRProviderInfoTag providerOne].
Proof.
  rewrite (providers_root_listing (H := collaborators) providerManager
             (pvrURL "providers/tv/" ∅) CFileItemList_empty eq_refl eq_refl).
  by vm_compute.
Defined.

Lemma provider_contents_listing_witness :
  m_items (GetProvidersDirectory (H := collaborators) providerManager
             (pvrURL "providers/tv/1/7/recordings" ∅) CFileItemList_empty).2
  = [CFileItem_recording keptRecording; CFileItem_recording deletedRecording]
  ∧ rec_IsDeleted deletedRecording = true.
Proof.
  split; [|done].
  destruct (provider_contents_listing (H := collaborators) providerManager
              (pvrURL "providers/tv/1/7/recordings" ∅) CFileItemList_empty
              eq_refl eq_refl eq_refl) as [_ ->]; [done | done |].
  by vm_compute.
Defined.

(** ** Saved searches (lines 670-698) *)

Section SavedSearchFacts.
Context `{Collaborators}.

(** X26.  The saved-searches listing always succeeds and adds one
    entry per saved search of the kind, in order.  The listing of one
    saved search fails and adds nothing when the backend has no saved
    search with the id; otherwise it succeeds and adds one entry per
    guide entry the search finds, in order. *)
Theorem saved_search_listings (mgr : CPVRManager) (bRadio : bool) (id : Z)
    (results : CFileItemList) :
  GetSavedSearchesDirectory mgr bRadio results
  = (true,
     WithItems
       (λ items, items ++ ((λ search, CFileItem_of (sf_Path search)
                                        (EPGSearchFilterInfoTag search))
                           <$> mgr_SavedSearches mgr bRadio))
       results)
  ∧ GetSavedSearchResults mgr bRadio id results
    = match GetSavedSearchById mgr bRadio id with
      | Some filter =>
          (true,
           WithItems
             (λ items, items ++ ((λ tag, CFileItem_of (epg_Path tag) (EPGInfoTag tag))
                                 <$> sf_Results filter))
             results)
      | None => (false, results)
      end.
Proof.
  assert (∀ (A : Type) (mk : A → CFileItem) (l : list A) (rs : CFileItemList),
            fold_left (λ rs x, Add (mk x) rs) l rs = WithItems (λ items, items ++ (mk <$> l)) rs)
    as Hmap.
  { intros A mk l. induction l as [|x l IH]; intros rs; simpl.
    - by rewrite WithItems_app_nil.
    - rewrite IH. destruct rs. unfold WithItems, Add. simpl. by rewrite <-app_assoc. }
  unfold GetSavedSearchesDirectory, GetSavedSearchResults. split.
  - f_equal. apply Hmap.
  - destruct (GetSavedSearchById mgr bRadio id); [|done]. f_equal. apply Hmap.
Qed.

End SavedSearchFacts.
(** ** What the refresh job counts *)

Section RefreshCount.
Context `{Collaborators}.

(** X27.  The job counts, for a folder, the recordings whose directory
    is the folder's directory itself.  So when every recording lies
    elsewhere, in a directory below the folder's for instance, the
    folder shows no episode in progress after the job, whatever it
    showed before; and if it showed a number other than zero, one
    message is sent for it. *)
Theorem DoWork_counts_only_the_directory_itself
    (job : CPVRRecordingFoldersInProgressEpisodesCountJob) (i : nat) (folder : CFileItem) :
  let recPath := CPVRRecordingsPath_parse (m_strPath folder) in
  m_recordings job ≠ [] →
  m_items (m_folders job) !! i = Some folder →
  rp_IsValid recPath = true →
  Forall (λ r, IsDirectoryMember (rp_GetUnescapedDirectoryPath recPath) (rec_Directory r) true
               = false) (m_recordings job) →
  ∃ folder',
    m_items (m_folders (DoWork job).1.2) !! i = Some folder'
    ∧ asInteger (GetProperty "inprogressepisodes" folder') 0 = 0
    ∧ (asInteger (GetProperty "inprogressepisodes" folder) 0 ≠ 0 →
       MessagesAbout i (DoWork job).2 = [GUI_MSG_UPDATE_ITEM i folder']).
Proof.
  intros recPath Hrecs Hi Hvalid Hnone.
  rewrite DoWork_unfold by (done || by intros Hn; rewrite Hn in Hi).
  destruct (DoWork_loop_lookup (m_recordings job) 0 i _ folder Hi) as [Hl Hm].
  change (0 + i)%nat with i in *. cbn [fst snd m_folders m_items WithItems].
  rewrite Hl, Hm, DoWork_folder_spec. fold recPath. rewrite Hvalid.
  assert (RecomputedInProgress folder (m_recordings job) = 0) as ->.
  { unfold RecomputedInProgress. rewrite filter_none; [done|].
    intros r Hr [Hmatch _]. unfold MatchesFolder in Hmatch. cbv zeta in Hmatch.
    destruct Hmatch as (_ & _ & _ & Hmember).
    eapply Forall_forall in Hnone; [|done]. cbv beta in Hnone. subst recPath. congruence. }
  case_decide as Hshown; eexists; (split; [reflexivity|]); split; try done.
  unfold GetProperty. simpl. by rewrite lookup_insert_eq.
Qed.

End RefreshCount.

Lemma DoWork_counts_only_the_directory_itself_witness :
  out_jobs (GetRecordingsDirectory (H := collaborators) quxManager activeRoot CFileItemList_empty)
  = [quxJob]
  ∧ GetProperty "inprogressepisodes" quxFolder = VariantTypeInteger 1
  ∧ ∃ folder',
      m_items (m_folders (DoWork (H := collaborators) quxJob).1.2) !! 0%nat = Some folder'
      ∧ asInteger (GetProperty "inprogressepisodes" folder') 0 = 0
      ∧ MessagesAbout 0 (DoWork (H := collaborators) quxJob).2
        = [GUI_MSG_UPDATE_ITEM 0 folder'].
Proof.
  split; [by vm_compute|]. split; [by vm_compute|].
  destruct (DoWork_counts_only_the_directory_itself (H := collaborators) quxJob 0 quxFolder)
    as (folder' & Hl & Hzero & Hsent); [done | done | by vm_compute | by repeat constructor|].
  exists folder'. split_and!; [done | done |]. apply Hsent. by vm_compute.
Defined.
(** ** [Exists] and [GetDirectory] *)

Section ExistsFacts.
Context `{Collaborators}.

(** X28.  A URL for which [Exists] holds is listed by the recordings
    listing and by no other: [GetDirectory] then does what
    [GetRecordingsDirectory] does on the list marked as never to be
    cached.  The listing may still fail, so [Exists] does not say that
    the directory can be listed. *)
Theorem Exists_routes_to_recordings (mgr : CPVRManager) (m_url : CURL)
    (results : CFileItemList) :
  Exists mgr m_url = true →
  GetDirectory mgr m_url results
  = GetRecordingsDirectory mgr m_url (SetCacheToDisc CACHE_NEVER results).
Proof.
  unfold Exists. destruct (mgr_IsStarted mgr) eqn:Hstarted; [|done]. simpl.
  intros [_ Hrec]%andb_true_iff.
  assert (StringUtils.StartsWith (FileNameOf m_url) "recordings" = true) as Hfile.
  { unfold FileNameOf. rewrite StartsWith_RemoveSlashAtEnd; [done|]. simpl. by repeat split. }
  destruct (StartsWith_recordings_not_tv_radio _ Hfile) as [Htv Hradio].
  unfold GetDirectory, FileNameOf in *. rewrite Hstarted, Htv, Hradio, Hfile.
  case_decide as Hempty; [|done]. by rewrite Hempty in Hfile.
Qed.

End ExistsFacts.

Lemma Exists_routes_to_recordings_witness :
  Exists emptyManager (pvrURL "recordingsX" ∅) = true
  ∧ GetDirectory (H := collaborators) emptyManager (pvrURL "recordingsX" ∅) CFileItemList_empty
    = GetRecordingsDirectory (H := collaborators) emptyManager (pvrURL "recordingsX" ∅)
        (SetCacheToDisc CACHE_NEVER CFileItemList_empty)
  ∧ out_ok (GetDirectory (H := collaborators) emptyManager (pvrURL "recordingsX" ∅)
              CFileItemList_empty) = false.
Proof.
  split; [done|]. split; [|by vm_compute].
  by apply (Exists_routes_to_recordings (H := collaborators) emptyManager
              (pvrURL "recordingsX" ∅) CFileItemList_empty).
Defined.
